(** * ScamShield AI: the hybrid risk-scoring pipeline and the analytics log

    A shallow embedding of the Python sources

      - [backend/detection/rule_detector.py]      ([RuleDetector])
      - [backend/detection/language_processor.py] ([LanguageProcessor])
      - [backend/main.py]                   ([DetectionEngine], [/analyze])
      - [backend/analytics/tracker.py]            ([ScamAnalytics],
                                                   [PerformanceMetrics])
      - [backend/analytics/threat_intel.py]       ([ThreatIntelligence])
      - [backend/detection/screenshot_analyzer.py]
                                                   ([FakeScreenshotDetector])
      - [backend/core/config.py]                  ([Settings])

    Conventions of the embedding.

    - A Python [str] is a list of Unicode code points ([text] = [list N]).
      The classes [\w], [\d], [\s] and [str.lower] are those of Python on the
      ASCII range; [\s] also has Python's non-ASCII white space.  Outside
      ASCII the case mapping and the alphanumeric table of Unicode are not
      modelled: such code points are left unchanged by [lower] and are not
      word characters.  A theorem whose statement would differ beyond ASCII
      is stated for ASCII text ([isascii]), where the classes and the case
      mapping are Python's.  The only pattern of the program with non-ASCII
      characters is the class of currency signs of the screenshot
      analyzer.
    - A Python [float] is an exact rational ([Q]); [==] on [Q] is [Qeq].
    - [re] patterns are terms of a small syntax ([regex]) and are matched by a
      backtracking matcher that lists the possible match lengths in the order
      in which Python's engine tries them.
    - [list(set(xs))] is [elements (list_to_set xs)] on stdpp's [gset]: a
      duplicate-free list with the members of [xs], in an order the program
      does not control.
    - [datetime.now()] is a clock reading passed as an argument (seconds, [Z]);
      [hashlib.sha256] and the trained classifier are parameters. *)

From Stdlib Require Import QArith Qminmax Qround Qabs Lqa.
From Stdlib Require Import Ascii String.
From stdpp Require Import gmap strings list sorting.

Set Default Proof Using "Type".
#[local] Set Warnings "-abstract-large-number".

(** ** Text *)

Abbreviation text := (list N).

(** A string literal of the source as a list of code points. *)
Fixpoint str (s : string) : text :=
  match s with
  | EmptyString => []
  | String a s' => N_of_ascii a :: str s'
  end.

(** The character classes and the case mapping on the ASCII range, where
    they are Python's.  Beyond it Python's [\w], [\d] and [str.lower] go by
    the Unicode tables of the interpreter, which are not part of the
    program: the statements that depend on them are made for ASCII text. *)
Module Char.

Definition between (lo hi c : N) : bool := (lo <=? c)%N && (c <=? hi)%N.

Definition is_upper (c : N) : bool := between 65 90 c.
Definition is_lower (c : N) : bool := between 97 122 c.
(** [\d] on ASCII *)
Definition is_digit (c : N) : bool := between 48 57 c.

(** [\w] on ASCII: letters, digits and the underscore. *)
Definition is_word (c : N) : bool :=
  is_upper c || is_lower c || is_digit c || (c =? 95)%N.

(** [\s], [str.isspace]. *)
Definition is_space (c : N) : bool :=
  between 9 13 c || between 28 32 c || (c =? 133)%N || (c =? 160)%N
  || (c =? 5760)%N || between 8192 8202 c || (c =? 8232)%N || (c =? 8233)%N
  || (c =? 8239)%N || (c =? 8287)%N || (c =? 12288)%N.

(** [str.lower] on an ASCII character *)
Definition lower (c : N) : N := if is_upper c then (c + 32)%N else c.

End Char.

(** [str.lower()], on ASCII text *)
Definition lower (t : text) : text := map Char.lower t.

(** [str.strip()] *)
Fixpoint lstrip (t : text) : text :=
  match t with
  | c :: t' => if Char.is_space c then lstrip t' else t
  | [] => []
  end.

Definition strip (t : text) : text := rev (lstrip (rev (lstrip t))).

(** [str.split()]: the maximal runs of characters that are not white space.
    [cur] is the word being read, reversed. *)
Fixpoint split_from (cur : text) (t : text) : list text :=
  match t with
  | [] => match cur with [] => [] | _ => [rev cur] end
  | c :: t' =>
      if Char.is_space c
      then match cur with
           | [] => split_from [] t'
           | _ => rev cur :: split_from [] t'
           end
      else split_from (c :: cur) t'
  end.

Definition split (t : text) : list text := split_from [] t.

(** [w in t] on strings *)
Fixpoint starts_with (w t : text) : bool :=
  match w, t with
  | [], _ => true
  | a :: w', b :: t' => (a =? b)%N && starts_with w' t'
  | _ :: _, [] => false
  end.

Fixpoint contains (w t : text) : bool :=
  starts_with w t ||
  match t with
  | [] => false
  | _ :: t' => contains w t'
  end.

(** ** Regular expressions *)

Module Re.

(** The constructs the program's patterns use.  [Rep p lo hi] is a greedy
    repetition [c{lo,hi}] of a character class; [+] is [Rep p 1 None]. *)
Inductive regex : Type :=
  | Str (w : text)
  | Class (p : N → bool)
  | Bound
  | Cat (r1 r2 : regex)
  | Or (r1 r2 : regex)
  | Opt (r : regex)
  | Rep (p : N → bool) (lo : nat) (hi : option nat).

Definition is_word_opt (o : option N) : bool :=
  match o with Some c => Char.is_word c | None => false end.

(** [\b] holds between a word character and a character that is not one,
    the two ends of the string counting as the latter. *)
Definition at_boundary (prev : option N) (s : text) : bool :=
  xorb (is_word_opt prev) (is_word_opt (head s)).

Fixpoint run (p : N → bool) (s : text) : nat :=
  match s with
  | c :: s' => if p c then S (run p s') else 0
  | [] => 0
  end.

(** The character before position [n] of [s], [prev] being the one before
    [s] itself. *)
Definition char_before (prev : option N) (s : text) (n : nat) : option N :=
  match n with
  | 0 => prev
  | S m => s !! m
  end.

(** [rmatch r prev s]: the lengths of the prefixes of [s] that [r] can match,
    in the order of the backtracking search. *)
Fixpoint rmatch (r : regex) (prev : option N) (s : text) : list nat :=
  match r with
  | Str w => if starts_with w s then [length w] else []
  | Class p =>
      match s with
      | c :: _ => if p c then [1] else []
      | [] => []
      end
  | Bound => if at_boundary prev s then [0] else []
  | Cat r1 r2 =>
      flat_map
        (λ n, map (λ k, n + k) (rmatch r2 (char_before prev s n) (drop n s)))
        (rmatch r1 prev s)
  | Or r1 r2 => rmatch r1 prev s ++ rmatch r2 prev s
  | Opt r1 => rmatch r1 prev s ++ [0]
  | Rep p lo hi =>
      let k := match hi with
               | Some h => Nat.min h (run p s)
               | None => run p s
               end in
      if (lo <=? k)%nat then rev (seq lo (S k - lo)) else []
  end.

(** [re.search]: the leftmost position with a match, as (start, length). *)
Fixpoint search_from (r : regex) (prev : option N) (s : text) (i : nat)
  : option (nat * nat) :=
  match rmatch r prev s with
  | n :: _ => Some (i, n)
  | [] =>
      match s with
      | [] => None
      | c :: s' => search_from r (Some c) s' (S i)
      end
  end.

Definition search (r : regex) (t : text) : option (nat * nat) :=
  search_from r None t 0.

(** [match.group()] *)
Definition group (t : text) (m : nat * nat) : text :=
  take (snd m) (drop (fst m) t).

(** [re.finditer]: the matched texts, left to right, not overlapping.
    [skip] counts the characters still inside the previous match. *)
Fixpoint finditer_from (r : regex) (prev : option N) (s : text) (skip : nat)
  : list text :=
  match skip with
  | S k =>
      match s with
      | [] => []
      | c :: s' => finditer_from r (Some c) s' k
      end
  | 0 =>
      match rmatch r prev s with
      | n :: _ =>
          take n s ::
          match s with
          | [] => []
          | c :: s' => finditer_from r (Some c) s' (pred n)
          end
      | [] =>
          match s with
          | [] => []
          | c :: s' => finditer_from r (Some c) s' 0
          end
      end
  end.

Definition finditer (r : regex) (t : text) : list text :=
  finditer_from r None t 0.

(** [re.sub(r, repl, t)] *)
Fixpoint sub_from (r : regex) (repl : text) (prev : option N) (s : text)
  (skip : nat) : text :=
  match skip with
  | S k =>
      match s with
      | [] => []
      | c :: s' => sub_from r repl (Some c) s' k
      end
  | 0 =>
      match rmatch r prev s with
      | n :: _ =>
          repl ++
          match s with
          | [] => []
          | c :: s' =>
              match n with
              | 0 => c :: sub_from r repl (Some c) s' 0
              | S k => sub_from r repl (Some c) s' k
              end
          end
      | [] =>
          match s with
          | [] => []
          | c :: s' => c :: sub_from r repl (Some c) s' 0
          end
      end
  end.

Definition sub (r : regex) (repl : text) (t : text) : text :=
  sub_from r repl None t 0.

(** The matches of a pattern at position [i] of the text. *)
Definition match_at (r : regex) (t : text) (i : nat) : list nat :=
  rmatch r (char_before None t i) (drop i t).

(** Patterns made of literals, alternatives and options only. *)
Fixpoint plain (r : regex) : bool :=
  match r with
  | Str _ => true
  | Cat r1 r2 | Or r1 r2 => plain r1 && plain r2
  | Opt r1 => plain r1
  | Class _ | Bound | Rep _ _ _ => false
  end.

End Re.

Import Re.

Declare Scope regex_scope.
Delimit Scope regex_scope with re.
Bind Scope regex_scope with regex.
Infix "⋅" := Cat (at level 40, left associativity) : regex_scope.
Infix "∣" := Or (at level 50, left associativity) : regex_scope.
Notation "'\b'" := Bound : regex_scope.

(** [\bw\b] for a literal [w] *)
Definition word (w : string) : regex := (\b ⋅ Str (str w) ⋅ \b)%re.

(** [\b...\b] around a pattern *)
Definition bounded (r : regex) : regex := (\b ⋅ r ⋅ \b)%re.

Definition lit (w : string) : regex := Str (str w).

(** An [int] count used as a [float] *)
Definition nat_q (n : nat) : Q := inject_Z (Z.of_nat n).

(** ** Language processing ([detection/language_processor.py]) *)

Module LanguageProcessor.

(** The dictionary [process] returns.  The language is the hint when one is
    given, and the hint of a request may be [None]. *)
Record LanguageInfo := {
  language : option string;
  confidence : Q;
  processed_text : text;
  original_text : text
}.

Definition URDU_RANGE : N * N := (1536, 1791)%N.

Definition ROMAN_URDU_WORDS : list string :=
  ["aap"; "apka"; "hai"; "mein"; "ko"; "ka"; "foran"; "abhi"].

(** [a / max(b, 1)] on lengths *)
Definition ratio (a b : nat) : Q := Z.of_nat a # Pos.of_nat (Nat.max b 1).

Definition _detect_language (t : text) : string * Q :=
  let urdu_chars :=
    length (List.filter (Char.between URDU_RANGE.1 URDU_RANGE.2) t) in
  if (5 <? urdu_chars)%nat then ("urdu", ratio urdu_chars (length t))
  else
    let text_lower := lower t in
    let roman_count :=
      length (List.filter (λ w, contains (str w) text_lower)
                ROMAN_URDU_WORDS) in
    if (2 <=? roman_count)%nat
    then ("roman_urdu", ratio roman_count (length (split t)))
    else ("english", 0.95%Q).

Definition translations : list (string * string) :=
  [("foran", "immediately"); ("abhi", "now"); ("aap", "you");
   ("apka", "your"); ("hai", "is")].

Definition _translate_roman_urdu (t : text) : text :=
  foldl (λ t e, sub (bounded (lit e.1)) (str e.2) t) t translations.

Definition process (message : text) (language_hint : option string)
  : LanguageInfo :=
  let '(lang, conf) :=
    if decide (language_hint = Some "auto")
    then let d := _detect_language message in (Some d.1, d.2)
    else (language_hint, 1%Q) in
  let processed := strip (lower message) in
  let processed := sub (Rep Char.is_space 1 None) (str " ") processed in
  let processed :=
    if decide (lang = Some "roman_urdu")
    then _translate_roman_urdu processed
    else processed in
  {| language := lang; confidence := conf;
     processed_text := processed; original_text := message |}.

End LanguageProcessor.

(** ** The rule engine ([detection/rule_detector.py]) *)

Module RuleDetector.

Import LanguageProcessor.

Definition BRANDS : list (string * list regex) :=
  [("pakistan_financial",
    [word "easypaisa"; word "jazzcash"; word "hbl"; word "ubl";
     word "meezan"; word "ally"; word "faysal"; word "habib"]);
   ("global_financial",
    [word "paypal"; word "stripe"; word "western union"]);
   ("global_tech",
    [word "whatsapp"; word "google"; word "amazon"]);
   ("government",
    [word "fbr"; word "nadra"; word "irs"])].

Definition URGENCY_KEYWORDS : list regex :=
  [bounded (lit "urgent" ⋅ Opt (lit "ly"));
   word "immediately"; word "asap"; word "now"; word "today";
   bounded (lit "expir" ⋅ (lit "e" ∣ lit "ing" ∣ lit "ed"))].

Definition SENSITIVE_DATA : list regex :=
  [word "otp"; word "pin"; word "password"; word "cvv"; word "cnic"].

(** [bit\.ly|tinyurl] *)
Definition SHORTENED_URL : regex := (lit "bit.ly" ∣ lit "tinyurl")%re.

Record result := {
  score : Q;
  triggered_rules : list string;
  keywords : list text
}.

(** The three variables [analyze] updates. *)
Record acc := {
  rules : list string;
  kws : list text;
  total : Q
}.

Definition hit (rule : string) (inc : Q) (kw : list text) (a : acc) : acc :=
  {| rules := rules a ++ [rule];
     kws := kws a ++ kw;
     total := total a + inc |}.

(** The body of the inner brand loop: a pattern that is found appends the
    rule of its category, adds 0.15 and records the matched text. *)
Definition brand_pattern (text_lower : text) (category : string) (a : acc)
  (pattern : regex) : acc :=
  match search pattern text_lower with
  | Some m =>
      hit ("brand_impersonation_" +:+ category) 0.15 [group text_lower m] a
  | None => a
  end.

Definition brand_category (text_lower : text) (a : acc)
  (entry : string * list regex) : acc :=
  foldl (brand_pattern text_lower entry.1) a entry.2.

Definition urgency_matches (text_lower : text) : list text :=
  flat_map (λ pattern, finditer pattern text_lower) URGENCY_KEYWORDS.

Definition urgency (text_lower : text) (a : acc) : acc :=
  let matches := urgency_matches text_lower in
  let urgency_count := length matches in
  let a := {| rules := rules a; kws := kws a ++ matches; total := total a |} in
  if (0 <? urgency_count)%nat
  then hit "urgency_language"
         (Qmin (nat_q urgency_count * 0.1) 0.25) [] a
  else a.

(** The sensitive-data loop leaves at the first pattern found ([break]). *)
Fixpoint sensitive (text_lower : text) (patterns : list regex) (a : acc)
  : acc :=
  match patterns with
  | [] => a
  | pattern :: rest =>
      match search pattern text_lower with
      | Some m => hit "sensitive_data_request" 0.25 [group text_lower m] a
      | None => sensitive text_lower rest a
      end
  end.

Definition shortened (text_lower : text) (a : acc) : acc :=
  match search SHORTENED_URL text_lower with
  | Some _ => hit "shortened_url" 0.25 [str "shortened_url"] a
  | None => a
  end.

(** The accumulators at the end of [analyze], before the clamp. *)
Definition run_rules (text_lower : text) : acc :=
  let a := {| rules := []; kws := []; total := 0 |} in
  let a := foldl (brand_category text_lower) a BRANDS in
  let a := urgency text_lower a in
  let a := sensitive text_lower SENSITIVE_DATA a in
  shortened text_lower a.

Definition analyze (message : text) (lang_info : LanguageInfo) : result :=
  let text_lower := lower message in
  let a := run_rules text_lower in
  {| score := Qmin (total a) 1;
     triggered_rules := elements (list_to_set (rules a) : gset string);
     keywords := elements (list_to_set (kws a) : gset text) |}.

Definition EXPLAINED : list string :=
  ["brand_impersonation_pakistan_financial";
   "brand_impersonation_global_financial";
   "brand_impersonation_global_tech";
   "brand_impersonation_government";
   "urgency_language"; "sensitive_data_request"; "shortened_url"].

(** *** What the rule engine reports, stated on the message

    The quantities the score is made of, and the key words of a rule with
    the places where they stand as whole words. *)

Definition found (t : text) (p : regex) : bool :=
  match search p t with Some _ => true | None => false end.

Definition brand_rule (category : string) : string :=
  "brand_impersonation_" +:+ category.

(** The brand patterns found, over all categories. *)
Definition brand_hits (t : text) : nat :=
  length (List.filter (found t) (flat_map snd BRANDS)).

(** The brand categories with a pattern found. *)
Definition brand_categories_hit (t : text) : nat :=
  length (List.filter (λ e, existsb (found t) e.2) BRANDS).

Definition urgency_count (t : text) : nat := length (urgency_matches t).

Definition sensitive_found (t : text) : bool :=
  existsb (found t) SENSITIVE_DATA.

Definition shortened_found (t : text) : bool := found t SHORTENED_URL.

Definition flat (b : bool) : Q := if b then 0.25%Q else 0%Q.

(** The sum with one increment for each brand pattern found. *)
Definition score_per_pattern (t : text) : Q :=
  Qmin (0.15 * nat_q (brand_hits t)
        + Qmin (nat_q (urgency_count t) * 0.1) 0.25
        + flat (sensitive_found t) + flat (shortened_found t)) 1.

(** The sum with one increment for each brand category matched. *)
Definition score_per_category (t : text) : Q :=
  Qmin (0.15 * nat_q (brand_categories_hit t)
        + Qmin (nat_q (urgency_count t) * 0.1) 0.25
        + flat (sensitive_found t) + flat (shortened_found t)) 1.

(** The texts a pattern without character classes can match. *)
Fixpoint words_of (r : regex) : list text :=
  match r with
  | Str w => [w]
  | Bound => [[]]
  | Cat r1 r2 =>
      flat_map (λ w1, map (λ w2, w1 ++ w2) (words_of r2)) (words_of r1)
  | Or r1 r2 => words_of r1 ++ words_of r2
  | Opt r1 => words_of r1 ++ [[]]
  | Class _ | Rep _ _ _ => []
  end.

(** A key word begins and ends with a word character. *)
Definition edges (w : text) : bool :=
  is_word_opt (head w) && is_word_opt (last w).



(** The rule names the brand loop appends for a category. *)
Definition brand_rules (t : text) (e : string * list regex) : list string :=
  (λ _, brand_rule e.1) <$> List.filter (found t) e.2.



(** [kw] stands in [t] at position [i]. *)
Definition occurs_at (kw t : text) (i : nat) : Prop :=
  take (length kw) (drop i t) = kw.

(** The [n] characters of [t] from position [i] have no word character
    next to them, on either side. *)
Definition whole_word_at (t : text) (i n : nat) : Prop :=
  is_word_opt (char_before None t i) = false
  ∧ is_word_opt (t !! (i + n)) = false.

End RuleDetector.

(** ** Configuration ([core/config.py]) *)

Module Config.

(** The settings the pipeline reads.  Each is taken from the environment
    when the process starts. *)
Record Settings := {
  ENABLE_ML : bool;
  ENABLE_ANALYTICS : bool;
  ML_WEIGHT : Q;
  RULE_WEIGHT : Q;
  SCAM_THRESHOLD : Q;
  SUSPICIOUS_THRESHOLD : Q;
  MAX_MESSAGE_LENGTH : Z
}.

(** The values used when the environment sets none. *)
Definition default : Settings := {|
  ENABLE_ML := true;
  ENABLE_ANALYTICS := true;
  ML_WEIGHT := 0.65;
  RULE_WEIGHT := 0.35;
  SCAM_THRESHOLD := 0.75;
  SUSPICIOUS_THRESHOLD := 0.45;
  MAX_MESSAGE_LENGTH := 5000
|}.

End Config.

(** ** Values shared by the engine and the analytics *)

Inductive classification := SCAM | SUSPICIOUS | SAFE.

Global Instance classification_eq_dec : EqDecision classification.
Proof. solve_decision. Defined.

(** A call that returns or raises. *)
Inductive outcome (A : Type) : Type :=
  | Return (a : A)
  | Raise (e : string).
Arguments Return {A} a.
Arguments Raise {A} e.

Definition bind {A B : Type} (x : outcome A) (f : A → outcome B)
  : outcome B :=
  match x with
  | Return a => f a
  | Raise e => Raise e
  end.

Notation "x ←! e1 ; e2" := (bind e1 (λ x, e2))
  (at level 100, e1 at next level, e2 at level 200, right associativity).

(** [round(x, ndigits)], to the nearest with ties to even, on the exact
    value. *)
Definition round_half_even (x : Q) : Z :=
  let f := Qfloor x in
  match (x - inject_Z f ?= 1 # 2)%Q with
  | Lt => f
  | Gt => (f + 1)%Z
  | Eq => if Z.even f then f else (f + 1)%Z
  end.

Definition round (x : Q) (ndigits : nat) : Q :=
  let scale := inject_Z (10 ^ Z.of_nat ndigits) in
  (inject_Z (round_half_even (x * scale)) / scale)%Q.

(** The lines of an explanation and of a recommendation, by what they say;
    the numbers a line prints are its arguments. *)
Inductive explanation_line :=
  | AiDetection (ml_score : Q)
  | AiAlert (ml_score : Q)
  | LanguageDetected (lang : string) (confidence : Q)
  | RuleExplanation (rule : string)
  | MultipleRedFlags
  | NoIndicators.

Inductive recommendation_line :=
  | DoNotRespond | DeleteMessage | ReportSpam
  | ExerciseCaution | VerifySender | DoNotClick
  | AppearsSafe
  | NeverShareOtp | VerifyOfficialApp | NeverClickShortened.

(** The dictionary [analyze_message] returns. *)
Record detection_result := {
  r_classification : classification;
  r_risk_score : Q;
  r_ml_score : Q;
  r_rule_score : Q;
  r_confidence : Q;
  r_explanation : list explanation_line;
  r_highlighted_keywords : list text;
  r_triggered_rules : list string;
  r_safety_recommendations : list recommendation_line;
  r_language_info : option string * Q;
  r_analyzed_at : Z;
  r_message_hash : text
}.

(** [s.replace(old, new)] for a non-empty [old] *)
Fixpoint replace_from (old new : text) (t : text) (skip : nat) : text :=
  match skip with
  | S k =>
      match t with
      | [] => []
      | _ :: t' => replace_from old new t' k
      end
  | 0 =>
      match t with
      | [] => []
      | c :: t' =>
          if starts_with old t
          then new ++ replace_from old new t' (pred (length old))
          else c :: replace_from old new t' 0
      end
  end.

Definition replace (old new t : text) : text := replace_from old new t 0.

(** ** The analytics log ([analytics/tracker.py]) *)

Module Analytics.

(** A record of the log.  [log_detection] reads the keys [ml_probability]
    and [language_detected], which the dictionary of [analyze_message] does
    not have: the two entries are [None]. *)
Record detection_record := {
  timestamp : Z;
  classification_of : classification;
  risk_score : Q;
  ml_probability : option Q;
  rule_score : Q;
  triggered_rules : list string;
  language : option string;
  message_hash : text;
  message_length : nat;
  has_urls : bool
}.

Record ScamAnalytics := {
  detections : list detection_record;
  scam_patterns : gmap string nat;
  brand_mentions : gmap text nat;
  url_patterns : gmap text nat;
  language_distribution : gmap string nat
}.

(** [__init__] *)
Definition init : ScamAnalytics := {|
  detections := [];
  scam_patterns := ∅;
  brand_mentions := ∅;
  url_patterns := ∅;
  language_distribution := ∅
|}.

(** [counter[k] += 1] *)
Definition bump `{Countable K} (k : K) (m : gmap K nat) : gmap K nat :=
  <[k := S (default 0 (m !! k))]> m.

(** *** Redaction *)

Definition PHONE : regex := bounded (Rep Char.is_digit 10 None).

Definition CNIC : regex :=
  bounded (Rep Char.is_digit 5 (Some 5) ⋅ lit "-" ⋅
           Rep Char.is_digit 7 (Some 7) ⋅ lit "-" ⋅
           Rep Char.is_digit 1 (Some 1)).

(** [[\w.-]] *)
Definition name_char (c : N) : bool :=
  Char.is_word c || (c =? 46)%N || (c =? 45)%N.

Definition EMAIL : regex :=
  bounded (Rep name_char 1 None ⋅ lit "@" ⋅ Rep name_char 1 None ⋅
           lit "." ⋅ Rep Char.is_word 1 None).

(** [[\s-]] *)
Definition separator (c : N) : bool := Char.is_space c || (c =? 45)%N.

Definition four_digits : regex := Rep Char.is_digit 4 (Some 4).

Definition CARD : regex :=
  bounded (four_digits ⋅ Opt (Class separator) ⋅
           four_digits ⋅ Opt (Class separator) ⋅
           four_digits ⋅ Opt (Class separator) ⋅
           four_digits).

Definition URL : regex :=
  (lit "http" ⋅ Opt (lit "s") ⋅ lit "://" ⋅
   Rep (λ c, negb (Char.is_space c)) 1 None)%re.

Definition _anonymize_message (message : text) : text :=
  let message := sub PHONE (str "[PHONE]") message in
  let message := sub CNIC (str "[CNIC]") message in
  let message := sub EMAIL (str "[EMAIL]") message in
  let message := sub CARD (str "[CARD]") message in
  let message := sub URL (str "[URL]") message in
  message.

(** *** Ingestion *)

Definition BRAND_PREFIX : text := str "brand_impersonation_".

Definition count_brand (brands : gmap text nat) (rule : string)
  : gmap text nat :=
  if contains (str "brand_impersonation") (str rule)
  then bump (replace BRAND_PREFIX [] (str rule)) brands
  else brands.

Definition _update_counters (a : ScamAnalytics) (record : detection_record)
  : ScamAnalytics :=
  {| detections := detections a;
     scam_patterns :=
       foldl (λ m rule, bump rule m) (scam_patterns a)
         (triggered_rules record);
     brand_mentions :=
       foldl count_brand (brand_mentions a) (triggered_rules record);
     url_patterns := url_patterns a;
     language_distribution :=
       match language record with
       | Some l =>
           if decide (l = EmptyString) then language_distribution a
           else bump l (language_distribution a)
       | None => language_distribution a
       end |}.

(** The capacity of the log. *)
Definition CAPACITY : nat := 10000.

(** [xs[-n:]] for a positive [n] *)
Definition last_n {A : Type} (n : nat) (xs : list A) : list A :=
  drop (length xs - n) xs.

Section Ingest.

(** [hashlib.sha256(message.encode()).hexdigest()[:16]] *)
Variable sha256_16 : text → text.

Definition make_record (now : Z) (analysis_result : detection_result)
  (message : text) : detection_record :=
  {| timestamp := now;
     classification_of := r_classification analysis_result;
     risk_score := r_risk_score analysis_result;
     ml_probability := None;
     rule_score := r_rule_score analysis_result;
     triggered_rules := r_triggered_rules analysis_result;
     language := None;
     message_hash := sha256_16 message;
     message_length := length message;
     has_urls :=
       (0 <? length (r_highlighted_keywords analysis_result))%nat |}.

Definition log_detection (a : ScamAnalytics) (now : Z)
  (analysis_result : detection_result) (message : text) : ScamAnalytics :=
  let anonymized_message := _anonymize_message message in
  let detection_record := make_record now analysis_result message in
  let a :=
    {| detections := detections a ++ [detection_record];
       scam_patterns := scam_patterns a;
       brand_mentions := brand_mentions a;
       url_patterns := url_patterns a;
       language_distribution := language_distribution a |} in
  let a := _update_counters a detection_record in
  if (CAPACITY <? length (detections a))%nat
  then {| detections := last_n CAPACITY (detections a);
          scam_patterns := scam_patterns a;
          brand_mentions := brand_mentions a;
          url_patterns := url_patterns a;
          language_distribution := language_distribution a |}
  else a.

(** An ingestion: the clock reading, the result and the message. *)
Definition input : Type := Z * detection_result * text.

Definition ingest (a : ScamAnalytics) (i : input) : ScamAnalytics :=
  log_detection a i.1.1 i.1.2 i.2.

Definition record_of (i : input) : detection_record :=
  make_record i.1.1 i.1.2 i.2.

End Ingest.

(** *** Windowed statistics *)

(** A [Counter]: the keys in the order of their first occurrence. *)
Definition counter := list (string * nat).

Fixpoint incr (k : string) (c : counter) : counter :=
  match c with
  | [] => [(k, 1)]
  | (k', n) :: c' =>
      if decide (k' = k) then (k', S n) :: c' else (k', n) :: incr k c'
  end.

(** [sorted(xs, key, reverse=True)]: by decreasing key, elements of equal
    key staying in their order. *)
Fixpoint insert_desc {A : Type} (le : A → A → bool) (x : A) (l : list A)
  : list A :=
  match l with
  | [] => [x]
  | y :: l' => if le y x then x :: l else y :: insert_desc le x l'
  end.

Definition sort_desc {A : Type} (le : A → A → bool) (l : list A) : list A :=
  foldr (insert_desc le) [] l.

(** [Counter.most_common(limit)] *)
Definition most_common (limit : nat) (c : counter) : counter :=
  take limit (sort_desc (λ a b, (a.2 <=? b.2)%nat) c).

Record pattern_entry := {
  pattern : string;
  count : nat
}.

Definition flagged (d : detection_record) : bool :=
  match classification_of d with
  | SCAM | SUSPICIOUS => true
  | SAFE => false
  end.

(** The loop of [_get_top_patterns]: the rules of the detections classified
    SCAM or SUSPICIOUS are counted. *)
Definition pattern_counts (ds : list detection_record) : counter :=
  foldl (λ c d, if flagged d then foldl (λ c rule, incr rule c) c
                                      (triggered_rules d)
                else c) [] ds.

Definition entry_of (e : string * nat) : pattern_entry :=
  {| pattern := e.1; count := e.2 |}.

(** [_get_top_patterns]; the description of a pattern, a text looked up
    from its name, is not part of the entry here. *)
Definition _get_top_patterns (ds : list detection_record) (limit : nat)
  : list pattern_entry :=
  entry_of <$> most_common limit (pattern_counts ds).

Definition Qsum (l : list Q) : Q := foldl Qplus 0%Q l.

(** The entries of the statistics dictionary that depend on the counts and
    the patterns of the window; the brand and language tallies and the
    hourly trend are further entries of the same window. *)
Record window_stats := {
  time_period_hours : Z;
  total_messages_analyzed : nat;
  scam_count : nat;
  suspicious_count : nat;
  safe_count : nat;
  scam_percentage : Q;
  average_overall : Q;
  average_scams_only : Q;
  top_scam_patterns : list pattern_entry
}.

(** [_get_empty_stats()] has no [top_scam_patterns]. *)
Inductive statistics :=
  | NoData
  | Window (w : window_stats).

Definition is_class (c : classification) (d : detection_record) : bool :=
  bool_decide (classification_of d = c).

(** The detections of the last [hours] hours. *)
Definition window (a : ScamAnalytics) (now : Z) (hours : Z)
  : list detection_record :=
  let cutoff_time := (now - 3600 * hours)%Z in
  List.filter (λ d, (cutoff_time <? timestamp d)%Z) (detections a).

Definition get_statistics (a : ScamAnalytics) (now : Z) (hours : Z)
  : statistics :=
  let recent := window a now hours in
  match recent with
  | [] => NoData
  | _ =>
      let total_analyzed := length recent in
      let scams := List.filter (is_class SCAM) recent in
      let suspicious := List.filter (is_class SUSPICIOUS) recent in
      let safe := List.filter (is_class SAFE) recent in
      Window {|
        time_period_hours := hours;
        total_messages_analyzed := total_analyzed;
        scam_count := length scams;
        suspicious_count := length suspicious;
        safe_count := length safe;
        scam_percentage :=
          round (nat_q (length scams) / nat_q total_analyzed * 100)%Q 2;
        average_overall :=
          round (Qsum (map risk_score recent) / nat_q total_analyzed)%Q 2;
        average_scams_only :=
          match scams with
          | [] => 0%Q
          | _ => round (Qsum (map risk_score scams)
                        / nat_q (length scams))%Q 2
          end;
        top_scam_patterns := _get_top_patterns recent 10
      |}
  end.

(** [stats.get('top_scam_patterns', [])] *)
Definition top_patterns_of (s : statistics) : list pattern_entry :=
  match s with
  | NoData => []
  | Window w => top_scam_patterns w
  end.

(** *** The counts, stated on the log *)

(** The count a [Counter] holds for a key, 0 for a key it does not have. *)
Definition count_of (c : counter) (k : string) : nat :=
  match List.find (λ e, bool_decide (e.1 = k)) c with
  | Some e => e.2
  | None => 0
  end.

(** The rule names [_get_top_patterns] counts, in the order of the log. *)
Definition counted (ds : list detection_record) : list string :=
  flat_map (λ d, if flagged d then triggered_rules d else []) ds.

Definition occurrences (k : string) (rules : list string) : nat :=
  length (List.filter (λ r, bool_decide (r = k)) rules).

(** The keys of a [Counter] are distinct and its counts positive. *)
Definition well_formed (c : counter) : Prop :=
  NoDup c.*1 ∧ Forall (λ e, 1 ≤ e.2) c.

(** *** Emerging threats *)

Record emerging_threat := {
  e_pattern : string;
  recent_count : nat;
  previous_count : nat;
  change_percentage : Q
}.

(** [{p['pattern']: p['count'] for p in patterns}.get(p, 0)]: the count
    of the last entry named [p].  The names of a list of top patterns are
    distinct, being the keys of a [Counter]. *)
Definition count_in (patterns : list pattern_entry) (p : string) : nat :=
  match List.find (λ e, bool_decide (pattern e = p)) (reverse patterns) with
  | Some e => count e
  | None => 0
  end.

Definition is_emerging (recent_count older_count : nat) : bool :=
  (older_count =? 0)%nat
  || negb (Qle_bool (nat_q recent_count) (nat_q older_count * 1.5)%Q).

Definition change (recent_count older_count : nat) : Q :=
  round ((nat_q recent_count - nat_q older_count)
         / nat_q (Nat.max older_count 1) * 100)%Q 2.

(** [now_recent] and [now_older] are the clock readings of the two calls
    of [get_statistics]. *)
Definition get_emerging_threats (a : ScamAnalytics) (now_recent now_older : Z)
  : list emerging_threat :=
  let recent := get_statistics a now_recent 24 in
  let older := get_statistics a now_older 48 in
  let recent_patterns := top_patterns_of recent in
  let older_patterns := top_patterns_of older in
  let emerging :=
    omap (λ e,
            let older_count := count_in older_patterns (pattern e) in
            if is_emerging (count e) older_count
            then Some {| e_pattern := pattern e;
                         recent_count := count e;
                         previous_count := older_count;
                         change_percentage := change (count e) older_count |}
            else None)
         recent_patterns in
  take 5 (sort_desc (λ x y, Qle_bool (change_percentage x)
                                      (change_percentage y)) emerging).

End Analytics.

(** ** The detection engine and the [/analyze] endpoint ([main.py]) *)

Module Engine.

Import Config LanguageProcessor.

(** The components of the engine that [analyze_message] uses.  The
    classifier is the [predict] call of the detector, which may raise; the
    tracker [main.py] imports is the analytics class of
    [analytics/tracker.py].  [_initialize] is not embedded: it calls the
    detector's constructor with arguments the constructor does not take and
    a tracker class that [analytics/tracker.py] does not define.  The
    theorems hold for every engine with the components they name. *)
Record DetectionEngine := {
  ml_detector : option (text → outcome Q);
  analytics : option Analytics.ScamAnalytics
}.

Definition _calculate_final_score (settings : Settings)
  (ml_score rule_score : Q) : Q :=
  let ml_weight := ML_WEIGHT settings in
  let rule_weight := RULE_WEIGHT settings in
  let final := (ml_score * ml_weight + rule_score * rule_weight)%Q in
  Qmin final 1.

Definition _classify (settings : Settings) (score : Q) : classification :=
  if Qle_bool (SCAM_THRESHOLD settings) score then SCAM
  else if Qle_bool (SUSPICIOUS_THRESHOLD settings) score then SUSPICIOUS
  else SAFE.

Definition _calculate_confidence (ml_score rule_score : Q) : Q :=
  if Qeq_bool ml_score 0 then Qmin (rule_score * 1.2) 1
  else
    let agreement := (1 - Qabs (ml_score - rule_score))%Q in
    let avg_score := ((ml_score + rule_score) / 2)%Q in
    let confidence := (avg_score * agreement * 1.5)%Q in
    Qmin confidence 1.

(** [x > y] on floats *)
Definition Qgt_bool (x y : Q) : bool := negb (Qle_bool x y).

(** [_generate_explanations].  The language line calls [.upper()] on the
    language, which raises when the language is [None]. *)
Definition _generate_explanations (settings : Settings)
  (c : classification) (ml_score rule_score : Q)
  (rule_result : RuleDetector.result) (lang_info : LanguageInfo)
  : outcome (list explanation_line) :=
  let ml_lines :=
    if ENABLE_ML settings && Qgt_bool ml_score 0
    then (if Qgt_bool ml_score 0.75 then [AiDetection ml_score]
          else if Qgt_bool ml_score 0.45 then [AiAlert ml_score]
          else [])
    else [] in
  lang_lines ←!
    (if decide (language lang_info = Some "english") then Return []
     else match language lang_info with
          | Some l => Return [LanguageDetected l (confidence lang_info)]
          | None => Raise "AttributeError"
          end);
  let rule_lines :=
    omap (λ rule, if decide (rule ∈ RuleDetector.EXPLAINED)
                  then Some (RuleExplanation rule) else None)
         (RuleDetector.triggered_rules rule_result) in
  let flags :=
    if (3 <=? length (RuleDetector.triggered_rules rule_result))%nat
    then [MultipleRedFlags] else [] in
  let explanations := ml_lines ++ lang_lines ++ rule_lines ++ flags in
  Return (match explanations with
          | [] => [NoIndicators]
          | _ => explanations
          end).

Definition _generate_recommendations (c : classification)
  (triggered_rules : list string) (lang_info : LanguageInfo)
  : list recommendation_line :=
  (match c with
   | SCAM => [DoNotRespond; DeleteMessage; ReportSpam]
   | SUSPICIOUS => [ExerciseCaution; VerifySender; DoNotClick]
   | SAFE => [AppearsSafe]
   end)
  ++ (if decide ("sensitive_data_request" ∈ triggered_rules)
      then [NeverShareOtp] else [])
  ++ (if decide ("brand_impersonation_pakistan_financial" ∈ triggered_rules)
      then [VerifyOfficialApp] else [])
  ++ (if decide ("shortened_url" ∈ triggered_rules)
      then [NeverClickShortened] else []).

Section Pipeline.

(** [hashlib.sha256(message.encode()).hexdigest()[:16]] *)
Variable sha256_16 : text → text.

Variable settings : Settings.

(** Step 2 of [analyze_message]. *)
Definition ml_step (e : DetectionEngine) (processed_text : text)
  : outcome Q :=
  match ml_detector e with
  | Some predict =>
      if ENABLE_ML settings then predict processed_text else Return 0%Q
  | None => Return 0%Q
  end.

(** [analyze_message]; [now] and [now_log] are the clock readings of the
    result and of the log record.  The engine returned has the record
    appended when analytics is on. *)
Definition analyze_message (e : DetectionEngine) (now now_log : Z)
  (message : text) (language : option string)
  : outcome (detection_result * DetectionEngine) :=
  let lang_info := process message language in
  let processed_text := processed_text lang_info in
  ml_score ←! ml_step e processed_text;
  let rule_result := RuleDetector.analyze message lang_info in
  let rule_score := RuleDetector.score rule_result in
  let final_score := _calculate_final_score settings ml_score rule_score in
  let classification := _classify settings final_score in
  let confidence := _calculate_confidence ml_score rule_score in
  explanations ←!
    _generate_explanations settings classification ml_score rule_score
      rule_result lang_info;
  let recommendations :=
    _generate_recommendations classification
      (RuleDetector.triggered_rules rule_result) lang_info in
  let result := {|
    r_classification := classification;
    r_risk_score := round (final_score * 100) 2;
    r_ml_score := round ml_score 4;
    r_rule_score := round rule_score 4;
    r_confidence := round confidence 4;
    r_explanation := explanations;
    r_highlighted_keywords := RuleDetector.keywords rule_result;
    r_triggered_rules := RuleDetector.triggered_rules rule_result;
    r_safety_recommendations := recommendations;
    r_language_info :=
      (LanguageProcessor.language lang_info,
       round (LanguageProcessor.confidence lang_info) 4);
    r_analyzed_at := now;
    r_message_hash := sha256_16 message
  |} in
  let e' :=
    match analytics e with
    | Some a =>
        {| ml_detector := ml_detector e;
           analytics :=
             Some (Analytics.log_detection sha256_16 a now_log result
                     message) |}
    | None => e
    end in
  Return (result, e').

(** *** The endpoint *)

Record MessageRequest := {
  message : text;
  language : option string
}.

Inductive detail :=
  | MessageEmpty
  | MessageTooLong (max : Z)
  | AnalysisFailed.

(** What the handler does: it answers, or raises an [HTTPException]. *)
Inductive response :=
  | Answer (r : detection_result)
  | HTTPException (status_code : Z) (d : detail).

Definition analyze_endpoint (e : DetectionEngine) (now now_log : Z)
  (request : MessageRequest) : response * DetectionEngine :=
  if bool_decide (message request = [])
     || (length (strip (message request)) =? 0)%nat
  then (HTTPException 400 MessageEmpty, e)
  else if (MAX_MESSAGE_LENGTH settings
           <? Z.of_nat (length (message request)))%Z
  then (HTTPException 400 (MessageTooLong (MAX_MESSAGE_LENGTH settings)),
        e)
  else
    match analyze_message e now now_log (message request)
            (language request) with
    | Return (result, e') => (Answer result, e')
    | Raise _ => (HTTPException 500 AnalysisFailed, e)
    end.

End Pipeline.

End Engine.

(** ** Messages and logs used as examples *)

Module Examples.

Import Config LanguageProcessor.

Definition any_info : LanguageInfo := process [] None.

Definition easypaisa_message : text :=
  str "urgent your easypaisa account will be suspended verify otp now".

(** A log with one detection, made one hour before the clock reading
    360000. *)
Definition fresh_record : Analytics.detection_record := {|
  Analytics.timestamp := 356400;
  Analytics.classification_of := SCAM;
  Analytics.risk_score := 80;
  Analytics.ml_probability := None;
  Analytics.rule_score := 0.6;
  Analytics.triggered_rules := ["urgency_language"%string];
  Analytics.language := None;
  Analytics.message_hash := [];
  Analytics.message_length := 10;
  Analytics.has_urls := true
|}.

Definition fresh_log : Analytics.ScamAnalytics := {|
  Analytics.detections := [fresh_record];
  Analytics.scam_patterns := {["urgency_language"%string := 1]};
  Analytics.brand_mentions := ∅;
  Analytics.url_patterns := ∅;
  Analytics.language_distribution := ∅
|}.

(** A digest that is the same for every message; the theorems hold for any
    digest. *)
Definition no_digest (message : text) : text := [].

Definition ml_off : Settings := {|
  ENABLE_ML := false;
  ENABLE_ANALYTICS := true;
  ML_WEIGHT := 0.65;
  RULE_WEIGHT := 0.35;
  SCAM_THRESHOLD := 0.75;
  SUSPICIOUS_THRESHOLD := 0.45;
  MAX_MESSAGE_LENGTH := 5000
|}.

Definition rules_only : Engine.DetectionEngine := {|
  Engine.ml_detector := None;
  Engine.analytics := None
|}.

Definition safe_result : detection_result := {|
  r_classification := SAFE;
  r_risk_score := 0;
  r_ml_score := 0;
  r_rule_score := 0;
  r_confidence := 0;
  r_explanation := [NoIndicators];
  r_highlighted_keywords := [];
  r_triggered_rules := [];
  r_safety_recommendations := [AppearsSafe];
  r_language_info := (Some "english"%string, 0.95%Q);
  r_analyzed_at := 0;
  r_message_hash := []
|}.

(** The result of a run of the pipeline, when it returns. *)
Definition result_of (o : outcome (detection_result * Engine.DetectionEngine))
  : detection_result :=
  match o with
  | Return (r, _) => r
  | Raise _ => safe_result
  end.

End Examples.

(** ** Trends and the intelligence report ([analytics/tracker.py]) *)

Module Reports.

Import Analytics.

(** *** Hourly trend *)

(** The key of an hour, [strftime('%Y-%m-%d %H:00')]: the hours of the clock
    in their order. *)
Definition hour_of (d : detection_record) : Z := (timestamp d / 3600)%Z.

(** The counts of one hour. *)
Record hour_counts := {
  scam : nat;
  suspicious : nat;
  safe : nat
}.

Definition no_counts : hour_counts := {| scam := 0; suspicious := 0; safe := 0 |}.

(** [counts[classification.lower()] += 1] *)
Definition count_class (c : classification) (h : hour_counts) : hour_counts :=
  match c with
  | SCAM => {| scam := S (scam h); suspicious := suspicious h; safe := safe h |}
  | SUSPICIOUS =>
      {| scam := scam h; suspicious := S (suspicious h); safe := safe h |}
  | SAFE => {| scam := scam h; suspicious := suspicious h; safe := S (safe h) |}
  end.

(** [hourly_counts[hour_key][classification] += 1] on a [defaultdict] *)
Fixpoint tally (hour : Z) (c : classification) (m : list (Z * hour_counts))
  : list (Z * hour_counts) :=
  match m with
  | [] => [(hour, count_class c no_counts)]
  | (h, n) :: m' =>
      if decide (h = hour) then (h, count_class c n) :: m'
      else (h, n) :: tally hour c m'
  end.

Definition hourly (ds : list detection_record) : list (Z * hour_counts) :=
  foldl (λ m d, tally (hour_of d) (classification_of d) m) [] ds.

(** [hourly_counts[h]['scam']] for a key of the dictionary *)
Definition scams_at (m : list (Z * hour_counts)) (h : Z) : nat :=
  match List.find (λ e, bool_decide (e.1 = h)) m with
  | Some e => scam e.2
  | None => 0
  end.

Inductive trend_label :=
  | Increasing
  | Decreasing
  | Stable
  | InsufficientData.

Record trend_analysis := {
  trend : trend_label;
  hourly_breakdown : list (Z * hour_counts)
}.

Definition sum_nat (l : list nat) : nat := foldr Nat.add 0 l.

Definition _analyze_trends (ds : list detection_record) : trend_analysis :=
  let hourly_counts := hourly ds in
  let hours := merge_sort Z.le hourly_counts.*1 in
  let label :=
    if (2 <=? length hours)%nat then
      let half := (length hours / 2)%nat in
      let first_half_scams :=
        sum_nat (scams_at hourly_counts <$> take half hours) in
      let second_half_scams :=
        sum_nat (scams_at hourly_counts <$> drop half hours) in
      if negb (Qle_bool (nat_q second_half_scams)
                 (nat_q first_half_scams * 1.2))
      then Increasing
      else if negb (Qle_bool (nat_q first_half_scams * 0.8)
                      (nat_q second_half_scams))
      then Decreasing
      else Stable
    else InsufficientData in
  {| trend := label; hourly_breakdown := hourly_counts |}.

(** *** The hourly counts, stated on the detections *)

(** The detections of one hour with one classification. *)
Definition tallied (c : classification) (h : Z) (ds : list detection_record)
  : nat :=
  length (List.filter (λ d, bool_decide (hour_of d = h) && is_class c d) ds).

(** The scams of a set of hours. *)
Definition scams_in (hs : list Z) (ds : list detection_record) : nat :=
  length (List.filter (λ d, bool_decide (hour_of d ∈ hs) && is_class SCAM d)
            ds).

(** The counts the dictionary has for an hour. *)
Definition get (m : list (Z * hour_counts)) (h : Z) : hour_counts :=
  match List.find (λ e, bool_decide (e.1 = h)) m with
  | Some e => e.2
  | None => no_counts
  end.

(** *** Brand and language tallies *)

(** A [Counter] with text keys. *)
Fixpoint incr_text (k : text) (c : list (text * nat)) : list (text * nat) :=
  match c with
  | [] => [(k, 1)]
  | (k', n) :: c' =>
      if decide (k' = k) then (k', S n) :: c' else (k', n) :: incr_text k c'
  end.

Definition brand_of (brand_counts : list (text * nat)) (rule : string)
  : list (text * nat) :=
  if contains (str "brand_impersonation") (str rule)
  then incr_text (replace BRAND_PREFIX [] (str rule)) brand_counts
  else brand_counts.

Definition _get_brand_stats (ds : list detection_record) : list (text * nat) :=
  let brand_counts :=
    foldl (λ c d, foldl brand_of c (triggered_rules d)) [] ds in
  take 10 (sort_desc (λ a b, (a.2 <=? b.2)%nat) brand_counts).

(** [Counter(d['language'] for d in recent if d.get('language'))] *)
Definition language_counts (ds : list detection_record) : counter :=
  foldl (λ c d, match language d with
                | Some l => if decide (l = EmptyString) then c else incr l c
                | None => c
                end) [] ds.

(** *** The report *)

(** The four recommendations.  The second names the pattern of the first
    emerging threat, the third the brand; the sentences around them are
    constant. *)
Inductive threat_recommendation :=
  | HighScamActivity
  | NewThreatEmerging (pattern : string)
  | BrandAlert (brand : text)
  | MultiLanguageScams.

(** [max(items, key=lambda x: x[1])]: the first of the largest. *)
Fixpoint max_count (best : text * nat) (l : list (text * nat)) : text * nat :=
  match l with
  | [] => best
  | e :: l' => max_count (if (best.2 <? e.2)%nat then e else best) l'
  end.

Definition _generate_threat_recommendations (w : window_stats)
  (brands : list (text * nat)) (languages : counter)
  (emerging : list emerging_threat) : list threat_recommendation :=
  (if negb (Qle_bool (scam_percentage w) 30) then [HighScamActivity] else [])
  ++ (match emerging with
      | top :: _ => [NewThreatEmerging (e_pattern top)]
      | [] => []
      end)
  ++ (match brands with
      | b :: rest => [BrandAlert (max_count b rest).1]
      | [] => []
      end)
  ++ (if bool_decide ("urdu" ∈ languages.*1)
         || bool_decide ("roman_urdu" ∈ languages.*1)
      then [MultiLanguageScams] else []).

Record intelligence := {
  report_generated : Z;
  total_scams_24h : nat;
  total_scams_7d : nat;
  scam_rate_24h : Q;
  average_risk_score : Q;
  top_threats : list pattern_entry;
  emerging_threats : list emerging_threat;
  most_impersonated_brands : list (text * nat);
  language_breakdown : counter;
  trend_of_day : trend_label;
  recommendations : list threat_recommendation
}.

(** The clock readings the report depends on: those of the two calls of
    [get_statistics], of the two calls inside [get_emerging_threats], and of
    [report_generated]. *)
Record readings := {
  at_24h : Z;
  at_7d : Z;
  at_recent : Z;
  at_older : Z;
  at_report : Z
}.

(** [stats['detection_summary']['scam_count']]; the empty statistics have
    the summary with zeros. *)
Definition scam_count_of (s : statistics) : nat :=
  match s with
  | NoData => 0
  | Window w => scam_count w
  end.

(** [get_threat_intelligence].  The empty statistics have no
    [average_risk_scores]: reading it raises [KeyError]. *)
Definition get_threat_intelligence (a : ScamAnalytics) (clock : readings)
  : outcome intelligence :=
  let stats_24h := get_statistics a (at_24h clock) 24 in
  let stats_7d := get_statistics a (at_7d clock) 168 in
  let emerging := get_emerging_threats a (at_recent clock) (at_older clock) in
  match stats_24h with
  | NoData => Raise "KeyError"
  | Window w =>
      let recent := window a (at_24h clock) 24 in
      Return {|
        report_generated := at_report clock;
        total_scams_24h := scam_count w;
        total_scams_7d := scam_count_of stats_7d;
        scam_rate_24h := scam_percentage w;
        average_risk_score := average_overall w;
        top_threats := take 5 (top_scam_patterns w);
        emerging_threats := emerging;
        most_impersonated_brands := _get_brand_stats recent;
        language_breakdown := language_counts recent;
        trend_of_day := trend (_analyze_trends recent);
        recommendations :=
          _generate_threat_recommendations w (_get_brand_stats recent)
            (language_counts recent) emerging
      |}
  end.

End Reports.

(** ** Model performance ([analytics/tracker.py], [PerformanceMetrics]) *)

Module Metrics.

Record prediction := {
  p_timestamp : Z;
  p_message_hash : text;
  p_prediction : string;
  p_confidence : Q
}.

Record feedback := {
  f_timestamp : Z;
  f_message_hash : text;
  f_actual_label : string
}.

Record PerformanceMetrics := {
  predictions : list prediction;
  user_feedback : list feedback
}.

Definition init : PerformanceMetrics :=
  {| predictions := []; user_feedback := [] |}.

Definition log_prediction (m : PerformanceMetrics) (now : Z)
  (message_hash : text) (prediction : string) (confidence : Q)
  : PerformanceMetrics :=
  {| predictions :=
       predictions m ++ [{| p_timestamp := now;
                            p_message_hash := message_hash;
                            p_prediction := prediction;
                            p_confidence := confidence |}];
     user_feedback := user_feedback m |}.

Definition log_user_feedback (m : PerformanceMetrics) (now : Z)
  (message_hash : text) (actual_label : string) : PerformanceMetrics :=
  {| predictions := predictions m;
     user_feedback :=
       user_feedback m ++ [{| f_timestamp := now;
                              f_message_hash := message_hash;
                              f_actual_label := actual_label |}] |}.

(** [{f['message_hash']: f['actual_label'] for f in feedback}.get(h)]: the
    label of the last feedback for the hash. *)
Definition label_of (fs : list feedback) (h : text) : option string :=
  f_actual_label <$> List.find (λ f, bool_decide (f_message_hash f = h))
                       (reverse fs).

Inductive accuracy_report :=
  | NoFeedback
  | NoMatch
  | Accuracy (accuracy : Q) (correct_predictions total_evaluated
                             sample_size : nat).

(** The two counters of the loop of [calculate_accuracy]. *)
Definition evaluate (fs : list feedback) (ps : list prediction) : nat * nat :=
  foldl (λ ct pred,
           match label_of fs (p_message_hash pred) with
           | Some label =>
               (if decide (p_prediction pred = label) then S ct.1 else ct.1,
                S ct.2)
           | None => ct
           end) (0, 0) ps.

Definition calculate_accuracy (m : PerformanceMetrics) : accuracy_report :=
  match user_feedback m with
  | [] => NoFeedback
  | _ =>
      let '(correct, total) := evaluate (user_feedback m) (predictions m) in
      if (total =? 0)%nat then NoMatch
      else Accuracy (round (nat_q correct / nat_q total * 100) 2)
             correct total (length (user_feedback m))
  end.

(** A prediction whose message has a feedback, and one that the feedback
    confirms. *)
Definition matched (fs : list feedback) (p : prediction) : bool :=
  bool_decide (p_message_hash p ∈ f_message_hash <$> fs).

Definition confirmed (fs : list feedback) (p : prediction) : bool :=
  bool_decide (label_of fs (p_message_hash p) = Some (p_prediction p)).

End Metrics.

(** ** The analytics endpoint ([main.py]) *)

Module Api.

Import Config Engine.

Inductive api_error :=
  | AnalyticsNotEnabled
  | HoursOutOfRange
  | AnalyticsFailed.

Inductive analytics_response :=
  | Stats (s : Analytics.statistics)
  | Rejected (status_code : Z) (d : api_error).

(** [GET /analytics].  An engine without tracker fails on
    [engine.analytics.get_statistics], which the handler reports as 500. *)
Definition get_analytics (settings : Settings) (e : DetectionEngine)
  (now : Z) (hours : Z) : analytics_response :=
  if negb (ENABLE_ANALYTICS settings)
  then Rejected 503 AnalyticsNotEnabled
  else if (hours <? 1)%Z || (168 <? hours)%Z
  then Rejected 400 HoursOutOfRange
  else match analytics e with
       | Some a => Stats (Analytics.get_statistics a now hours)
       | None => Rejected 500 AnalyticsFailed
       end.

Section Requests.

Variable sha256_16 : text → text.
Variable settings : Settings.

(** The engine of the service after a request to [/analyze]; a request
    comes with its two clock readings. *)
Definition serve (e : DetectionEngine) (r : Z * Z * MessageRequest)
  : DetectionEngine :=
  (analyze_endpoint sha256_16 settings e r.1.1 r.1.2 r.2).2.

End Requests.

End Api.

(** ** Quantities used to state the properties *)

(** How severe a classification is. *)
Definition severity (c : classification) : nat :=
  match c with SAFE => 0 | SUSPICIOUS => 1 | SCAM => 2 end.

(** [" ".join(words)] *)
Fixpoint join (ws : list text) : text :=
  match ws with
  | [] => []
  | [w] => w
  | w :: ws' => w ++ 32%N :: join ws'
  end.

(** [\s+], and [re.sub(r'\s+', ' ', s)]. *)
Definition SPACES : regex := Rep Char.is_space 1 None.

Definition collapse (s : text) : text := sub_from SPACES [32%N] None s 0.

(** A text that does not end, or begin, with white space. *)
Definition ends_well (s : text) : Prop :=
  ∀ c, last s = Some c → Char.is_space c = false.

Definition starts_well (s : text) : Prop :=
  ∀ c, head s = Some c → Char.is_space c = false.

(** [str.rstrip()] *)
Definition rstrip (u : text) : text := rev (lstrip (rev u)).

(** [str.isascii()]; a text without a digit; a text without [@]. *)
Definition isascii (t : text) : bool := forallb (λ c, (c <? 128)%N) t.

Definition digit_free (t : text) : bool :=
  forallb (λ c, negb (Char.is_digit c)) t.

Definition at_free (t : text) : bool := forallb (λ c, negb (c =? 64)%N) t.

(** The orders of [most_common] and of the sort of the emerging threats. *)
Definition by_count (a b : string * nat) : bool := (a.2 <=? b.2)%nat.

Definition by_change (x y : Analytics.emerging_threat) : bool :=
  Qle_bool (Analytics.change_percentage x) (Analytics.change_percentage y).

(** The three accumulators of [RuleDetector.analyze] move together: all
    empty and zero, or all with something. *)
Definition in_step (a : RuleDetector.acc) : Prop :=
  (RuleDetector.rules a = [] ∧ RuleDetector.kws a = []
   ∧ (RuleDetector.total a == 0)%Q)
  ∨ (RuleDetector.rules a ≠ [] ∧ RuleDetector.kws a ≠ []
     ∧ (0 < RuleDetector.total a)%Q).

(** ** More examples *)

Module Cases.

Import Config LanguageProcessor Engine.


(** An engine whose classifier answers 0.9 for every message, with a
    tracker. *)
Definition steady : DetectionEngine := {|
  ml_detector := Some (λ _, Return 0.9%Q);
  analytics := Some Analytics.init
|}.

(** The engine after a run of the pipeline, when it returns. *)
Definition engine_of (o : outcome (detection_result * DetectionEngine))
  : DetectionEngine :=
  match o with
  | Return (_, e) => e
  | Raise _ => steady
  end.

(** The text of a receipt. *)
Definition receipt : text :=
  str "Easypaisa Transaction ID EP1234567890 To Ali From Sara Amount Rs. 1,500 Date 01-02-2024".

(** A request to [/analyze]. *)
Definition request : MessageRequest := {|
  message := Examples.easypaisa_message;
  language := Some "auto"%string
|}.

(** The lines of an explanation, when there is one. *)
Definition lines_of (o : outcome (list explanation_line))
  : list explanation_line :=
  match o with
  | Return l => l
  | Raise _ => []
  end.

(** The tracker of an engine that has one. *)
Definition tracker_of (e : DetectionEngine) : Analytics.ScamAnalytics :=
  match analytics e with
  | Some a => a
  | None => Analytics.init
  end.

End Cases.

(** ** The report of [analytics/threat_intel.py] and its endpoint *)

Module ThreatIntel.

Import Config Engine Analytics.

Inductive recommendation :=
  | HighScamActivity.

Record report := {
  report_generated : Z;
  total_scams_24h : nat;
  scam_rate_24h : Q;
  average_risk_score : Q;
  top_threats : list pattern_entry;
  emerging_threats : list emerging_threat;
  most_impersonated_brands : list (text * nat);
  recommendations : list recommendation
}.

(** [stats.get('detection_summary', {}).get('scam_percentage', 0)]; the
    empty statistics have a summary with zeros. *)
Definition scam_rate_of (stats : statistics) : Q :=
  match stats with
  | NoData => 0
  | Window w => scam_percentage w
  end.

Definition _generate_recommendations (stats : statistics)
  : list recommendation :=
  let scam_rate := scam_rate_of stats in
  if negb (Qle_bool scam_rate 30) then [HighScamActivity] else [].

(** [generate_report]; the tracker is the one of the engine.  Every field is
    read with [.get] and a default. *)
Definition generate_report (a : ScamAnalytics) (now_stats now_report : Z)
  : report :=
  let stats_24h := get_statistics a now_stats 24 in
  {| report_generated := now_report;
     total_scams_24h := Reports.scam_count_of stats_24h;
     scam_rate_24h := scam_rate_of stats_24h;
     average_risk_score :=
       match stats_24h with
       | NoData => 0
       | Window w => average_overall w
       end;
     top_threats := take 5 (top_patterns_of stats_24h);
     emerging_threats := [];
     most_impersonated_brands :=
       match stats_24h with
       | NoData => []
       | Window _ => Reports._get_brand_stats (window a now_stats 24)
       end;
     recommendations := _generate_recommendations stats_24h |}.

Inductive intelligence_response :=
  | Report (r : report)
  | Unavailable (status_code : Z) (d : Api.api_error).

(** [GET /threat-intelligence].  The engine holds its report generator
    exactly when it holds the tracker. *)
Definition get_threat_intelligence (settings : Settings) (e : DetectionEngine)
  (now_stats now_report : Z) : intelligence_response :=
  if negb (ENABLE_ANALYTICS settings)
  then Unavailable 503 Api.AnalyticsNotEnabled
  else match analytics e with
       | Some a => Report (generate_report a now_stats now_report)
       | None => Unavailable 500 Api.AnalyticsFailed
       end.

End ThreatIntel.

(** ** Payment screenshots ([detection/screenshot_analyzer.py]) *)

Module Screenshot.

(** The patterns of a payment app; its colours, which no function reads,
    are left out. *)
Record payment_app := {
  header_text : list string;
  transaction_fields : list string;
  id_format : regex
}.

(** [EP\d{10,}] and the like *)
Definition id_pattern (prefix : string) (digits : nat) : regex :=
  (lit prefix ⋅ Rep Char.is_digit digits None)%re.

Definition PAYMENT_APP_PATTERNS : list (string * payment_app) :=
  [("easypaisa",
    {| header_text := ["easypaisa"; "telenor microfinance bank"];
       transaction_fields :=
         ["transaction id"; "to"; "from"; "amount"; "date"];
       id_format := id_pattern "EP" 10 |});
   ("jazzcash",
    {| header_text := ["jazzcash"; "mobilink microfinance bank"];
       transaction_fields :=
         ["transaction id"; "txn id"; "amount"; "date"; "time"];
       id_format := id_pattern "JC" 10 |});
   ("hbl",
    {| header_text := ["hbl"; "habib bank limited"];
       transaction_fields := ["reference"; "amount"; "account"; "date"];
       id_format := id_pattern "HBL" 8 |})].

(** The sentences of the fraud indicators, by what they report. *)
Inductive fraud_indicator :=
  | InvalidTransactionId
  | MissingFields (fields : list string)
  | DeveloperTools
  | HighAmount
  | RoundAmount
  | FutureDate
  | ScreenshotWatermark
  | MultipleCurrencies.

Record analysis := {
  is_payment_screenshot : bool;
  detected_app : option string;
  fraud_indicators : list fraud_indicator;
  risk_score : Q;
  confidence : Q
}.

(** The indicators and the risk, as the checks update them. *)
Definition findings : Type := list fraud_indicator * Q.

Definition flag (cond : bool) (i : fraud_indicator) (inc : Q) (r : findings)
  : findings :=
  if cond then (r.1 ++ [i], (r.2 + inc)%Q) else r.

(** [any(w in text for w in words)] *)
Definition any_in (words : list string) (t : text) : bool :=
  existsb (λ w, contains (str w) t) words.

(** The first app, in the order of the dictionary, with a header in the
    text. *)
Definition detect_app (text_lower : text) : option (string * payment_app) :=
  List.find (λ e, any_in (header_text e.2) text_lower) PAYMENT_APP_PATTERNS.

Definition INSPECT_KEYWORDS : list string :=
  ["inspect element"; "developer tools"; "console"; "devtools"].

Definition amount_char (c : N) : bool := Char.is_digit c || (c =? 44)%N.

(** [(?:rs\.?|pkr)\s*([0-9,]+)] *)
Definition AMOUNT : regex :=
  (((lit "rs" ⋅ Opt (lit ".")) ∣ lit "pkr")
   ⋅ Rep Char.is_space 0 None ⋅ Rep amount_char 1 None)%re.

(** The group of a match of [AMOUNT]: what follows the characters that are
    neither digits nor commas, with which every match begins. *)
Fixpoint amount_group (m : text) : text :=
  match m with
  | c :: m' => if amount_char c then m else amount_group m'
  | [] => []
  end.

(** [float(s)] for a text of digits *)
Definition decimal (digits : text) : N :=
  foldl (λ a c, (10 * a + (c - 48))%N) 0%N digits.

(** Check 4: the first amount, without its commas; a text without a digit
    is no number ([ValueError]) and adds nothing. *)
Definition amount_check (text_lower : text) (r : findings) : findings :=
  match search AMOUNT text_lower with
  | Some m =>
      let amount_str :=
        List.filter Char.is_digit (amount_group (group text_lower m)) in
      match amount_str with
      | [] => r
      | _ =>
          let amount := decimal amount_str in
          if (1000000 <? amount)%N then flag true HighAmount 0.2 r
          else if ((amount mod 1000 =? 0)%N && (10000 <? amount)%N)%bool
          then flag true RoundAmount 0.1 r
          else r
      end
  | None => r
  end.

Definition date_separator (c : N) : bool := (c =? 45)%N || (c =? 47)%N.

(** [\d{1,2}[-/]\d{1,2}[-/]\d{2,4}] *)
Definition DATE : regex :=
  (Rep Char.is_digit 1 (Some 2) ⋅ Class date_separator
   ⋅ Rep Char.is_digit 1 (Some 2) ⋅ Class date_separator
   ⋅ Rep Char.is_digit 2 (Some 4))%re.

(** Check 5, on the first date of the text. *)
Definition date_check (extracted_text : text) (r : findings) : findings :=
  match search DATE extracted_text with
  | Some m =>
      let date_str := group extracted_text m in
      flag (contains (str "2099") date_str || contains (str "2050") date_str)
        FutureDate 0.4 r
  | None => r
  end.

(** The dollar, pound, euro and rupee signs. *)
Definition is_currency (c : N) : bool :=
  (c =? 36)%N || (c =? 163)%N || (c =? 8364)%N || (c =? 8377)%N.

Definition checks (a : payment_app) (extracted_text : text) : findings :=
  let text_lower := lower extracted_text in
  let r : findings := ([], 0%Q) in
  let r :=
    flag (negb (RuleDetector.found extracted_text (id_format a)))
      InvalidTransactionId 0.3 r in
  let missing_fields :=
    List.filter (λ field, negb (contains (str field) text_lower))
      (transaction_fields a) in
  let r :=
    flag (negb (bool_decide (missing_fields = [])))
      (MissingFields missing_fields) 0.2 r in
  let r := flag (any_in INSPECT_KEYWORDS text_lower) DeveloperTools 0.9 r in
  let r := amount_check text_lower r in
  let r := date_check extracted_text r in
  let r :=
    flag (contains (str "screenshot") text_lower
          || contains (str "screen capture") text_lower)
      ScreenshotWatermark 0.15 r in
  flag (1 <? length (finditer (Class is_currency) extracted_text))%nat
    MultipleCurrencies 0.2 r.

Definition analyze_text_from_image (extracted_text : text) : analysis :=
  match detect_app (lower extracted_text) with
  | None =>
      {| is_payment_screenshot := false;
         detected_app := None;
         fraud_indicators := [];
         risk_score := 0;
         confidence := 0 |}
  | Some (app_name, app_patterns) =>
      let r := checks app_patterns extracted_text in
      {| is_payment_screenshot := true;
         detected_app := Some app_name;
         fraud_indicators := r.1;
         risk_score := Qmin r.2 1;
         confidence := match r.1 with [] => 0.5 | _ => 0.8 end |}
  end.

(** *** The report *)

Record metadata := {
  has_exif_data : bool;
  modification_detected : bool;
  creation_date : option text;
  software_used : option string;
  warnings : list string
}.

(** [check_image_metadata]: a placeholder that reads nothing. *)
Definition check_image_metadata (image_path : text) : metadata :=
  {| has_exif_data := false;
     modification_detected := false;
     creation_date := None;
     software_used := None;
     warnings := [] |}.

Inductive authenticity :=
  | Fake
  | Suspicious
  | Authentic.

Inductive advice :=
  | DoNotTrust
  | VerifyWithBank
  | ReportToAuthorities
  | RequestConfirmation
  | VerifyOfficialChannels
  | CheckTransactionHistory
  | LookForTransactionId
  | ContactSupport
  | AppearsAuthentic
  | StillVerify
  | CrossCheckTransactionId
  | DeveloperToolsShown
  | IdFormatIncorrect.

#[global] Instance fraud_indicator_eq_dec : EqDecision fraud_indicator.
Proof. solve_decision. Defined.

(** [_generate_recommendations].  The two tests on the text of the indicator
    list, for [Inspect Element] and for [Invalid or missing transaction ID],
    hold exactly when the list has the indicator whose sentence has the
    phrase. *)
Definition _generate_recommendations (classification : authenticity)
  (a : analysis) : list advice :=
  (match classification with
   | Fake =>
       [DoNotTrust; VerifyWithBank; ReportToAuthorities; RequestConfirmation]
   | Suspicious =>
       [VerifyOfficialChannels; CheckTransactionHistory;
        LookForTransactionId; ContactSupport]
   | Authentic => [AppearsAuthentic; StillVerify; CrossCheckTransactionId]
   end)
  ++ (if bool_decide (DeveloperTools ∈ fraud_indicators a)
      then [DeveloperToolsShown] else [])
  ++ (if bool_decide (InvalidTransactionId ∈ fraud_indicators a)
      then [IdFormatIncorrect] else []).

Record report := {
  classification : authenticity;
  report_risk_score : Q;
  report_detected_app : option string;
  report_is_payment_screenshot : bool;
  report_fraud_indicators : list fraud_indicator;
  metadata_warnings : list string;
  recommendations : list advice;
  analyzed_at : Z
}.

Definition EDITORS : list string := ["photoshop"; "gimp"; "paint.net"].

(** [generate_screenshot_report]; an empty path counts as none. *)
Definition generate_screenshot_report (extracted_text : text)
  (image_path : option text) (now : Z) : report :=
  let text_analysis := analyze_text_from_image extracted_text in
  let metadata_analysis :=
    match image_path with
    | Some p => if bool_decide (p = []) then None
                else Some (check_image_metadata p)
    | None => None
    end in
  let combined_risk := risk_score text_analysis in
  let combined_risk :=
    match metadata_analysis with
    | Some md => if modification_detected md then (combined_risk + 0.3)%Q
                 else combined_risk
    | None => combined_risk
    end in
  let combined_risk :=
    match metadata_analysis with
    | Some md =>
        match software_used md with
        | Some s => if bool_decide (s ∈ EDITORS) then (combined_risk + 0.2)%Q
                    else combined_risk
        | None => combined_risk
        end
    | None => combined_risk
    end in
  let combined_risk := Qmin combined_risk 1 in
  let classification :=
    if Qle_bool 0.7 combined_risk then Fake
    else if Qle_bool 0.4 combined_risk then Suspicious
    else Authentic in
  {| classification := classification;
     report_risk_score := round (combined_risk * 100) 2;
     report_detected_app := detected_app text_analysis;
     report_is_payment_screenshot := is_payment_screenshot text_analysis;
     report_fraud_indicators := fraud_indicators text_analysis;
     metadata_warnings :=
       match metadata_analysis with
       | Some md => warnings md
       | None => []
       end;
     recommendations := _generate_recommendations classification text_analysis;
     analyzed_at := now |}.

(** *** Transaction identifiers *)

Inductive id_warning :=
  | UnknownPaymentApp
  | InvalidFormat
  | UnusualLength.

Record verification := {
  is_valid_format : bool;
  checksum_valid : bool;
  id_warnings : list id_warning
}.

(** [sum(int(d) for d in re.findall(r'\d', transaction_id))] *)
Definition digit_sum (t : text) : N :=
  foldr (λ c a, (c - 48 + a)%N) 0%N (List.filter Char.is_digit t).

(** [re.match]: a match at the start of the text. *)
Definition matches_start (r : regex) (t : text) : bool :=
  match rmatch r None t with
  | [] => false
  | _ => true
  end.

Definition verify_transaction_id (transaction_id : text) (app_name : string)
  : verification :=
  match List.find (λ e, bool_decide (e.1 = app_name)) PAYMENT_APP_PATTERNS with
  | None =>
      {| is_valid_format := false;
         checksum_valid := false;
         id_warnings := [UnknownPaymentApp] |}
  | Some (_, a) =>
      let valid := matches_start (id_format a) transaction_id in
      let unusual :=
        (length transaction_id <? 10)%nat
        || (20 <? length transaction_id)%nat in
      {| is_valid_format := valid;
         checksum_valid :=
           match List.filter Char.is_digit transaction_id with
           | [] => false
           | _ => negb (digit_sum transaction_id mod 10 =? 0)%N
           end;
         id_warnings :=
           (if valid then [] else [InvalidFormat])
           ++ (if unusual then [UnusualLength] else []) |}
  end.

End Screenshot.

(** *** Quantities used to state the properties of the screenshot checks *)

(** The check that adds an indicator, by its place among the seven. *)
Definition check_of (i : Screenshot.fraud_indicator) : nat :=
  match i with
  | Screenshot.InvalidTransactionId => 1
  | Screenshot.MissingFields _ => 2
  | Screenshot.DeveloperTools => 3
  | Screenshot.HighAmount | Screenshot.RoundAmount => 4
  | Screenshot.FutureDate => 5
  | Screenshot.ScreenshotWatermark => 6
  | Screenshot.MultipleCurrencies => 7
  end.

(** What holds of the findings after [k] checks. *)
Definition checked (k : nat) (r : Screenshot.findings) : Prop :=
  StronglySorted (λ x y, check_of x < check_of y) r.1
  ∧ Forall (λ x, check_of x ≤ k) r.1
  ∧ ((r.1 = [] ∧ (r.2 == 0)%Q) ∨ (r.1 ≠ [] ∧ (0 < r.2)%Q)).

(** The findings only grow. *)
Definition grows (f : Screenshot.findings → Screenshot.findings) : Prop :=
  ∀ r, (∀ i, i ∈ r.1 → i ∈ (f r).1) ∧ (r.2 <= (f r).2)%Q.

(** The prefix and the least number of digits of the identifiers of an
    app. *)
Definition ID_FORMATS : list (string * (string * nat)) :=
  [("easypaisa", ("EP", 10)); ("jazzcash", ("JC", 10)); ("hbl", ("HBL", 8))].

(** * Properties *)

(** ** The matcher *)

Section Matcher.

Import RuleDetector.

Lemma starts_with_take (w s : text) :
  starts_with w s = true ↔ take (length w) s = w.
Proof.
  revert s. induction w as [|a w IH]; intros [|b s]; cbn; try done.
  rewrite andb_true_iff, N.eqb_eq, IH. split.
  - intros [-> ->]. done.
  - intros [= -> H]. by rewrite H.
Qed.

Lemma starts_with_app (w1 w2 s : text) :
  starts_with (w1 ++ w2) s = true
  ↔ starts_with w1 s = true ∧ starts_with w2 (drop (length w1) s) = true.
Proof.
  revert s. induction w1 as [|a w1 IH]; intros s; cbn.
  - rewrite drop_0. tauto.
  - destruct s as [|b s]; cbn.
    + split; [done | intros [? _]; done].
    + rewrite !andb_true_iff, IH. tauto.
Qed.

Lemma starts_with_length (w s : text) :
  starts_with w s = true → length w ≤ length s.
Proof.
  revert s. induction w as [|a w IH]; intros [|b s]; cbn; try done; try lia.
  rewrite andb_true_iff. intros [_ H%IH]. lia.
Qed.

Lemma char_before_cons prev c s k :
  char_before (Some c) s k = char_before prev (c :: s) (S k).
Proof. by destruct k. Qed.

(** A match of a plain pattern is one of its texts, read from the input. *)
Lemma rmatch_plain_sound r prev s n :
  plain r = true → In n (rmatch r prev s) →
  n ≤ length s ∧ In (take n s) (words_of r).
Proof.
  revert prev s n.
  induction r as [w|p| |r1 IH1 r2 IH2|r1 IH1 r2 IH2|r1 IH1|p lo hi];
    intros prev s n Hp Hin; cbn in Hp; try done.
  - cbn in Hin. destruct (starts_with w s) eqn:E; [|done].
    destruct Hin as [<-|[]]. split; [by apply starts_with_length|].
    apply starts_with_take in E. rewrite E. by left.
  - apply andb_true_iff in Hp as [Hp1 Hp2]. cbn in Hin.
    apply in_flat_map in Hin as (n1 & Hn1 & Hin).
    apply in_map_iff in Hin as (k & <- & Hk).
    destruct (IH1 _ _ _ Hp1 Hn1) as [Hl1 Hw1].
    destruct (IH2 _ _ _ Hp2 Hk) as [Hl2 Hw2].
    rewrite length_drop in Hl2. split; [lia|].
    cbn. apply in_flat_map. exists (take n1 s). split; [done|].
    apply in_map_iff. exists (take k (drop n1 s)). split; [|done].
    apply take_take_drop.
  - apply andb_true_iff in Hp as [Hp1 Hp2]. cbn in Hin.
    apply in_app_iff in Hin as [Hin|Hin].
    + destruct (IH1 _ _ _ Hp1 Hin). split; [done|].
      cbn. apply in_app_iff. by left.
    + destruct (IH2 _ _ _ Hp2 Hin). split; [done|].
      cbn. apply in_app_iff. by right.
  - cbn in Hin. apply in_app_iff in Hin as [Hin|[<-|[]]].
    + destruct (IH1 _ _ _ Hp Hin). split; [done|].
      cbn. apply in_app_iff. by left.
    + split; [lia|]. cbn. apply in_app_iff. right. by left.
Qed.

(** Each text of a plain pattern that the input starts with is matched. *)
Lemma rmatch_plain_complete r prev s w :
  plain r = true → In w (words_of r) → starts_with w s = true →
  In (length w) (rmatch r prev s).
Proof.
  revert prev s w.
  induction r as [w0|p| |r1 IH1 r2 IH2|r1 IH1 r2 IH2|r1 IH1|p lo hi];
    intros prev s w Hp Hin Hs; cbn in Hp; try done.
  - cbn in Hin. destruct Hin as [<-|[]]. cbn. rewrite Hs. by left.
  - apply andb_true_iff in Hp as [Hp1 Hp2]. cbn in Hin.
    apply in_flat_map in Hin as (w1 & Hw1 & Hin).
    apply in_map_iff in Hin as (w2 & <- & Hw2).
    apply starts_with_app in Hs as [Hs1 Hs2].
    cbn. apply in_flat_map. exists (length w1). split; [by apply IH1|].
    apply in_map_iff. exists (length w2). split; [by rewrite length_app|].
    by apply IH2.
  - apply andb_true_iff in Hp as [Hp1 Hp2]. cbn in Hin. cbn.
    apply in_app_iff.
    apply in_app_iff in Hin as [Hin|Hin]; [left|right]; eauto.
  - cbn in Hin. cbn. apply in_app_iff.
    apply in_app_iff in Hin as [Hin|[<-|[]]]; [left; eauto | right; by left].
Qed.

(** [\b r \b] matches where [r] does with a boundary on each side. *)
Lemma rmatch_bounded r prev s n :
  In n (rmatch (bounded r) prev s)
  ↔ at_boundary prev s = true ∧ In n (rmatch r prev s)
    ∧ at_boundary (char_before prev s n) (drop n s) = true.
Proof.
  unfold bounded. cbn [rmatch]. rewrite in_flat_map. split.
  - intros (n1 & Hn1 & Hin). apply in_flat_map in Hn1 as (z & Hz & Hn1).
    destruct (at_boundary prev s) eqn:E; [|done].
    destruct Hz as [<-|[]]. cbn in Hn1. rewrite drop_0 in Hn1.
    apply in_map_iff in Hn1 as (k & <- & Hk). cbn in Hin |- *.
    destruct (at_boundary _ (drop k s)) eqn:E'; [|done].
    destruct Hin as [<-|[]]. rewrite Nat.add_0_r. done.
  - intros (Hb & Hin & He). exists n. split.
    + apply in_flat_map. exists 0. rewrite Hb. split; [by left|].
      cbn. rewrite drop_0. apply in_map_iff. by exists n.
    + rewrite He. cbn. left. lia.
Qed.

Lemma search_from_Some r prev s i j n :
  search_from r prev s i = Some (j, n) →
  ∃ k, j = i + k ∧ k ≤ length s
       ∧ In n (rmatch r (char_before prev s k) (drop k s)).
Proof.
  revert prev i. induction s as [|c s IH]; intros prev i; cbn [search_from].
  - destruct (rmatch r prev []) as [|n' l] eqn:E; [done|].
    intros [= <- <-]. exists 0. cbn. rewrite E.
    split; [lia|]. split; [lia|]. by left.
  - destruct (rmatch r prev (c :: s)) as [|n' l] eqn:E.
    + intros (k & -> & Hk & Hin)%IH. exists (S k).
      rewrite <- char_before_cons. cbn [drop length].
      split; [lia|]. split; [lia|done].
    + intros [= <- <-]. exists 0. cbn [char_before drop]. rewrite E.
      split; [lia|]. split; [lia|]. by left.
Qed.

Lemma search_from_None r prev s i :
  search_from r prev s i = None →
  ∀ k, k ≤ length s → rmatch r (char_before prev s k) (drop k s) = [].
Proof.
  revert prev i. induction s as [|c s IH]; intros prev i; cbn [search_from].
  - destruct (rmatch r prev []) as [|n' l] eqn:E; [|done].
    intros _ k Hk. cbn in Hk. replace k with 0 by lia. done.
  - destruct (rmatch r prev (c :: s)) as [|n' l] eqn:E; [|done].
    intros H [|k] Hk; [done|].
    rewrite <- char_before_cons. cbn [drop].
    eapply IH; [done|]. cbn in Hk. lia.
Qed.

(** [re.search] finds a pattern exactly when it matches somewhere. *)
Lemma found_iff r t :
  found t r = true ↔ ∃ i n, i ≤ length t ∧ In n (match_at r t i).
Proof.
  unfold found, search, match_at. split.
  - destruct (search_from r None t 0) as [[j n]|] eqn:E; [|done].
    intros _. apply search_from_Some in E as (k & -> & Hk & Hin).
    by exists k, n.
  - intros (i & n & Hi & Hin).
    destruct (search_from r None t 0) as [[j n']|] eqn:E; [done|].
    by rewrite (search_from_None _ _ _ _ E i Hi) in Hin.
Qed.



Lemma boundary_left prev s w :
  is_word_opt (head w) = true → starts_with w s = true →
  at_boundary prev s = negb (is_word_opt prev).
Proof.
  destruct w as [|a w]; [done|]. destruct s as [|b s]; [done|]. cbn.
  intros Ha [->%N.eqb_eq _]%andb_true_iff. unfold at_boundary. cbn.
  rewrite Ha. by destruct (is_word_opt prev).
Qed.

Lemma boundary_right prev s w :
  is_word_opt (last w) = true → take (length w) s = w →
  at_boundary (char_before prev s (length w)) (drop (length w) s)
  = negb (is_word_opt (s !! length w)).
Proof.
  intros Hl Ht. destruct (length w) as [|m] eqn:E.
  { destruct w; done. }
  cbn [char_before]. unfold at_boundary.
  assert (s !! m = last w) as ->.
  { rewrite last_lookup, E. cbn. rewrite <- Ht.
    rewrite lookup_take_lt by lia. done. }
  rewrite Hl. rewrite head_lookup, lookup_drop, Nat.add_0_r. done.
Qed.

(** A bounded pattern is found exactly where one of its texts stands as a
    whole word. *)
Lemma found_bounded b t :
  plain b = true → forallb edges (words_of b) = true →
  found t (bounded b) = true
  ↔ ∃ w i, In w (words_of b) ∧ occurs_at w t i
           ∧ whole_word_at t i (length w).
Proof.
  intros Hp He. rewrite forallb_forall in He. rewrite found_iff. split.
  - intros (i & n & Hi & Hin). unfold match_at in Hin.
    apply rmatch_bounded in Hin as (Hb & Hin & Hb').
    apply rmatch_plain_sound in Hin as [Hn Hw]; [|done].
    set (w := take n (drop i t)) in *.
    assert (Hlen : length w = n) by (unfold w; rewrite length_take; lia).
    assert (Hocc : take (length w) (drop i t) = w) by (by rewrite Hlen).
    pose proof (He w Hw) as [Hh Hl]%andb_true_iff.
    exists w, i. split; [done|]. split; [done|]. split.
    + rewrite (boundary_left _ _ w) in Hb;
        [|done|by apply starts_with_take].
      by apply negb_true_iff.
    + rewrite <- Hlen in Hb'. rewrite boundary_right in Hb' by done.
      rewrite lookup_drop in Hb'. by apply negb_true_iff.
  - intros (w & i & Hw & Hocc & [Hl Hr]).
    pose proof (He w Hw) as [Hh Hla]%andb_true_iff.
    assert (Hi : i ≤ length t).
    { destruct (decide (i ≤ length t)); [done|].
      unfold occurs_at in Hocc. rewrite drop_ge, take_nil in Hocc by lia.
      subst w. done. }
    exists i, (length w). split; [done|]. unfold match_at.
    apply rmatch_bounded. split; [|split].
    + rewrite (boundary_left _ _ w); [|done|by apply starts_with_take].
      by rewrite Hl.
    + apply rmatch_plain_complete; [done..|by apply starts_with_take].
    + rewrite boundary_right by done. rewrite lookup_drop. by rewrite Hr.
Qed.




End Matcher.

(** ** The rule engine *)

Section RuleEngine.

Import LanguageProcessor RuleDetector Examples.

Lemma nat_q_S (n : nat) : (nat_q (S n) == nat_q n + 1)%Q.
Proof.
  unfold nat_q. rewrite Nat2Z.inj_succ, <- Z.add_1_r, inject_Z_plus.
  reflexivity.
Qed.

Lemma nat_q_nonneg (n : nat) : (0 <= nat_q n)%Q.
Proof.
  unfold nat_q. change 0%Q with (inject_Z 0). rewrite <- Zle_Qle. lia.
Qed.

(** *** The accumulators, loop by loop *)

Lemma brand_pattern_found t c a p :
  brand_pattern t c a p
  = if found t p
    then hit (brand_rule c) 0.15
           [match search p t with Some m => group t m | None => [] end] a
    else a.
Proof. unfold brand_pattern, found. by destruct (search p t). Qed.

Lemma rules_brand_patterns t c ps a :
  rules (foldl (brand_pattern t c) a ps)
  = rules a ++ ((λ _, brand_rule c) <$> List.filter (found t) ps).
Proof.
  revert a. induction ps as [|p ps IH]; intros a; cbn [foldl List.filter].
  - by rewrite app_nil_r.
  - rewrite IH, brand_pattern_found. destruct (found t p); [|done].
    cbn. by rewrite <- app_assoc.
Qed.

Lemma total_brand_patterns t c ps a :
  (total (foldl (brand_pattern t c) a ps)
   == total a + 0.15 * nat_q (length (List.filter (found t) ps)))%Q.
Proof.
  revert a. induction ps as [|p ps IH]; intros a; cbn [foldl List.filter].
  - cbn. unfold nat_q. cbn. ring.
  - rewrite IH, brand_pattern_found. destruct (found t p); [|reflexivity].
    cbn [length hit total]. rewrite nat_q_S. ring.
Qed.

Lemma rules_brand_categories t cs a :
  rules (foldl (brand_category t) a cs)
  = rules a ++ flat_map (brand_rules t) cs.
Proof.
  revert a. induction cs as [|e cs IH]; intros a; cbn [foldl flat_map].
  - by rewrite app_nil_r.
  - rewrite IH. unfold brand_category. rewrite rules_brand_patterns.
    by rewrite <- app_assoc.
Qed.

Lemma total_brand_categories t cs a :
  (total (foldl (brand_category t) a cs)
   == total a
      + 0.15 * nat_q (length (List.filter (found t) (flat_map snd cs))))%Q.
Proof.
  revert a. induction cs as [|e cs IH]; intros a; cbn [foldl flat_map].
  - cbn. unfold nat_q. cbn. ring.
  - rewrite IH. unfold brand_category. rewrite total_brand_patterns.
    rewrite List.filter_app, length_app.
    unfold nat_q. rewrite Nat2Z.inj_add, inject_Z_plus. ring.
Qed.

Lemma rules_urgency t a :
  rules (urgency t a)
  = rules a ++ if (0 <? urgency_count t)%nat
               then ["urgency_language"%string] else [].
Proof.
  unfold urgency, urgency_count. cbv zeta.
  destruct (0 <? _)%nat; cbn; [done | by rewrite app_nil_r].
Qed.

Lemma total_urgency t a :
  (total (urgency t a)
   == total a + Qmin (nat_q (urgency_count t) * 0.1) 0.25)%Q.
Proof.
  unfold urgency, urgency_count. cbv zeta.
  destruct (Nat.ltb_spec 0 (length (urgency_matches t))) as [H|H];
    cbn [hit total].
  - reflexivity.
  - replace (length (urgency_matches t)) with 0%nat by lia.
    rewrite Q.min_l; [|vm_compute; discriminate]. unfold nat_q. cbn. ring.
Qed.

Lemma rules_sensitive t ps a :
  rules (sensitive t ps a)
  = rules a ++ if existsb (found t) ps
               then ["sensitive_data_request"%string] else [].
Proof.
  induction ps as [|p ps IH]; cbn [sensitive existsb].
  - by rewrite app_nil_r.
  - unfold found at 1. destruct (search p t); [done | apply IH].
Qed.

Lemma total_sensitive t ps a :
  (total (sensitive t ps a) == total a + flat (existsb (found t) ps))%Q.
Proof.
  induction ps as [|p ps IH]; cbn [sensitive existsb].
  - cbn. ring.
  - unfold found at 1. destruct (search p t); [reflexivity | apply IH].
Qed.

Lemma rules_shortened t a :
  rules (shortened t a)
  = rules a ++ if shortened_found t then ["shortened_url"%string] else [].
Proof.
  unfold shortened, shortened_found, found.
  destruct (search _ t); [done | by rewrite app_nil_r].
Qed.

Lemma total_shortened t a :
  (total (shortened t a) == total a + flat (shortened_found t))%Q.
Proof.
  unfold shortened, shortened_found, found.
  destruct (search _ t); cbn; [reflexivity | ring].
Qed.

(** The rule names [analyze] has appended when it reaches the clamp. *)
Lemma rules_run_rules t :
  rules (run_rules t)
  = flat_map (brand_rules t) BRANDS
    ++ (if (0 <? urgency_count t)%nat
        then ["urgency_language"%string] else [])
    ++ (if sensitive_found t then ["sensitive_data_request"%string] else [])
    ++ (if shortened_found t then ["shortened_url"%string] else []).
Proof.
  unfold run_rules. cbv zeta.
  rewrite rules_shortened, rules_sensitive, rules_urgency,
    rules_brand_categories.
  cbn [rules app]. by rewrite <- !app_assoc.
Qed.

(** The score [analyze] has summed when it reaches the clamp. *)
Lemma total_run_rules t :
  (total (run_rules t)
   == 0.15 * nat_q (brand_hits t)
      + Qmin (nat_q (urgency_count t) * 0.1) 0.25
      + flat (sensitive_found t) + flat (shortened_found t))%Q.
Proof.
  unfold run_rules. cbv zeta.
  rewrite total_shortened, total_sensitive, total_urgency,
    total_brand_categories.
  cbn [total]. unfold brand_hits, sensitive_found. ring.
Qed.

Lemma total_nonneg t : (0 <= total (run_rules t))%Q.
Proof.
  rewrite total_run_rules.
  pose proof (nat_q_nonneg (brand_hits t)).
  pose proof (nat_q_nonneg (urgency_count t)).
  assert (0 <= Qmin (nat_q (urgency_count t) * 0.1) 0.25)%Q
    by (apply Q.min_glb; lra).
  assert (0 <= flat (sensitive_found t))%Q
    by (destruct (sensitive_found t); vm_compute; discriminate).
  assert (0 <= flat (shortened_found t))%Q
    by (destruct (shortened_found t); vm_compute; discriminate).
  lra.
Qed.


(** *** The score *)

(** C3, as the code has it.  For every message the score of the rule engine
    is the sum of 0.15 for each brand pattern found (two patterns of one
    category add 0.30), of [min(urgency_count * 0.10, 0.25)], of 0.25 when a
    sensitive-data pattern is found and of 0.25 when the shortened-URL
    pattern is found, clamped at 1; it lies in [0,1], and the rule names and
    the key words returned have no duplicates. *)
Theorem analyze_score (message : text) (lang_info : LanguageInfo) :
  let r := analyze message lang_info in
  (score r == score_per_pattern (lower message))%Q
  ∧ (0 <= score r <= 1)%Q
  ∧ NoDup (triggered_rules r)
  ∧ NoDup (keywords r).
Proof.
  cbv zeta. unfold analyze. cbn [score triggered_rules keywords].
  split; [|split; [|split]].
  - unfold score_per_pattern.
    apply Q.min_compat; [apply total_run_rules | reflexivity].
  - split; [apply Q.min_glb; [apply total_nonneg | lra] | apply Q.le_min_r].
  - apply NoDup_elements.
  - apply NoDup_elements.
Qed.

(** C3 as stated fails: "easypaisa jazzcash" has two patterns of the one
    category [pakistan_financial]; the score is 0.30, and one increment for
    the category would give 0.15. *)
Lemma score_is_not_per_category :
  (score (analyze (str "easypaisa jazzcash") any_info) == 0.30)%Q
  ∧ (score_per_category (lower (str "easypaisa jazzcash")) == 0.15)%Q
  ∧ ¬ (score (analyze (str "easypaisa jazzcash") any_info)
       == score_per_category (lower (str "easypaisa jazzcash")))%Q.
Proof.
  split; [vm_compute; reflexivity|].
  split; [vm_compute; reflexivity|].
  vm_compute. discriminate.
Qed.

(** *** Whole words *)











End RuleEngine.

(** ** The score combiner *)

Section ScoreCombiner.

Import Config LanguageProcessor RuleDetector Engine Examples.





(** C2, as the code has it.  For the message of the example the rule
    engine triggers the three rules and its score is 0.60 (0.15 for
    [easypaisa], 0.20 for [urgent] and [now], 0.25 for [otp]); with the
    default weights and thresholds the classification is SCAM exactly when
    the ML score is at least 54/65, about 0.83. *)
Theorem easypaisa_example (lang_info : LanguageInfo) (ml_score : Q) :
  let r := analyze easypaisa_message lang_info in
  "brand_impersonation_pakistan_financial"%string ∈ triggered_rules r
  ∧ "urgency_language"%string ∈ triggered_rules r
  ∧ "sensitive_data_request"%string ∈ triggered_rules r
  ∧ (score r == 0.6)%Q
  ∧ (_classify Config.default
       (_calculate_final_score Config.default ml_score (score r)) = SCAM
     ↔ (54 # 65 <= ml_score)%Q).
Proof.
  cbv zeta.
  assert (Hs : score (analyze easypaisa_message lang_info) = 0.60000%Q)
    by (vm_compute; reflexivity).
  assert (Hr : triggered_rules (analyze easypaisa_message lang_info)
               = ["sensitive_data_request"; "urgency_language";
                  "brand_impersonation_pakistan_financial"]%string)
    by (vm_compute; reflexivity).
  rewrite Hr, Hs.
  split; [by repeat constructor|]. split; [by repeat constructor|].
  split; [by repeat constructor|]. split; [reflexivity|].
  unfold _classify, _calculate_final_score.
  cbn [SCAM_THRESHOLD SUSPICIOUS_THRESHOLD ML_WEIGHT RULE_WEIGHT
       Config.default].
  destruct (Qle_bool 0.75 _) eqn:E.
  - apply Qle_bool_iff, Q.min_glb_iff in E as [E _].
    split; [intros _; lra | done].
  - split; [by destruct (Qle_bool 0.45 _)|]. intros H.
    assert (Qle_bool 0.75 (Qmin (ml_score * 0.65 + 0.60000 * 0.35) 1)
            = true); [|congruence].
    apply Qle_bool_iff, Q.min_glb; lra.
Qed.

(** C2 as stated fails: the rule score of the example is below 0.65, and
    with an ML score of 0.8 the message is classified SUSPICIOUS. *)
Lemma easypaisa_rule_score_below :
  ¬ (0.65 <= score (analyze easypaisa_message any_info))%Q
  ∧ _classify Config.default
      (_calculate_final_score Config.default 0.8
         (score (analyze easypaisa_message any_info))) = SUSPICIOUS.
Proof. split; [vm_compute; tauto | vm_compute; reflexivity]. Qed.

End ScoreCombiner.

(** ** Language detection *)

Section Language.

Import LanguageProcessor.

Lemma ratio_in_range (a b : nat) :
  a ≤ b → (0 <= ratio a b <= 1)%Q.
Proof.
  intros H. unfold ratio, Qle. cbn [Qnum Qden].
  assert (Z.pos (Pos.of_nat (Nat.max b 1)) = Z.of_nat (Nat.max b 1)) as ->.
  { rewrite <- positive_nat_Z, Nat2Pos.id by lia. done. }
  lia.
Qed.

(** Outside the Roman-Urdu branch the confidence of [_detect_language] is
    in [0,1]. *)
Lemma confidence_in_range_otherwise (t : text) :
  (_detect_language t).1 ≠ "roman_urdu"%string →
  (0 <= (_detect_language t).2 <= 1)%Q.
Proof.
  unfold _detect_language. cbv zeta.
  destruct (5 <? _)%nat.
  - intros _. cbn [snd]. apply ratio_in_range, filter_length_le.
  - destruct (2 <=? _)%nat; [done|].
    intros _. cbn [snd]. split; vm_compute; discriminate.
Qed.

(** C5 is what the code should do and does not.  "apka hai" has two words
    and three of the marker words occur in it ([apka], [hai], and [ka]
    inside [apka]): the confidence reported is 3/2. *)
Theorem roman_urdu_confidence_exceeds_one :
  _detect_language (str "apka hai") = ("roman_urdu"%string, 3 # 2)
  ∧ language (process (str "apka hai") (Some "auto"%string))
    = Some "roman_urdu"%string
  ∧ ¬ (confidence (process (str "apka hai") (Some "auto"%string)) <= 1)%Q.
Proof.
  split; [vm_compute; reflexivity|].
  split; [vm_compute; reflexivity | vm_compute; tauto].
Qed.

End Language.

(** ** The analytics log *)

Section Log.

Import Analytics Examples.

Variable sha256_16 : text → text.

Lemma last_n_all {A} (n : nat) (xs : list A) :
  length xs ≤ n → last_n n xs = xs.
Proof.
  intros H. unfold last_n. replace (length xs - n) with 0 by lia. done.
Qed.

Lemma last_n_length {A} (n : nat) (xs : list A) :
  length (last_n n xs) = Nat.min n (length xs).
Proof. unfold last_n. rewrite length_drop. lia. Qed.

Lemma last_n_app_last_n {A} (n : nat) (xs ys : list A) :
  last_n n (last_n n xs ++ ys) = last_n n (xs ++ ys).
Proof.
  destruct (decide (length xs ≤ n)) as [H|H].
  - by rewrite (last_n_all n xs).
  - unfold last_n. rewrite !length_app, length_drop.
    rewrite <- (drop_app_le xs ys) by lia.
    rewrite drop_drop. f_equal. lia.
Qed.

(** One ingestion appends the record and keeps the last [CAPACITY]. *)
Lemma detections_log_detection a i :
  detections (ingest sha256_16 a i)
  = last_n CAPACITY (detections a ++ [record_of sha256_16 i]).
Proof.
  unfold ingest, log_detection. cbv zeta.
  fold (record_of sha256_16 i).
  destruct (Nat.ltb_spec CAPACITY
              (length (detections
                 (_update_counters
                    {| detections := detections a ++ [record_of sha256_16 i];
                       scam_patterns := scam_patterns a;
                       brand_mentions := brand_mentions a;
                       url_patterns := url_patterns a;
                       language_distribution := language_distribution a |}
                    (record_of sha256_16 i))))) as [H|H]; cbn in H |- *.
  - done.
  - by rewrite last_n_all.
Qed.

(** The log after any number of ingestions is the last [CAPACITY] of all
    the records, oldest first. *)
Lemma detections_ingest_all (inputs : list input) (a : ScamAnalytics) :
  length (detections a) ≤ CAPACITY →
  detections (foldl (ingest sha256_16) a inputs)
  = last_n CAPACITY (detections a ++ (record_of sha256_16 <$> inputs)).
Proof.
  revert a. induction inputs as [|i inputs IH]; intros a Ha.
  - cbn. rewrite app_nil_r. by rewrite last_n_all.
  - cbn [foldl]. rewrite fmap_cons, IH.
    + rewrite detections_log_detection, last_n_app_last_n.
      by rewrite <- app_assoc.
    + rewrite detections_log_detection, last_n_length. lia.
Qed.

(** C9.  After 10,001 ingestions into an empty log, the log has exactly
    10,000 records: those of the ingestions 2 to 10,001 in their order, so
    that the first is gone and the last is the newest. *)
Theorem log_is_bounded (inputs : list input) :
  length inputs = S CAPACITY →
  length (detections (foldl (ingest sha256_16) init inputs)) = CAPACITY
  ∧ detections (foldl (ingest sha256_16) init inputs)
    = (record_of sha256_16 <$> drop 1 inputs)
  ∧ last (detections (foldl (ingest sha256_16) init inputs))
    = record_of sha256_16 <$> last inputs.
Proof.
  intros Hlen.
  assert (Ha : detections (foldl (ingest sha256_16) init inputs)
               = (record_of sha256_16 <$> drop 1 inputs)).
  { rewrite detections_ingest_all by (cbn; lia).
    cbn [detections init app].
    unfold last_n. rewrite length_fmap, Hlen.
    replace (S CAPACITY - CAPACITY) with 1 by lia.
    by rewrite fmap_drop. }
  split; [|split].
  - rewrite Ha, length_fmap, length_drop. lia.
  - done.
  - rewrite Ha. rewrite fmap_last. f_equal.
    destruct inputs as [|i [|j inputs]]; [done| |done].
    cbn in Hlen. unfold CAPACITY in Hlen. discriminate.
Qed.

End Log.

Section LogExamples.

Import Analytics Examples.

(** 10,001 ingestions of one result. *)
Lemma log_is_bounded_witness :
  length (detections (foldl (ingest no_digest) init
                        (replicate (S CAPACITY) (0%Z, safe_result, []))))
  = CAPACITY
  ∧ detections (foldl (ingest no_digest) init
                  (replicate (S CAPACITY) (0%Z, safe_result, [])))
    = (record_of no_digest
         <$> drop 1 (replicate (S CAPACITY) (0%Z, safe_result, [])))
  ∧ last (detections (foldl (ingest no_digest) init
                        (replicate (S CAPACITY) (0%Z, safe_result, []))))
    = record_of no_digest
        <$> last (replicate (S CAPACITY) (0%Z, safe_result, [])).
Proof.
  apply (log_is_bounded no_digest
           (replicate (S CAPACITY) (0%Z, safe_result, []))).
  apply length_replicate.
Defined.

(** C6 is what the code should do and does not.  The phone substitution
    runs before the card one: sixteen digits in a row are replaced by the
    phone placeholder, and only a card number written in groups reaches the
    card pattern. *)
Theorem card_number_redacted_as_phone :
  _anonymize_message (str "1234567812345678") = str "[PHONE]"
  ∧ _anonymize_message (str "1234567812345678") ≠ str "[CARD]"
  ∧ _anonymize_message (str "1234 5678 1234 5678") = str "[CARD]".
Proof. split; [|split]; vm_compute; done. Qed.

(** The window of 48 hours contains the window of 24 hours. *)
Lemma window_24_in_48 (a : ScamAnalytics) (now : Z) (d : detection_record) :
  (now - 3600 * 24 <? timestamp d)%Z = true →
  (now - 3600 * 48 <? timestamp d)%Z = true.
Proof. rewrite !Z.ltb_lt. lia. Qed.

(** C7 is what the code should do and does not.  The older statistics are
    those of the last 48 hours, which contain the last 24: a pattern seen
    once in the last hour, and never between 24 and 48 hours ago, has the
    older count 1 and is not reported. *)
Theorem new_pattern_not_reported :
  top_patterns_of (get_statistics fresh_log 360000 24)
  = [{| pattern := "urgency_language"; count := 1 |}]
  ∧ List.filter (λ d, (360000 - 3600 * 48 <? timestamp d)%Z
                      && (timestamp d <=? 360000 - 3600 * 24)%Z)
      (detections fresh_log) = []
  ∧ top_patterns_of (get_statistics fresh_log 360000 48)
    = [{| pattern := "urgency_language"; count := 1 |}]
  ∧ get_emerging_threats fresh_log 360000 360000 = [].
Proof. repeat split; vm_compute; reflexivity. Qed.

End LogExamples.

(** ** Emerging threats *)

Section Patterns.

Import Analytics Examples.

Lemma count_of_incr k k' c :
  count_of (incr k c) k'
  = if decide (k = k') then S (count_of c k') else count_of c k'.
Proof.
  unfold count_of. induction c as [|[k0 n] c IH]; cbn.
  - destruct (decide (k = k')) as [->|Hne].
    + by rewrite bool_decide_eq_true_2.
    + by rewrite bool_decide_eq_false_2.
  - destruct (decide (k0 = k)) as [->|Hne]; cbn.
    + destruct (decide (k = k')) as [->|Hne'].
      * by rewrite !bool_decide_eq_true_2.
      * by rewrite !bool_decide_eq_false_2.
    + destruct (bool_decide (k0 = k')) eqn:E; [|done].
      apply bool_decide_eq_true in E as ->.
      by rewrite decide_False by congruence.
Qed.

Lemma incr_keys k c :
  (incr k c).*1 = if decide (k ∈ c.*1) then c.*1 else c.*1 ++ [k].
Proof.
  induction c as [|[k0 n] c IH]; cbn.
  - by rewrite decide_False by apply not_elem_of_nil.
  - destruct (decide (k0 = k)) as [->|Hne]; cbn.
    + rewrite decide_True by left. done.
    + rewrite IH. destruct (decide (k ∈ c.*1)) as [Hin|Hnin].
      * rewrite decide_True by (by right). done.
      * rewrite decide_False; [done|].
        intros [->|?]%elem_of_cons; done.
Qed.

Lemma incr_well_formed k c : well_formed c → well_formed (incr k c).
Proof.
  intros [Hnd Hpos]. split.
  - rewrite incr_keys. destruct (decide _); [done|].
    apply NoDup_app. split; [done|]. split; [|apply NoDup_singleton].
    intros x Hx ->%list_elem_of_singleton. done.
  - clear Hnd. induction c as [|[k0 n] c IH]; cbn.
    + repeat constructor.
    + apply Forall_cons in Hpos as [Hn Hpos].
      destruct (decide (k0 = k)); constructor; cbn in *; auto; lia.
Qed.

Lemma count_of_elem c k n :
  well_formed c → (k, n) ∈ c ↔ count_of c k = n ∧ 1 ≤ n.
Proof.
  intros [Hnd Hpos]. unfold count_of.
  induction c as [|[k0 n0] c IH]; cbn.
  - split; [by intros ?%elem_of_nil | lia].
  - apply NoDup_cons in Hnd as [Hk0 Hnd]. cbn in Hk0.
    apply Forall_cons in Hpos as [Hn0 Hpos]. cbn in Hn0.
    rewrite elem_of_cons.
    destruct (decide (k0 = k)) as [->|Hne].
    + rewrite bool_decide_eq_true_2 by done. cbn. split.
      * intros [[= ->]|Hin]; [done|].
        destruct Hk0. apply list_elem_of_fmap. by exists (k, n).
      * intros [-> _]. by left.
    + rewrite bool_decide_eq_false_2 by done. rewrite <- IH by done.
      split; [intros [[= ? ?]|?]; [congruence|done] | by right].
Qed.

Lemma count_of_foldl rules c k :
  count_of (foldl (λ c rule, incr rule c) c rules) k
  = count_of c k + occurrences k rules.
Proof.
  revert c. induction rules as [|r rules IH]; intros c; cbn [foldl].
  - unfold occurrences. cbn. lia.
  - rewrite IH, count_of_incr. unfold occurrences. cbn [List.filter].
    destruct (decide (r = k)) as [->|Hne].
    + rewrite bool_decide_eq_true_2 by done. cbn. lia.
    + by rewrite bool_decide_eq_false_2.
Qed.

Lemma foldl_incr_well_formed rules c :
  well_formed c → well_formed (foldl (λ c rule, incr rule c) c rules).
Proof.
  revert c. induction rules as [|r rules IH]; intros c Hc; cbn; [done|].
  by apply IH, incr_well_formed.
Qed.

Lemma pattern_counts_from ds c :
  foldl (λ c d, if flagged d then foldl (λ c rule, incr rule c) c
                                      (triggered_rules d)
                else c) c ds
  = foldl (λ c rule, incr rule c) c (counted ds).
Proof.
  revert c. induction ds as [|d ds IH]; intros c; cbn [foldl]; [done|].
  rewrite IH. unfold counted. cbn [flat_map].
  rewrite foldl_app. by destruct (flagged d).
Qed.

Lemma pattern_counts_well_formed ds : well_formed (pattern_counts ds).
Proof.
  unfold pattern_counts. rewrite pattern_counts_from.
  apply foldl_incr_well_formed. split; constructor.
Qed.

Lemma count_of_pattern_counts ds k :
  count_of (pattern_counts ds) k = occurrences k (counted ds).
Proof.
  unfold pattern_counts. by rewrite pattern_counts_from, count_of_foldl.
Qed.

Lemma occurrences_app k l1 l2 :
  occurrences k (l1 ++ l2) = occurrences k l1 + occurrences k l2.
Proof. unfold occurrences. by rewrite List.filter_app, length_app. Qed.

(** A wider window counts every pattern at least as often. *)
Lemma occurrences_filter_mono (P P' : detection_record → bool) ds k :
  (∀ d, P d = true → P' d = true) →
  occurrences k (counted (List.filter P ds))
  ≤ occurrences k (counted (List.filter P' ds)).
Proof.
  intros HP. induction ds as [|d ds IH]; cbn [List.filter]; [done|].
  destruct (P d) eqn:E.
  - rewrite (HP d E). unfold counted in *. cbn [flat_map].
    rewrite !occurrences_app. lia.
  - destruct (P' d); [|done]. unfold counted in *. cbn [flat_map].
    rewrite occurrences_app. lia.
Qed.

Lemma insert_desc_perm {A} (le : A → A → bool) x l :
  insert_desc le x l ≡ₚ x :: l.
Proof.
  induction l as [|y l IH]; cbn; [done|].
  destruct (le y x); [done|]. rewrite IH. apply Permutation_swap.
Qed.

Lemma sort_desc_perm {A} (le : A → A → bool) l : sort_desc le l ≡ₚ l.
Proof.
  unfold sort_desc. induction l as [|x l IH]; cbn; [done|].
  by rewrite insert_desc_perm, IH.
Qed.

Lemma most_common_elem limit c e : e ∈ most_common limit c → e ∈ c.
Proof.
  unfold most_common. intros (i & Hi & _)%elem_of_take.
  apply list_elem_of_lookup_2 in Hi. by rewrite sort_desc_perm in Hi.
Qed.

Lemma most_common_all limit c :
  length c ≤ limit → most_common limit c ≡ₚ c.
Proof.
  intros H. unfold most_common. rewrite take_ge.
  - apply sort_desc_perm.
  - by rewrite sort_desc_perm.
Qed.

Lemma find_unique (l : counter) k n :
  NoDup l.*1 → (k, n) ∈ l →
  List.find (λ e, bool_decide (e.1 = k)) l = Some (k, n).
Proof.
  induction l as [|[k0 n0] l IH]; cbn; intros Hnd Hin.
  - by apply elem_of_nil in Hin.
  - apply NoDup_cons in Hnd as [Hk0 Hnd].
    apply elem_of_cons in Hin as [[= <- <-]|Hin].
    + by rewrite bool_decide_eq_true_2.
    + rewrite bool_decide_eq_false_2; [by apply IH|].
      intros ->. destruct Hk0. apply list_elem_of_fmap. by exists (k, n).
Qed.

Lemma count_in_entries (l : counter) k n :
  NoDup l.*1 → (k, n) ∈ l → count_in (entry_of <$> l) k = n.
Proof.
  intros Hnd Hin. unfold count_in.
  assert (List.find (λ e, bool_decide (pattern e = k))
            (reverse (entry_of <$> l))
          = entry_of <$> List.find (λ e, bool_decide (e.1 = k)) (reverse l))
    as ->.
  { rewrite <- fmap_reverse.
    induction (reverse l) as [|[k0 n0] l' IH]; cbn; [done|].
    destruct (bool_decide (k0 = k)); [done|]. apply IH. }
  rewrite (find_unique (reverse l) k n); [done| |].
  - by rewrite fmap_reverse, reverse_Permutation.
  - by apply elem_of_reverse.
Qed.


Lemma nat_q_le (a b : nat) : a ≤ b → (nat_q a <= nat_q b)%Q.
Proof. intros H. unfold nat_q. rewrite <- Zle_Qle. lia. Qed.

Lemma not_emerging (recent older : nat) :
  1 ≤ recent → recent ≤ older → is_emerging recent older = false.
Proof.
  intros H1 H2. unfold is_emerging.
  destruct (Nat.eqb_spec older 0); [lia|]. cbn.
  apply negb_false_iff, Qle_bool_iff.
  pose proof (nat_q_le _ _ H2). pose proof (nat_q_le 0 older ltac:(lia)) as H0.
  change (nat_q 0) with 0%Q in H0. lra.
Qed.

Lemma omap_none {A B} (f : A → option B) (l : list A) :
  (∀ x, x ∈ l → f x = None) → omap f l = [].
Proof.
  induction l as [|x l IH]; intros H; cbn; [done|].
  rewrite (H x) by left. apply IH. intros y Hy. apply H. by right.
Qed.


(** Why no pattern of the last 24 hours is reported: the window of 48 hours
    contains it, so each of its patterns is counted there at least as often.
    With at most ten patterns counted in the wider window, and two clock
    readings less than a day apart, the list of emerging threats is empty. *)
Lemma emerging_threats_empty (a : ScamAnalytics) (now_recent now_older : Z) :
  (now_recent ≤ now_older ≤ now_recent + 3600 * 24)%Z →
  length (pattern_counts (window a now_older 48)) ≤ 10 →
  get_emerging_threats a now_recent now_older = [].
Proof.
  intros Hnow Hten. unfold get_emerging_threats. cbv zeta.
  rewrite omap_none; [done|].
  intros e He.
  assert (Hrecent : e ∈ _get_top_patterns (window a now_recent 24) 10).
  { unfold get_statistics in He. fold (window a now_recent 24) in He.
    destruct (window a now_recent 24); [by apply elem_of_nil in He|done]. }
  assert (Holder : top_patterns_of (get_statistics a now_older 48)
                   = _get_top_patterns (window a now_older 48) 10).
  { unfold get_statistics. destruct (window a now_older 48) eqn:E; [|done].
    done. }
  rewrite Holder. clear He Holder.
  unfold _get_top_patterns in *.
  apply list_elem_of_fmap in Hrecent as ([k n] & -> & Hin).
  apply most_common_elem in Hin.
  apply count_of_elem in Hin as [Hn H1]; [|apply pattern_counts_well_formed].
  rewrite count_of_pattern_counts in Hn.
  set (n' := occurrences k (counted (window a now_older 48))).
  assert (Hle : n ≤ n').
  { subst n n'. unfold window. apply occurrences_filter_mono.
    intros d. rewrite !Z.ltb_lt. lia. }
  assert (Hin' : (k, n')
                 ∈ most_common 10 (pattern_counts (window a now_older 48))).
  { rewrite most_common_all by done.
    apply count_of_elem; [apply pattern_counts_well_formed|].
    rewrite count_of_pattern_counts. split; [done|lia]. }
  cbn [pattern count entry_of fst snd].
  rewrite (count_in_entries _ k n'); [| |done].
  - by rewrite not_emerging.
  - unfold most_common. rewrite take_ge.
    + rewrite sort_desc_perm. apply pattern_counts_well_formed.
    + by rewrite sort_desc_perm.
Qed.

End Patterns.

(** ** The endpoint and the pipeline *)

Section Endpoint.

Import Config LanguageProcessor RuleDetector Engine.

Variable sha256_16 : text → text.
Variable settings : Settings.







(** C10.  [analyze] gives the same result for any two language records and
    for any two messages equal in lower case; the rule names, the key words
    and the rule score of a result of the pipeline are those of [analyze]
    on the raw message, whatever the language hint. *)
Theorem rule_analysis_invariant
  (m m' : text) (l l' : LanguageInfo) (e e1 e2 : DetectionEngine)
  (now now_log : Z) (h h' : option string) (res1 res2 : detection_result) :
  lower m = lower m' →
  analyze_message sha256_16 settings e now now_log m h = Return (res1, e1) →
  analyze_message sha256_16 settings e now now_log m h' = Return (res2, e2) →
  analyze m l = analyze m l'
  ∧ analyze m l = analyze m' l
  ∧ r_triggered_rules res1 = triggered_rules (analyze m l)
  ∧ r_highlighted_keywords res1 = keywords (analyze m l)
  ∧ r_rule_score res1 = round (score (analyze m l)) 4
  ∧ r_triggered_rules res1 = r_triggered_rules res2
  ∧ r_highlighted_keywords res1 = r_highlighted_keywords res2
  ∧ r_rule_score res1 = r_rule_score res2.
Proof.
  intros Hlow H1 H2.
  assert (Hfields : ∀ hint res e',
    analyze_message sha256_16 settings e now now_log m hint
    = Return (res, e') →
    r_triggered_rules res = triggered_rules (analyze m l)
    ∧ r_highlighted_keywords res = keywords (analyze m l)
    ∧ r_rule_score res = round (score (analyze m l)) 4).
  { intros hint res e' H. unfold analyze_message in H. cbv zeta in H.
    destruct (ml_step _ _ _) as [ml|]; [|done]. cbn [bind] in H.
    destruct (_generate_explanations _ _ _ _ _ _) as [ex|]; [|done].
    cbn [bind] in H. injection H as <- _. done. }
  destruct (Hfields _ _ _ H1) as (Ht1 & Hk1 & Hs1).
  destruct (Hfields _ _ _ H2) as (Ht2 & Hk2 & Hs2).
  split; [done|]. split; [unfold analyze; by rewrite Hlow|].
  repeat split; congruence.
Qed.

End Endpoint.

Section EndpointExamples.

Import Config LanguageProcessor RuleDetector Engine Examples.



(** The same message in two spellings, analysed under two hints. *)
Lemma rule_analysis_invariant_witness :
  analyze (str "URGENT send OTP") any_info
  = analyze (str "URGENT send OTP")
      (process (str "URGENT send OTP") (Some "roman_urdu"%string))
  ∧ analyze (str "URGENT send OTP") any_info
    = analyze (str "urgent SEND otp") any_info
  ∧ r_triggered_rules
      (result_of (analyze_message no_digest ml_off rules_only 0 0
                    (str "URGENT send OTP") (Some "auto"%string)))
    = triggered_rules (analyze (str "URGENT send OTP") any_info)
  ∧ r_highlighted_keywords
      (result_of (analyze_message no_digest ml_off rules_only 0 0
                    (str "URGENT send OTP") (Some "auto"%string)))
    = keywords (analyze (str "URGENT send OTP") any_info)
  ∧ r_rule_score
      (result_of (analyze_message no_digest ml_off rules_only 0 0
                    (str "URGENT send OTP") (Some "auto"%string)))
    = round (score (analyze (str "URGENT send OTP") any_info)) 4
  ∧ r_triggered_rules
      (result_of (analyze_message no_digest ml_off rules_only 0 0
                    (str "URGENT send OTP") (Some "auto"%string)))
    = r_triggered_rules
        (result_of (analyze_message no_digest ml_off rules_only 0 0
                      (str "URGENT send OTP") (Some "roman_urdu"%string)))
  ∧ r_highlighted_keywords
      (result_of (analyze_message no_digest ml_off rules_only 0 0
                    (str "URGENT send OTP") (Some "auto"%string)))
    = r_highlighted_keywords
        (result_of (analyze_message no_digest ml_off rules_only 0 0
                      (str "URGENT send OTP") (Some "roman_urdu"%string)))
  ∧ r_rule_score
      (result_of (analyze_message no_digest ml_off rules_only 0 0
                    (str "URGENT send OTP") (Some "auto"%string)))
    = r_rule_score
        (result_of (analyze_message no_digest ml_off rules_only 0 0
                      (str "URGENT send OTP") (Some "roman_urdu"%string))).
Proof.
  apply (rule_analysis_invariant no_digest ml_off
           (str "URGENT send OTP") (str "urgent SEND otp")
           any_info
           (process (str "URGENT send OTP") (Some "roman_urdu"%string))
           rules_only rules_only rules_only 0 0
           (Some "auto"%string) (Some "roman_urdu"%string)).
  - vm_compute. reflexivity.
  - vm_compute. reflexivity.
  - vm_compute. reflexivity.
Defined.

End EndpointExamples.

(** ** Further properties of the code *)

Section Rounding.

Lemma round_half_even_le (x : Q) (b : Z) :
  (x <= inject_Z b)%Q → (round_half_even x ≤ b)%Z.
Proof.
  intros Hx. unfold round_half_even. cbv zeta.
  pose proof (Qfloor_le x) as Hfl.
  assert (Hfb : (Qfloor x ≤ b)%Z).
  { rewrite Zle_Qle. lra. }
  destruct (decide (Qfloor x = b)) as [Heq|Hne].
  - assert (x - inject_Z (Qfloor x) == 0)%Q as H0 by (rewrite Heq in *; lra).
    assert ((x - inject_Z (Qfloor x) ?= 1 # 2)%Q = Lt) as ->; [|lia].
    apply Qlt_alt. rewrite H0. reflexivity.
  - destruct (_ ?= _)%Q; [destruct (Z.even _)|..]; lia.
Qed.

Lemma round_half_even_ge (x : Q) (a : Z) :
  (inject_Z a <= x)%Q → (a ≤ round_half_even x)%Z.
Proof.
  intros Hx. unfold round_half_even. cbv zeta.
  assert (Hfa : (a ≤ Qfloor x)%Z).
  { rewrite <- (Qfloor_Z a). by apply Qfloor_resp_le. }
  destruct (_ ?= _)%Q; [destruct (Z.even _)|..]; lia.
Qed.

Lemma scale_pos (nd : nat) : (0 < inject_Z (10 ^ Z.of_nat nd))%Q.
Proof.
  change 0%Q with (inject_Z 0). rewrite <- Zlt_Qlt.
  apply Z.pow_pos_nonneg; lia.
Qed.

(** [round] keeps a value between two whole numbers between them. *)
Lemma round_between (x : Q) (a b : Z) (nd : nat) :
  (inject_Z a <= x <= inject_Z b)%Q →
  (inject_Z a <= round x nd <= inject_Z b)%Q.
Proof.
  intros [Ha Hb]. unfold round. cbv zeta.
  set (s := (10 ^ Z.of_nat nd)%Z).
  pose proof (scale_pos nd) as Hs. fold s in Hs.
  assert (H1 : (a * s ≤ round_half_even (x * inject_Z s))%Z).
  { apply round_half_even_ge. rewrite inject_Z_mult.
    apply Qmult_le_compat_r; lra. }
  assert (H2 : (round_half_even (x * inject_Z s) ≤ b * s)%Z).
  { apply round_half_even_le. rewrite inject_Z_mult.
    apply Qmult_le_compat_r; lra. }
  rewrite Zle_Qle, inject_Z_mult in H1, H2.
  split.
  - apply Qle_shift_div_l; [done|]. lra.
  - apply Qle_shift_div_r; [done|]. lra.
Qed.

(** A whole number is its own rounding. *)
Lemma round_whole (z : Z) (nd : nat) : (round (inject_Z z) nd == inject_Z z)%Q.
Proof.
  pose proof (round_between (inject_Z z) z z nd) as H.
  assert (inject_Z z <= inject_Z z <= inject_Z z)%Q as H0 by lra.
  apply H in H0. lra.
Qed.

End Rounding.

Section Combiner.
Import Config LanguageProcessor RuleDetector Engine.

(** X1.  [_classify] is monotone: a higher score never gets a less severe
    classification, whatever the two thresholds are. *)
Theorem classify_monotone (s : Settings) (x y : Q) :
  (x <= y)%Q → severity (_classify s x) ≤ severity (_classify s y).
Proof.
  intros Hxy. unfold _classify.
  destruct (Qle_bool (SCAM_THRESHOLD s) x) eqn:E1.
  - apply Qle_bool_iff in E1.
    assert (Qle_bool (SCAM_THRESHOLD s) y = true) as ->; [|done].
    apply Qle_bool_iff. lra.
  - destruct (Qle_bool (SUSPICIOUS_THRESHOLD s) x) eqn:E2.
    + apply Qle_bool_iff in E2.
      destruct (Qle_bool (SCAM_THRESHOLD s) y); [cbn; lia|].
      assert (Qle_bool (SUSPICIOUS_THRESHOLD s) y = true) as ->; [|done].
      apply Qle_bool_iff. lra.
    + cbn. lia.
Qed.

Lemma classify_monotone_witness :
  severity (_classify Config.default 0.5) ≤ severity (_classify Config.default 0.8).
Proof. apply (classify_monotone Config.default 0.5 0.8). vm_compute. discriminate. Defined.

Lemma confidence_bounds (ml_score rule_score : Q) :
  (0 <= ml_score <= 1)%Q → (0 <= rule_score <= 1)%Q →
  (0 <= _calculate_confidence ml_score rule_score <= 1)%Q.
Proof.
  intros [Hm0 Hm1] [Hr0 Hr1]. unfold _calculate_confidence.
  destruct (Qeq_bool ml_score 0).
  - split; [apply Q.min_glb; lra | apply Q.le_min_r].
  - cbv zeta. split; [|apply Q.le_min_r].
    apply Q.min_glb; [|lra].
    assert (0 <= 1 - Qabs (ml_score - rule_score))%Q.
    { assert (Qabs (ml_score - rule_score) <= 1)%Q; [|lra].
      apply Qabs_Qle_condition. split; lra. }
    assert (0 <= (ml_score + rule_score) / 2)%Q by (apply Qle_shift_div_l; lra).
    assert (0 <= (ml_score + rule_score) / 2
                 * (1 - Qabs (ml_score - rule_score)))%Q
      by (apply Qmult_le_0_compat; done).
    lra.
Qed.

(** X2.  For two scores between 0 and 1 the confidence lies between 0 and 1;
    two equal scores [s], not zero, give [min(1.5 s, 1)]. *)
Theorem confidence_in_range (ml_score rule_score : Q) :
  (0 <= ml_score <= 1)%Q → (0 <= rule_score <= 1)%Q →
  (0 <= _calculate_confidence ml_score rule_score <= 1)%Q
  ∧ (ml_score == rule_score → ¬ ml_score == 0 →
     _calculate_confidence ml_score rule_score == Qmin (ml_score * 1.5) 1)%Q.
Proof.
  intros Hm Hr. split; [by apply confidence_bounds|].
  intros Heq Hne. unfold _calculate_confidence.
  destruct (Qeq_bool ml_score 0) eqn:E; [by apply Qeq_bool_iff in E|].
  cbv zeta.
  assert (Qabs (ml_score - rule_score) == 0)%Q as Ha.
  { assert (ml_score - rule_score == 0)%Q as -> by lra. reflexivity. }
  set (x := ((ml_score + rule_score) / 2
             * (1 - Qabs (ml_score - rule_score)) * 1.5)%Q).
  assert (x == ml_score * 1.5)%Q as Hx.
  { unfold x. rewrite Ha, <- Heq. field. }
  destruct (Q.min_spec x 1) as [[? ->]|[? ->]],
    (Q.min_spec (ml_score * 1.5) 1) as [[? ->]|[? ->]]; lra.
Qed.

Lemma confidence_in_range_witness :
  (0 <= _calculate_confidence 0.6 0.6 <= 1)%Q
  ∧ (0.6 == 0.6 → ¬ 0.6 == 0 →
     _calculate_confidence 0.6 0.6 == Qmin (0.6 * 1.5) 1)%Q.
Proof.
  apply (confidence_in_range 0.6 0.6); split; vm_compute; discriminate.
Defined.

End Combiner.

Section Results.
Import Config LanguageProcessor RuleDetector Engine Examples.

Variable sha256_16 : text → text.
Variable settings : Settings.


(** The fields of a result, read off [analyze_message]. *)
Lemma analyze_message_fields e now now_log m h res e' :
  analyze_message sha256_16 settings e now now_log m h = Return (res, e') →
  ∃ ml ex,
    ml_step settings e (processed_text (process m h)) = Return ml
    ∧ _generate_explanations settings
        (_classify settings
           (_calculate_final_score settings ml
              (score (analyze m (process m h)))))
        ml (score (analyze m (process m h)))
        (analyze m (process m h)) (process m h) = Return ex
    ∧ res = {|
        r_classification :=
          _classify settings
            (_calculate_final_score settings ml
               (score (analyze m (process m h))));
        r_risk_score :=
          round (_calculate_final_score settings ml
                   (score (analyze m (process m h))) * 100) 2;
        r_ml_score := round ml 4;
        r_rule_score := round (score (analyze m (process m h))) 4;
        r_confidence :=
          round (_calculate_confidence ml
                   (score (analyze m (process m h)))) 4;
        r_explanation := ex;
        r_highlighted_keywords := keywords (analyze m (process m h));
        r_triggered_rules := triggered_rules (analyze m (process m h));
        r_safety_recommendations :=
          _generate_recommendations
            (_classify settings
               (_calculate_final_score settings ml
                  (score (analyze m (process m h)))))
            (triggered_rules (analyze m (process m h))) (process m h);
        r_language_info :=
          (LanguageProcessor.language (process m h),
           round (LanguageProcessor.confidence (process m h)) 4);
        r_analyzed_at := now;
        r_message_hash := sha256_16 m
      |}.
Proof.
  unfold analyze_message. cbv zeta. intros H.
  destruct (ml_step _ _ _) as [ml|]; [|done]. cbn [bind] in H.
  destruct (_generate_explanations _ _ _ _ _ _) as [ex|] eqn:E; [|done].
  cbn [bind] in H. injection H as <- _. exists ml, ex. done.
Qed.



(** X4.  The explanations are never empty.  The line for no indicators is
    there exactly when it is the only line, the line for several red flags
    exactly when three rules or more triggered, and a rule has its line
    exactly when it triggered and has an explanation. *)
Theorem explanations_never_empty c ml rs rr li ex :
  _generate_explanations settings c ml rs rr li = Return ex →
  ex ≠ []
  ∧ (NoIndicators ∈ ex ↔ ex = [NoIndicators])
  ∧ (MultipleRedFlags ∈ ex ↔ 3 ≤ length (triggered_rules rr))
  ∧ (∀ rule, RuleExplanation rule ∈ ex
             ↔ rule ∈ triggered_rules rr ∧ rule ∈ EXPLAINED).
Proof.
  unfold _generate_explanations.
  set (ml_lines := if ENABLE_ML settings && _ then _ else _).
  assert (Hml : ∀ x, x ∈ ml_lines → ∃ p, x = AiDetection p ∨ x = AiAlert p).
  { intros x. unfold ml_lines.
    destruct (_ && _); [|by intros ?%elem_of_nil].
    destruct (Qgt_bool ml 0.75);
      [intros ->%list_elem_of_singleton; eauto|].
    destruct (Qgt_bool ml 0.45);
      [intros ->%list_elem_of_singleton; eauto | by intros ?%elem_of_nil]. }
  set (lang := if decide (LanguageProcessor.language li = Some "english"%string)
               then _ else _).
  destruct lang as [lang_lines|] eqn:El; [|done]. cbn [bind].
  assert (Hlang : ∀ x, x ∈ lang_lines → ∃ l q, x = LanguageDetected l q).
  { intros x. unfold lang in El.
    destruct (decide _); [injection El as <-; by intros ?%elem_of_nil|].
    destruct (LanguageProcessor.language li); [|done].
    injection El as <-. intros ->%list_elem_of_singleton. eauto. }
  set (rule_lines := omap _ (triggered_rules rr)).
  assert (Hrule : ∀ x, x ∈ rule_lines
                  ↔ ∃ rule, x = RuleExplanation rule
                            ∧ rule ∈ triggered_rules rr ∧ rule ∈ EXPLAINED).
  { intros x. unfold rule_lines. rewrite list_elem_of_omap. split.
    - intros (rule & Hin & Hx).
      destruct (decide (rule ∈ EXPLAINED)); [|done].
      injection Hx as <-. eauto.
    - intros (rule & -> & Hin & He). exists rule. split; [done|].
      by rewrite decide_True. }
  set (flags := if (3 <=? _)%nat then _ else _).
  assert (Hflags : ∀ x, x ∈ flags
                   ↔ x = MultipleRedFlags ∧ 3 ≤ length (triggered_rules rr)).
  { intros x. unfold flags. destruct (Nat.leb_spec 3 (length (triggered_rules rr))).
    - rewrite list_elem_of_singleton. tauto.
    - split; [by intros ?%elem_of_nil | lia]. }
  set (all := ml_lines ++ lang_lines ++ rule_lines ++ flags).
  assert (Hall : ∀ x, x ∈ all
                 ↔ x ∈ ml_lines ∨ x ∈ lang_lines ∨ x ∈ rule_lines ∨ x ∈ flags).
  { intros x. unfold all. by rewrite !elem_of_app. }
  assert (Hno : NoIndicators ∉ all).
  { rewrite Hall. intros [H|[H|[H|H]]].
    - apply Hml in H as [p [?|?]]; done.
    - apply Hlang in H as (? & ? & ?); done.
    - apply Hrule in H as (? & ? & _); done.
    - apply Hflags in H as [? _]; done. }
  assert (Hflag : MultipleRedFlags ∈ all ↔ 3 ≤ length (triggered_rules rr)).
  { rewrite Hall. split.
    - intros [H|[H|[H|H]]].
      + apply Hml in H as [p [?|?]]; done.
      + apply Hlang in H as (? & ? & ?); done.
      + apply Hrule in H as (? & ? & _); done.
      + by apply Hflags in H as [_ ?].
    - intros H. do 3 right. by apply Hflags. }
  assert (Hr : ∀ rule, RuleExplanation rule ∈ all
                       ↔ rule ∈ triggered_rules rr ∧ rule ∈ EXPLAINED).
  { intros rule. rewrite Hall. split.
    - intros [H|[H|[H|H]]].
      + apply Hml in H as [p [?|?]]; done.
      + apply Hlang in H as (? & ? & ?); done.
      + apply Hrule in H as (? & [= <-] & ?). done.
      + apply Hflags in H as [? _]; done.
    - intros H. right; right; left. apply Hrule. eauto. }
  clearbody all. intros [= <-].
  destruct all as [|x all].
  - split; [done|]. split; [split; [done|intros _; by left]|].
    split.
    + rewrite <- Hflag. split; [|by intros ?%elem_of_nil].
      intros [?|?%elem_of_nil]%elem_of_cons; done.
    + intros rule. rewrite <- Hr. split; [|by intros ?%elem_of_nil].
      intros [?|?%elem_of_nil]%elem_of_cons; done.
  - split; [done|]. split; [|done].
    split; [done|]. intros [= -> ->]. destruct Hno. by left.
Qed.

(** X5.  The recommendations are between one and six.  The advice on codes,
    on the official app and on shortened links is given exactly for its
    rule; the advice not to respond exactly for a scam, and the line that the
    message appears safe exactly for a safe one. *)
Theorem recommendations_by_rule c rules li :
  let recs := _generate_recommendations c rules li in
  recs ≠ []
  ∧ (NeverShareOtp ∈ recs ↔ "sensitive_data_request"%string ∈ rules)
  ∧ (VerifyOfficialApp ∈ recs
     ↔ "brand_impersonation_pakistan_financial"%string ∈ rules)
  ∧ (NeverClickShortened ∈ recs ↔ "shortened_url"%string ∈ rules)
  ∧ (DoNotRespond ∈ recs ↔ c = SCAM)
  ∧ (AppearsSafe ∈ recs ↔ c = SAFE)
  ∧ 1 ≤ length recs ≤ 6.
Proof.
  cbv zeta. unfold _generate_recommendations.
  split; [by destruct c|].
  repeat split.
  all: try (rewrite !length_app;
            destruct c; repeat destruct (decide _); cbn; lia).
  all: rewrite !elem_of_app;
    destruct c; repeat destruct (decide _);
    rewrite ?elem_of_cons, ?elem_of_nil; intuition (first [done | discriminate]).
Qed.

End Results.

Section Sub.

(** Where a pattern is not found, [re.sub] returns the text as it is. *)
Lemma sub_from_no_match r repl prev s :
  (∀ k, k ≤ length s → rmatch r (char_before prev s k) (drop k s) = []) →
  sub_from r repl prev s 0 = s.
Proof.
  revert prev. induction s as [|c s IH]; intros prev H; cbn [sub_from].
  - pose proof (H 0 ltac:(cbn; lia)) as H0. cbn in H0. by rewrite H0.
  - pose proof (H 0 ltac:(cbn; lia)) as H0. cbn in H0. rewrite H0.
    f_equal. apply IH. intros k Hk.
    rewrite (char_before_cons prev). apply (H (S k)). cbn. lia.
Qed.

Lemma sub_not_found r repl t :
  RuleDetector.found t r = false → sub r repl t = t.
Proof.
  unfold RuleDetector.found, search, sub.
  destruct (search_from r None t 0) eqn:E; [done|]. intros _.
  apply sub_from_no_match. by eapply search_from_None.
Qed.

End Sub.

Section Translation.
Import LanguageProcessor RuleDetector.

Lemma marker_not_found (w : string) (t : text) :
  forallb edges [str w] = true →
  (∀ i, ¬ (occurs_at (str w) t i ∧ whole_word_at t i (length (str w)))) →
  found t (bounded (lit w)) = false.
Proof.
  intros He H. destruct (found t (bounded (lit w))) eqn:E; [|done].
  apply found_bounded in E as (kw & i & Hkw & Ho & Hw); [|done|done].
  cbn in Hkw. destruct Hkw as [<-|[]]. destruct (H i). done.
Qed.

(** X6.  [_translate_roman_urdu] leaves a text as it is when none of its five
    words stands in the text as a whole word. *)
Theorem translation_keeps_other_words (t : text) :
  (∀ e i, e ∈ translations →
          ¬ (occurs_at (str e.1) t i
             ∧ whole_word_at t i (length (str e.1)))) →
  _translate_roman_urdu t = t.
Proof.
  intros H. unfold _translate_roman_urdu.
  assert (He : ∀ e, e ∈ translations → forallb edges [str e.1] = true).
  { intros e He. unfold translations in He.
    repeat (apply elem_of_cons in He as [->|He]; [done|]).
    by apply elem_of_nil in He. }
  induction translations as [|e l IH]; cbn [foldl]; [done|].
  rewrite sub_not_found.
  - apply IH.
    + intros e' i He'. apply H. by right.
    + intros e' He'. apply He. by right.
  - apply marker_not_found; [apply He; by left|].
    intros i. apply H. by left.
Qed.

End Translation.

Section Normalise.
Import LanguageProcessor.

Lemma rev_seq_S a k : rev (seq a (S k)) = (a + k) :: rev (seq a k).
Proof. rewrite seq_S, rev_app_distr. done. Qed.

Lemma rmatch_spaces prev s :
  rmatch SPACES prev s
  = match run Char.is_space s with
    | 0 => []
    | S k => S k :: rev (seq 1 k)
    end.
Proof.
  unfold SPACES. cbn [rmatch]. destruct (run Char.is_space s) as [|k]; [done|].
  cbn [Nat.leb]. replace (S (S k) - 1) with (S k) by lia.
  by rewrite rev_seq_S.
Qed.

Lemma sub_from_spaces_prev repl prev prev' s k :
  sub_from SPACES repl prev s k = sub_from SPACES repl prev' s k.
Proof.
  revert prev prev' k. induction s as [|c s IH]; intros prev prev' k.
  - destruct k; cbn [sub_from]; [|done]. by rewrite !rmatch_spaces.
  - destruct k; cbn [sub_from]; [|done]. by rewrite !rmatch_spaces.
Qed.

Lemma sub_from_skip repl prev s k :
  k ≤ length s →
  sub_from SPACES repl prev s k = sub_from SPACES repl None (drop k s) 0.
Proof.
  revert prev k. induction s as [|c s IH]; intros prev k Hk.
  - cbn in Hk. replace k with 0 by lia. apply sub_from_spaces_prev.
  - destruct k as [|k]; [apply sub_from_spaces_prev|].
    cbn [sub_from drop]. apply IH. cbn in Hk. lia.
Qed.

Lemma run_le p (s : text) : run p s ≤ length s.
Proof. induction s as [|c s IH]; cbn; [lia|]. destruct (p c); cbn; lia. Qed.

Lemma collapse_nil : collapse [] = [].
Proof. done. Qed.

Lemma collapse_word c s :
  Char.is_space c = false → collapse (c :: s) = c :: collapse s.
Proof.
  intros Hc. unfold collapse. cbn [sub_from]. rewrite rmatch_spaces.
  cbn [run]. rewrite Hc. f_equal. apply sub_from_spaces_prev.
Qed.

Lemma collapse_space c s :
  Char.is_space c = true →
  collapse (c :: s) = 32%N :: collapse (drop (run Char.is_space s) s).
Proof.
  intros Hc. unfold collapse. cbn [sub_from]. rewrite rmatch_spaces.
  cbn [run]. rewrite Hc. cbn [app]. f_equal.
  apply sub_from_skip, run_le.
Qed.

Lemma split_from_skip s :
  split_from [] s = split_from [] (drop (run Char.is_space s) s).
Proof.
  induction s as [|c s IH]; cbn [split_from run]; [done|].
  destruct (Char.is_space c) eqn:E; cbn [drop split_from]; [apply IH|].
  by rewrite E.
Qed.

Lemma split_from_nonempty cur s : cur ≠ [] → split_from cur s ≠ [].
Proof.
  revert cur. induction s as [|c s IH]; intros cur Hc; cbn [split_from].
  - by destruct cur.
  - destruct (Char.is_space c); [by destruct cur|]. by apply IH.
Qed.

Lemma join_cons w ws : ws ≠ [] → join (w :: ws) = w ++ 32%N :: join ws.
Proof. by destruct ws. Qed.

(** No white space at the end. *)
Lemma ends_well_cons c s : s ≠ [] → ends_well (c :: s) → ends_well s.
Proof. intros Hs H x Hx. apply H. by destruct s. Qed.

Lemma head_drop_run (s : text) c :
  head (drop (run Char.is_space s) s) = Some c → Char.is_space c = false.
Proof.
  induction s as [|x s IH]; cbn [run]; [done|].
  destruct (Char.is_space x) eqn:E; cbn [drop]; [done|].
  by intros [= <-].
Qed.

Lemma drop_run_nonempty (s : text) :
  s ≠ [] → ends_well s → drop (run Char.is_space s) s ≠ [].
Proof.
  induction s as [|x s IH]; [done|]. intros _ He. cbn [run].
  destruct (Char.is_space x) eqn:E; [|done]. cbn [drop].
  destruct s as [|y s].
  - specialize (He x eq_refl). congruence.
  - apply IH; [done|]. by eapply ends_well_cons.
Qed.

Lemma ends_well_drop (s : text) k : ends_well s → ends_well (drop k s).
Proof.
  intros He c Hc. apply He. rewrite !last_lookup in *.
  rewrite lookup_drop, length_drop in Hc.
  destruct (decide (k < length s)).
  - rewrite <- Hc. f_equal. lia.
  - rewrite lookup_ge_None_2 in Hc by lia. done.
Qed.

Lemma collapse_join_aux n : ∀ cur s,
  length s ≤ n → ends_well s → (cur = [] → starts_well s) →
  rev cur ++ collapse s = join (split_from cur s).
Proof.
  induction n as [|n IH]; intros cur s Hn He Hs.
  - destruct s; [|cbn in Hn; lia]. cbn. rewrite app_nil_r. by destruct cur.
  - destruct s as [|c s].
    { cbn. rewrite app_nil_r. by destruct cur. }
    cbn in Hn. cbn [split_from]. destruct (Char.is_space c) eqn:E.
    + destruct cur as [|x cur].
      { specialize (Hs eq_refl c eq_refl). congruence. }
      rewrite collapse_space by done.
      assert (Hs' : s ≠ []).
      { intros ->. specialize (He c eq_refl). congruence. }
      set (rest := drop (run Char.is_space s) s).
      assert (Hrest : rest ≠ [])
        by (apply drop_run_nonempty; [done|by eapply ends_well_cons]).
      rewrite split_from_skip. fold rest.
      rewrite join_cons.
      * f_equal. f_equal.
        rewrite <- (IH [] rest); [done| | |].
        -- unfold rest. rewrite length_drop. lia.
        -- apply ends_well_drop. by eapply ends_well_cons.
        -- intros _ y Hy. by eapply head_drop_run.
      * destruct rest as [|y rest'] eqn:Er; [done|].
        cbn [split_from].
        assert (Char.is_space y = false) as ->.
        { apply (head_drop_run s). fold rest. by rewrite Er. }
        by apply split_from_nonempty.
    + rewrite collapse_word by done.
      rewrite <- (IH (c :: cur) s); [|lia| |done].
      * cbn [rev]. by rewrite <- app_assoc.
      * destruct s as [|y s]; [by intros ? ?|]. by eapply ends_well_cons.
Qed.

Lemma collapse_join s :
  starts_well s → ends_well s → collapse s = join (split s).
Proof.
  intros Hs He. unfold split.
  by rewrite <- (collapse_join_aux (length s) [] s).
Qed.

(** *** [strip] *)

Lemma lstrip_drop t : lstrip t = drop (run Char.is_space t) t.
Proof.
  induction t as [|c t IH]; cbn [lstrip run]; [done|].
  by destruct (Char.is_space c).
Qed.

Lemma lstrip_starts_well t : starts_well (lstrip t).
Proof. intros c. rewrite lstrip_drop. apply head_drop_run. Qed.

Lemma split_lstrip t : split (lstrip t) = split t.
Proof. unfold split. by rewrite lstrip_drop, <- split_from_skip. Qed.

Lemma split_from_snoc_space cur u x :
  Char.is_space x = true → split_from cur (u ++ [x]) = split_from cur u.
Proof.
  intros Hx. revert cur. induction u as [|c u IH]; intros cur; cbn [app split_from].
  - rewrite Hx. by destruct cur.
  - destruct (Char.is_space c); [destruct cur|]; by rewrite IH.
Qed.

Lemma rstrip_snoc u x :
  rstrip (u ++ [x]) = if Char.is_space x then rstrip u else u ++ [x].
Proof.
  unfold rstrip. rewrite rev_app_distr. cbn [rev app lstrip].
  destruct (Char.is_space x); [done|]. cbn [rev]. by rewrite rev_involutive.
Qed.

Lemma split_rstrip u : split (rstrip u) = split u.
Proof.
  induction u as [|x u IH] using rev_ind; [done|].
  rewrite rstrip_snoc. destruct (Char.is_space x) eqn:E; [|done].
  unfold split in *. by rewrite split_from_snoc_space.
Qed.

Lemma rstrip_ends_well u : ends_well (rstrip u).
Proof.
  intros c. unfold rstrip.
  rewrite <- (rev_involutive (rev (lstrip (rev u)))) at 1.
  rewrite rev_involutive.
  assert (∀ l : text, last (rev l) = head l) as ->.
  { intros l. destruct l as [|y l]; [done|]. cbn [rev]. by rewrite last_snoc. }
  apply lstrip_starts_well.
Qed.

Lemma rstrip_starts_well u : starts_well u → starts_well (rstrip u).
Proof.
  induction u as [|x u IH] using rev_ind; [done|]. intros Hs.
  rewrite rstrip_snoc. destruct (Char.is_space x) eqn:E; [|done].
  destruct u as [|y u].
  - specialize (Hs x eq_refl). congruence.
  - apply IH. intros c Hc. apply Hs. done.
Qed.

Lemma strip_rstrip t : strip t = rstrip (lstrip t).
Proof. done. Qed.

Lemma collapse_strip t : collapse (strip t) = join (split t).
Proof.
  rewrite strip_rstrip, collapse_join.
  - by rewrite split_rstrip, split_lstrip.
  - apply rstrip_starts_well, lstrip_starts_well.
  - apply rstrip_ends_well.
Qed.

(** X7.  For an ASCII message, the processed text of [process] is the
    lower-cased message with its words joined by single spaces, translated
    when the language is Roman Urdu. *)
Theorem process_normalises (m : text) (h : option string) :
  isascii m = true →
  processed_text (process m h)
  = if decide (language (process m h) = Some "roman_urdu"%string)
    then _translate_roman_urdu (join (split (lower m)))
    else join (split (lower m)).
Proof.
  intros _. unfold process.
  destruct (if decide (h = Some "auto"%string) then _ else _) as [lang conf].
  cbn [processed_text language].
  change (sub (Rep Char.is_space 1 None) (str " ") (strip (lower m)))
    with (collapse (strip (lower m))).
  by rewrite collapse_strip.
Qed.

(** A message with capitals and white space around and between its
    words, taken as Roman Urdu. *)
Lemma process_normalises_witness :
  processed_text (process (str "  Aapka   ACCOUNT band hai ")
                    (Some "roman_urdu"%string))
  = if decide (language (process (str "  Aapka   ACCOUNT band hai ")
                           (Some "roman_urdu"%string))
               = Some "roman_urdu"%string)
    then _translate_roman_urdu
           (join (split (lower (str "  Aapka   ACCOUNT band hai "))))
    else join (split (lower (str "  Aapka   ACCOUNT band hai "))).
Proof.
  apply (process_normalises (str "  Aapka   ACCOUNT band hai ")
           (Some "roman_urdu"%string)).
  vm_compute. reflexivity.
Defined.

End Normalise.

Section Redaction.
Import Analytics.

Lemma rmatch_cat_first a b prev s n :
  In n (rmatch (Cat a b) prev s) → ∃ n1, In n1 (rmatch a prev s).
Proof. cbn [rmatch]. intros (n1 & H & _)%in_flat_map. eauto. Qed.

Lemma rmatch_cat_split a b prev s n :
  In n (rmatch (Cat a b) prev s) →
  ∃ n1 k, In n1 (rmatch a prev s)
          ∧ In k (rmatch b (char_before prev s n1) (drop n1 s)).
Proof.
  cbn [rmatch]. intros (n1 & H & (k & _ & Hk)%in_map_iff)%in_flat_map. eauto.
Qed.

Lemma rmatch_rep_head p lo hi prev s n :
  1 ≤ lo → In n (rmatch (Rep p lo hi) prev s) →
  ∃ c s', s = c :: s' ∧ p c = true.
Proof.
  intros Hlo. cbn [rmatch].
  assert (Hrun : ∀ k, lo ≤ k → k ≤ run p s → ∃ c s', s = c :: s' ∧ p c = true).
  { intros k H1 H2. destruct s as [|c s']; [cbn in H2; lia|].
    cbn in H2. destruct (p c) eqn:E; [eauto|lia]. }
  destruct hi as [h|].
  - destruct (Nat.leb_spec lo (Nat.min h (run p s))); [|done].
    intros _. apply (Hrun (Nat.min h (run p s))); lia.
  - destruct (Nat.leb_spec lo (run p s)); [|done].
    intros _. by apply (Hrun (run p s)).
Qed.

Lemma rmatch_str w prev s n :
  In n (rmatch (Str w) prev s) → starts_with w s = true.
Proof. cbn [rmatch]. by destruct (starts_with w s). Qed.

Lemma forallb_drop {A} (f : A → bool) (l : list A) k :
  forallb f l = true → forallb f (drop k l) = true.
Proof.
  rewrite !forallb_forall. intros H x Hx. apply H.
  rewrite <- (take_drop k l). apply in_app_iff. by right.
Qed.

Lemma contains_drop w (t : text) k :
  contains w t = false → starts_with w (drop k t) = false.
Proof.
  revert k. induction t as [|c t IH]; intros k; cbn [contains].
  - rewrite orb_false_r. intros H. by destruct k.
  - intros [H1 H2]%orb_false_iff. destruct k as [|k]; [done|].
    cbn [drop]. by apply IH.
Qed.

Lemma starts_with_at_elem (s : text) :
  starts_with (str "@") s = true → at_free s = false.
Proof.
  destruct s as [|c s]; [done|]. cbn [str starts_with].
  rewrite andb_true_iff. intros [<-%N.eqb_eq _]. done.
Qed.

Lemma at_free_drop_false (s : text) k :
  at_free (drop k s) = false → at_free s = false.
Proof.
  intros H. destruct (at_free s) eqn:E; [|done].
  unfold at_free in *. by rewrite forallb_drop in H.
Qed.

(** A text the digit patterns cannot match. *)
Lemma digits_needed b prev s :
  (∀ n, In n (rmatch b prev s) → ∃ c s', s = c :: s' ∧ Char.is_digit c = true) →
  digit_free s = true → rmatch (bounded b) prev s = [].
Proof.
  intros Hb Hd. destruct (rmatch (bounded b) prev s) as [|n l] eqn:E; [done|].
  assert (In n (rmatch (bounded b) prev s)) as Hin by (rewrite E; by left).
  apply rmatch_bounded in Hin as (_ & Hin & _).
  apply Hb in Hin as (c & s' & -> & Hc). cbn in Hd. by rewrite Hc in Hd.
Qed.

Lemma phone_needs_digit prev s : digit_free s = true → rmatch PHONE prev s = [].
Proof.
  apply digits_needed. intros n Hin. eapply rmatch_rep_head; [|done]. lia.
Qed.

Lemma cnic_needs_digit prev s : digit_free s = true → rmatch CNIC prev s = [].
Proof.
  apply digits_needed. intros n Hin.
  do 4 apply rmatch_cat_first in Hin as [? Hin].
  eapply rmatch_rep_head; [|done]. lia.
Qed.

Lemma card_needs_digit prev s : digit_free s = true → rmatch CARD prev s = [].
Proof.
  apply digits_needed. intros n Hin.
  do 6 apply rmatch_cat_first in Hin as [? Hin].
  eapply rmatch_rep_head; [|done]. lia.
Qed.

Lemma email_needs_at prev s : at_free s = true → rmatch EMAIL prev s = [].
Proof.
  intros Ha. destruct (rmatch EMAIL prev s) as [|n l] eqn:E; [done|].
  assert (In n (rmatch EMAIL prev s)) as Hin by (rewrite E; by left).
  apply rmatch_bounded in Hin as (_ & Hin & _).
  do 3 apply rmatch_cat_first in Hin as [? Hin].
  apply rmatch_cat_split in Hin as (n1 & k & _ & Hk).
  apply rmatch_str, starts_with_at_elem, at_free_drop_false in Hk. congruence.
Qed.

Lemma url_needs_http prev s :
  starts_with (str "http") s = false → rmatch URL prev s = [].
Proof.
  intros Hh. destruct (rmatch URL prev s) as [|n l] eqn:E; [done|].
  assert (In n (rmatch URL prev s)) as Hin by (rewrite E; by left).
  do 3 apply rmatch_cat_first in Hin as [? Hin].
  apply rmatch_str in Hin. unfold lit in Hin. congruence.
Qed.

Lemma not_found_everywhere r t :
  (∀ i, rmatch r (char_before None t i) (drop i t) = []) →
  RuleDetector.found t r = false.
Proof.
  intros H. destruct (RuleDetector.found t r) eqn:E; [|done].
  apply found_iff in E as (i & n & _ & Hin). unfold match_at in Hin.
  by rewrite H in Hin.
Qed.

(** X8.  [_anonymize_message] leaves an ASCII message as it is when it has no
    digit, no [@] and no [http]. *)
Theorem anonymize_plain_text (message : text) :
  isascii message = true →
  digit_free message = true → at_free message = true →
  contains (str "http") message = false →
  _anonymize_message message = message.
Proof.
  intros _ Hd Ha Hh. unfold _anonymize_message.
  rewrite (sub_not_found PHONE)
    by (apply not_found_everywhere; intros i;
        by apply phone_needs_digit, forallb_drop).
  rewrite (sub_not_found CNIC)
    by (apply not_found_everywhere; intros i;
        by apply cnic_needs_digit, forallb_drop).
  rewrite (sub_not_found EMAIL)
    by (apply not_found_everywhere; intros i;
        by apply email_needs_at, forallb_drop).
  rewrite (sub_not_found CARD)
    by (apply not_found_everywhere; intros i;
        by apply card_needs_digit, forallb_drop).
  rewrite (sub_not_found URL)
    by (apply not_found_everywhere; intros i;
        by apply url_needs_http, contains_drop).
  done.
Qed.

Lemma anonymize_plain_text_witness :
  _anonymize_message (str "please call me back tonight")
  = str "please call me back tonight".
Proof.
  apply (anonymize_plain_text (str "please call me back tonight"));
    vm_compute; reflexivity.
Defined.

End Redaction.

Section Statistics.
Import Analytics.

Lemma classes_partition (ds : list detection_record) :
  length (List.filter (is_class SCAM) ds)
  + length (List.filter (is_class SUSPICIOUS) ds)
  + length (List.filter (is_class SAFE) ds) = length ds.
Proof.
  induction ds as [|d ds IH]; [done|]. cbn [List.filter length].
  rewrite <- IH. unfold is_class.
  destruct (classification_of d); repeat case_bool_decide; try done;
    cbn [length]; lia.
Qed.

Lemma nat_q_ratio_range (a b : nat) :
  a ≤ b → 1 ≤ b → (0 <= nat_q a / nat_q b * 100 <= 100)%Q.
Proof.
  intros Hab Hb.
  assert (0 < nat_q b)%Q.
  { unfold nat_q. change 0%Q with (inject_Z 0). rewrite <- Zlt_Qlt. lia. }
  assert (0 <= nat_q a)%Q by apply nat_q_nonneg.
  assert (nat_q a <= nat_q b)%Q by (unfold nat_q; rewrite <- Zle_Qle; lia).
  assert (0 <= nat_q a / nat_q b)%Q by (apply Qle_shift_div_l; lra).
  assert (nat_q a / nat_q b <= 1)%Q by (apply Qle_shift_div_r; lra).
  lra.
Qed.

Lemma top_patterns_length ds limit : length (_get_top_patterns ds limit) ≤ limit.
Proof.
  unfold _get_top_patterns, most_common. rewrite length_fmap, length_take. lia.
Qed.

(** X9.  The statistics of a window: none exactly when the window is empty;
    otherwise the period is the one asked for, the total is the size of the
    window, the three counts add up to it, the scam percentage lies between
    0 and 100, and at most ten patterns are listed. *)
Theorem statistics_counts (a : ScamAnalytics) (now hours : Z) :
  match get_statistics a now hours with
  | NoData => window a now hours = []
  | Window w =>
      time_period_hours w = hours
      ∧ total_messages_analyzed w = length (window a now hours)
      ∧ 1 ≤ total_messages_analyzed w ≤ length (detections a)
      ∧ scam_count w + suspicious_count w + safe_count w
        = total_messages_analyzed w
      ∧ (0 <= scam_percentage w <= 100)%Q
      ∧ length (top_scam_patterns w) ≤ 10
  end.
Proof.
  unfold get_statistics. cbv zeta.
  destruct (window a now hours) as [|d ds] eqn:E; [done|].
  cbn [time_period_hours total_messages_analyzed scam_count suspicious_count
       safe_count scam_percentage top_scam_patterns].
  split; [done|]. split; [done|]. split.
  { split; [cbn; lia|]. rewrite <- E. unfold window. apply filter_length_le. }
  split; [apply classes_partition|]. split.
  - apply (round_between _ 0 100). apply nat_q_ratio_range; [|cbn; lia].
    apply filter_length_le.
  - apply top_patterns_length.
Qed.

(** The window holds the detections newer than the cutoff, in the order of
    the log. *)
Lemma window_spec a now hours d :
  d ∈ window a now hours
  ↔ d ∈ detections a ∧ (now - 3600 * hours < timestamp d)%Z.
Proof.
  unfold window. cbv zeta. rewrite list_elem_of_In, filter_In, Z.ltb_lt.
  by rewrite list_elem_of_In.
Qed.

End Statistics.

Section Counters.
Import Analytics.
Variable sha256_16 : text → text.

Lemma bump_lookup `{Countable K} (k k' : K) (m : gmap K nat) :
  default 0 (bump k m !! k')
  = if decide (k = k') then S (default 0 (m !! k')) else default 0 (m !! k').
Proof.
  unfold bump. destruct (decide (k = k')) as [->|Hne].
  - by rewrite lookup_insert_eq.
  - by rewrite lookup_insert_ne.
Qed.

Lemma bump_fold (rules : list string) (m : gmap string nat) k :
  default 0 (foldl (λ m rule, bump rule m) m rules !! k)
  = default 0 (m !! k) + occurrences k rules.
Proof.
  revert m. induction rules as [|r rules IH]; intros m; cbn [foldl].
  - unfold occurrences. cbn. lia.
  - rewrite IH, bump_lookup. unfold occurrences. cbn [List.filter].
    destruct (decide (r = k)) as [->|Hne].
    + rewrite bool_decide_eq_true_2 by done. cbn. lia.
    + by rewrite bool_decide_eq_false_2.
Qed.

Lemma scam_patterns_ingest a i k :
  default 0 (scam_patterns (ingest sha256_16 a i) !! k)
  = default 0 (scam_patterns a !! k)
    + occurrences k (r_triggered_rules i.1.2).
Proof.
  unfold ingest, log_detection. cbv zeta.
  destruct (_ <? _)%nat; cbn [scam_patterns _update_counters triggered_rules make_record];
    apply bump_fold.
Qed.

(** X10.  The rule counter of the tracker counts every ingestion, also those
    whose record has left the log. *)
Theorem counters_are_cumulative (inputs : list input) (k : string) :
  default 0 (scam_patterns (foldl (ingest sha256_16) init inputs) !! k)
  = occurrences k (flat_map (λ i, r_triggered_rules i.1.2) inputs).
Proof.
  assert (∀ a, default 0 (scam_patterns (foldl (ingest sha256_16) a inputs) !! k)
               = default 0 (scam_patterns a !! k)
                 + occurrences k (flat_map (λ i, r_triggered_rules i.1.2) inputs))
    as H.
  { induction inputs as [|i inputs IH]; intros a; cbn [foldl flat_map].
    - unfold occurrences. cbn. lia.
    - rewrite IH, scam_patterns_ingest. unfold occurrences.
      rewrite List.filter_app, length_app. lia. }
  rewrite H. cbn [init scam_patterns]. by rewrite lookup_empty.
Qed.

End Counters.

Section Brands.
Import Analytics RuleDetector.

Lemma str_append (a b : string) : str (a +:+ b) = str a ++ str b.
Proof.
  induction a as [|c a IH]; [done|].
  change (str (String c a +:+ b)) with (Ascii.N_of_ascii c :: str (a +:+ b)).
  by rewrite IH.
Qed.

Lemma replace_no_occurrence old new (t : text) :
  contains old t = false → replace old new t = t.
Proof.
  unfold replace. induction t as [|c t IH]; [done|].
  cbn [contains replace_from].
  intros [-> H]%orb_false_iff. by rewrite IH.
Qed.

(** X11.  For a brand rule the tracker counts the category: removing the
    prefix from the rule name gives the category back, when the category
    does not contain the prefix itself. *)
Theorem brand_name_recovered (brands : gmap text nat) (category : string) :
  contains BRAND_PREFIX (str category) = false →
  replace BRAND_PREFIX [] (str (brand_rule category)) = str category
  ∧ count_brand brands (brand_rule category) = bump (str category) brands.
Proof.
  intros Hc.
  assert (Hr : replace BRAND_PREFIX [] (str (brand_rule category))
               = str category).
  { unfold brand_rule. rewrite str_append.
    transitivity (replace BRAND_PREFIX [] (str category));
      [|by apply replace_no_occurrence].
    unfold replace. done. }
  split; [done|]. unfold count_brand. rewrite Hr.
  assert (contains (str "brand_impersonation") (str (brand_rule category))
          = true) as ->; [|done].
  unfold brand_rule. rewrite str_append. done.
Qed.

Lemma brand_name_recovered_witness :
  replace BRAND_PREFIX [] (str (brand_rule "pakistan_financial"))
  = str "pakistan_financial"
  ∧ count_brand ∅ (brand_rule "pakistan_financial")
    = bump (str "pakistan_financial") ∅.
Proof.
  apply (brand_name_recovered ∅ "pakistan_financial"). vm_compute. reflexivity.
Defined.

End Brands.

Section Sorting.
Context {A : Type} (le : A → A → bool).
Hypothesis le_total : ∀ x y, le x y = false → le y x = true.
Hypothesis le_trans : ∀ x y z, le x y = true → le y z = true → le x z = true.

Import Analytics.

Lemma insert_desc_elem (x y : A) l :
  y ∈ insert_desc le x l ↔ y = x ∨ y ∈ l.
Proof. by rewrite insert_desc_perm, elem_of_cons. Qed.

Lemma insert_desc_sorted (x : A) l :
  StronglySorted (λ a b, le b a = true) l →
  StronglySorted (λ a b, le b a = true) (insert_desc le x l).
Proof using le_total le_trans.
  induction l as [|y l IH]; cbn [insert_desc].
  - intros _. repeat constructor.
  - intros [Hy Hl]%StronglySorted_cons. destruct (le y x) eqn:E.
    + apply StronglySorted_cons. split.
      * constructor; [done|]. eapply Forall_impl; [exact Hy|].
        intros z Hz. cbn in Hz. by eapply le_trans.
      * by apply StronglySorted_cons.
    + apply StronglySorted_cons. split; [|by apply IH].
      apply Forall_forall. intros z [->|Hz]%insert_desc_elem.
      * by apply le_total.
      * by eapply Forall_forall in Hy.
Qed.

Lemma sort_desc_sorted l :
  StronglySorted (λ a b, le b a = true) (sort_desc le l).
Proof using le_total le_trans.
  unfold sort_desc. induction l as [|x l IH]; cbn [foldr].
  - constructor.
  - by apply insert_desc_sorted.
Qed.

Lemma sorted_impl (R R' : relation A) l :
  (∀ x y, R x y → R' x y) → StronglySorted R l → StronglySorted R' l.
Proof.
  intros HR. induction 1 as [|x l Hl IH Hx]; constructor; [done|].
  eapply Forall_impl; [exact Hx|]. cbn. auto.
Qed.

Lemma sorted_take (R : relation A) l n :
  StronglySorted R l → StronglySorted R (take n l).
Proof.
  intros H. rewrite <- (take_drop n l) in H.
  by apply StronglySorted_app_1_l in H.
Qed.

End Sorting.

Section TopPatterns.
Import Analytics.

Lemma by_count_total x y : by_count x y = false → by_count y x = true.
Proof. unfold by_count. rewrite Nat.leb_gt, Nat.leb_le. lia. Qed.

Lemma by_count_trans x y z :
  by_count x y = true → by_count y z = true → by_count x z = true.
Proof. unfold by_count. rewrite !Nat.leb_le. lia. Qed.

Lemma most_common_sorted limit c :
  StronglySorted (λ a b, b.2 ≤ a.2) (most_common limit c).
Proof.
  unfold most_common. apply sorted_take.
  eapply sorted_impl;
    [|apply (sort_desc_sorted by_count by_count_total by_count_trans)].
  intros a b H. by apply Nat.leb_le.
Qed.

Lemma most_common_nodup limit c : NoDup c.*1 → NoDup (most_common limit c).*1.
Proof.
  intros H. unfold most_common.
  eapply sublist_NoDup; [|apply fmap_sublist, sublist_take].
  by rewrite sort_desc_perm.
Qed.

(** What is left out of the most common is counted no more than what is
    in. *)
Lemma most_common_top limit c e e' :
  e ∈ most_common limit c → e' ∈ c → e' ∉ most_common limit c →
  length (most_common limit c) = limit ∧ e'.2 ≤ e.2.
Proof.
  unfold most_common. intros He He' Hn.
  set (l := sort_desc (λ a b, (a.2 <=? b.2)%nat) c) in *.
  assert (Hs : StronglySorted (λ a b, b.2 ≤ a.2) (take limit l ++ drop limit l)).
  { rewrite take_drop.
    eapply sorted_impl;
      [|apply (sort_desc_sorted by_count by_count_total by_count_trans)].
    intros a b H. by apply Nat.leb_le. }
  assert (Hd : e' ∈ drop limit l).
  { assert (e' ∈ take limit l ++ drop limit l) as [?|?]%elem_of_app; [|done..].
    rewrite take_drop. unfold l. by rewrite sort_desc_perm. }
  split.
  - rewrite length_take. destruct (decide (limit ≤ length l)); [lia|].
    rewrite drop_ge in Hd by lia. by apply elem_of_nil in Hd.
  - by eapply (StronglySorted_app_1_elem_of _ _ _ e e') in Hs.
Qed.

Lemma pattern_counts_safe ds :
  (∀ d, d ∈ ds → classification_of d = SAFE) → pattern_counts ds = [].
Proof.
  intros H. unfold pattern_counts. generalize (@nil (string * nat)).
  induction ds as [|d ds IH]; intros c; [done|]. cbn [foldl].
  assert (flagged d = false) as ->.
  { unfold flagged. by rewrite (H d) by left. }
  apply IH. intros d' Hd'. apply H. by right.
Qed.

(** X12.  [_get_top_patterns] counts the rules of the detections classified
    SCAM or SUSPICIOUS ([counted]), not those of the SAFE ones.  It lists at
    most [limit] distinct patterns in descending order of their counts; a
    count is the number of times the rule was triggered in the detections
    that are counted; and a counted rule left out is counted no more than
    any rule listed, the list then being full.  Detections that are all
    SAFE give no pattern. *)
Theorem top_patterns_spec (ds : list detection_record) (limit : nat) :
  let tp := _get_top_patterns ds limit in
  length tp ≤ limit
  ∧ NoDup (pattern <$> tp)
  ∧ StronglySorted (λ x y, count y ≤ count x) tp
  ∧ (∀ e, e ∈ tp →
          count e = occurrences (pattern e) (counted ds) ∧ 1 ≤ count e)
  ∧ (∀ k, 1 ≤ occurrences k (counted ds) → k ∉ pattern <$> tp →
          length tp = limit
          ∧ ∀ e, e ∈ tp → occurrences k (counted ds) ≤ count e)
  ∧ ((∀ d, d ∈ ds → classification_of d = SAFE) → tp = []).
Proof.
  cbv zeta. unfold _get_top_patterns.
  pose proof (pattern_counts_well_formed ds) as Hwf.
  assert (Hkeys : ∀ l : counter, pattern <$> (entry_of <$> l) = l.*1).
  { intros l. rewrite <- list_fmap_compose. done. }
  split; [|split; [|split; [|split; [|split]]]]; cycle 5.
  { intros Hsafe. rewrite pattern_counts_safe by done. by destruct limit. }
  - unfold most_common. rewrite length_fmap, length_take. lia.
  - rewrite Hkeys. apply most_common_nodup, Hwf.
  - eapply StronglySorted_fmap; [|apply most_common_sorted]. done.
  - intros e ([k n] & -> & Hin)%list_elem_of_fmap.
    apply most_common_elem, count_of_elem in Hin as [Hn H1]; [|done].
    by rewrite count_of_pattern_counts in Hn.
  - intros k Hk Hnot. rewrite Hkeys in Hnot. rewrite length_fmap.
    assert (Hin : (k, occurrences k (counted ds)) ∈ pattern_counts ds).
    { apply count_of_elem; [done|]. by rewrite count_of_pattern_counts. }
    assert (Hn : (k, occurrences k (counted ds))
                 ∉ most_common limit (pattern_counts ds)).
    { intros H. apply Hnot. apply list_elem_of_fmap. by eexists (_, _). }
    destruct (most_common limit (pattern_counts ds)) as [|e0 l0] eqn:E.
    + split; [|by intros e ?%elem_of_nil].
      assert (limit = 0) as ->; [|done].
      unfold most_common in E. destruct limit; [done|].
      assert (sort_desc (λ a b, (a.2 <=? b.2)%nat) (pattern_counts ds) = [])
        as Hs by (by destruct (sort_desc _ _)).
      assert (Hin' : (k, occurrences k (counted ds))
                     ∈ sort_desc (λ a b, (a.2 <=? b.2)%nat)
                         (pattern_counts ds))
        by (by rewrite sort_desc_perm).
      rewrite Hs in Hin'. by apply elem_of_nil in Hin'.
    + rewrite <- E in *. split.
      * eapply (most_common_top _ _ e0); [rewrite E; by left|done..].
      * intros e ([k' n'] & -> & He)%list_elem_of_fmap.
        by destruct (most_common_top _ _ _ _ He Hin Hn) as [_ ?].
Qed.

End TopPatterns.

Section Emerging.
Import Analytics.

Lemma round_lower (x : Q) (a : Z) (nd : nat) :
  (inject_Z a <= x)%Q → (inject_Z a <= round x nd)%Q.
Proof.
  intros Ha. unfold round. cbv zeta.
  set (s := (10 ^ Z.of_nat nd)%Z).
  pose proof (scale_pos nd) as Hs. fold s in Hs.
  assert (H1 : (a * s ≤ round_half_even (x * inject_Z s))%Z).
  { apply round_half_even_ge. rewrite inject_Z_mult.
    apply Qmult_le_compat_r; lra. }
  rewrite Zle_Qle, inject_Z_mult in H1.
  apply Qle_shift_div_l; [done|]. lra.
Qed.

Lemma by_change_total x y : by_change x y = false → by_change y x = true.
Proof.
  unfold by_change. intros H. apply Qle_bool_iff.
  destruct (Qlt_le_dec (change_percentage x) (change_percentage y)) as [Hlt|Hle].
  - assert (Qle_bool (change_percentage x) (change_percentage y) = true)
      by (apply Qle_bool_iff; lra).
    congruence.
  - done.
Qed.

Lemma by_change_trans x y z :
  by_change x y = true → by_change y z = true → by_change x z = true.
Proof. unfold by_change. rewrite !Qle_bool_iff. lra. Qed.

Lemma change_nonneg (recent older : nat) :
  is_emerging recent older = true → (0 <= change recent older)%Q.
Proof.
  unfold is_emerging, change. intros H.
  apply (round_lower _ 0).
  assert (Hm : (0 < nat_q (Nat.max older 1))%Q).
  { unfold nat_q. change 0%Q with (inject_Z 0). rewrite <- Zlt_Qlt. lia. }
  assert (Hd : (0 <= nat_q recent - nat_q older)%Q).
  { apply orb_true_iff in H as [H|H].
    - apply Nat.eqb_eq in H as ->. pose proof (nat_q_nonneg recent).
      change (nat_q 0) with 0%Q. lra.
    - apply negb_true_iff in H.
      assert (¬ (nat_q recent <= nat_q older * 1.5)%Q) as Hn.
      { intros Hle%Qle_bool_iff. congruence. }
      pose proof (nat_q_nonneg older). lra. }
  assert (0 <= (nat_q recent - nat_q older) / nat_q (Nat.max older 1))%Q
    by (apply Qle_shift_div_l; lra).
  change (inject_Z 0) with 0%Q. lra.
Qed.

Lemma change_of_new (recent : nat) :
  (change recent 0 == nat_q recent * 100)%Q.
Proof.
  unfold change.
  assert (nat_q recent * 100 == inject_Z (Z.of_nat recent * 100))%Q as Hz.
  { unfold nat_q. rewrite inject_Z_mult. reflexivity. }
  rewrite Hz.
  pose proof (round_between
    ((nat_q recent - nat_q 0) / nat_q (Nat.max 0 1) * 100)
    (Z.of_nat recent * 100) (Z.of_nat recent * 100) 2) as H.
  assert ((nat_q recent - nat_q 0) / nat_q (Nat.max 0 1) * 100
          == inject_Z (Z.of_nat recent * 100))%Q as He.
  { rewrite <- Hz. change (nat_q 0) with 0%Q.
    change (nat_q (Nat.max 0 1)) with 1%Q. field. }
  assert (inject_Z (Z.of_nat recent * 100)
          <= (nat_q recent - nat_q 0) / nat_q (Nat.max 0 1) * 100
          <= inject_Z (Z.of_nat recent * 100))%Q as Hb by (rewrite He; lra).
  apply H in Hb. lra.
Qed.

Lemma top_patterns_positive a now hours e :
  e ∈ top_patterns_of (get_statistics a now hours) → 1 ≤ count e.
Proof.
  unfold get_statistics. cbv zeta.
  destruct (window a now hours) as [|d ds] eqn:E; [by intros ?%elem_of_nil|].
  cbn [top_patterns_of top_scam_patterns]. unfold _get_top_patterns.
  intros ([k n] & -> & Hin)%list_elem_of_fmap.
  apply most_common_elem, count_of_elem in Hin as [_ H1];
    [done|apply pattern_counts_well_formed].
Qed.

(** X13.  [get_emerging_threats] returns at most five entries in descending
    order of their change; each satisfies the test for an emerging pattern,
    its change is not negative, and a pattern with no earlier count has a
    change of a hundred times its count. *)
Theorem emerging_threats_shape (a : ScamAnalytics) (now_recent now_older : Z) :
  let r := get_emerging_threats a now_recent now_older in
  length r ≤ 5
  ∧ StronglySorted
      (λ x y, (change_percentage y <= change_percentage x)%Q) r
  ∧ ∀ e, e ∈ r →
      1 ≤ recent_count e
      ∧ is_emerging (recent_count e) (previous_count e) = true
      ∧ change_percentage e = change (recent_count e) (previous_count e)
      ∧ (0 <= change_percentage e)%Q
      ∧ (previous_count e = 0 →
         (change_percentage e == nat_q (recent_count e) * 100)%Q).
Proof.
  cbv zeta. unfold get_emerging_threats. cbv zeta.
  set (em := omap _ _).
  split; [rewrite length_take; lia|]. split.
  - apply sorted_take.
    eapply sorted_impl;
      [|apply (sort_desc_sorted by_change by_change_total by_change_trans)].
    intros x y H. by apply Qle_bool_iff.
  - intros e (i & Hi & _)%elem_of_take.
    apply list_elem_of_lookup_2 in Hi. rewrite sort_desc_perm in Hi.
    unfold em in Hi. apply list_elem_of_omap in Hi as (p & Hp & Hf).
    destruct (is_emerging _ _) eqn:E; [|done]. injection Hf as <-.
    cbn [recent_count previous_count change_percentage].
    split; [by eapply top_patterns_positive|]. split; [done|].
    split; [done|]. split; [by apply change_nonneg|].
    intros ->. apply change_of_new.
Qed.

End Emerging.

Section Trends.
Import Analytics Reports.

Lemma tally_keys h c m :
  (tally h c m).*1 = if decide (h ∈ m.*1) then m.*1 else m.*1 ++ [h].
Proof.
  induction m as [|[k n] m IH]; cbn.
  - by rewrite decide_False by apply not_elem_of_nil.
  - destruct (decide (k = h)) as [->|Hne]; cbn.
    + by rewrite decide_True by left.
    + rewrite IH. destruct (decide (h ∈ m.*1)) as [Hin|Hin].
      * by rewrite decide_True by (by right).
      * rewrite decide_False; [done|].
        intros [?|?]%elem_of_cons; congruence.
Qed.

Lemma get_tally h c m h' :
  get (tally h c m) h'
  = if decide (h' = h) then count_class c (get m h) else get m h'.
Proof.
  unfold get. induction m as [|[k n] m IH]; cbn.
  - destruct (decide (h' = h)) as [->|Hne].
    + by rewrite bool_decide_eq_true_2.
    + by rewrite bool_decide_eq_false_2 by done.
  - destruct (decide (k = h)) as [->|Hk]; cbn.
    + destruct (decide (h' = h)) as [->|Hne].
      * by rewrite !bool_decide_eq_true_2.
      * by rewrite !bool_decide_eq_false_2 by done.
    + destruct (decide (h' = h)) as [->|Hne].
      * rewrite !bool_decide_eq_false_2 by done. by rewrite IH.
      * case_bool_decide; [done|]. by rewrite IH.
Qed.

Lemma hourly_snoc ds d :
  hourly (ds ++ [d]) = tally (hour_of d) (classification_of d) (hourly ds).
Proof. unfold hourly. by rewrite foldl_app. Qed.

Lemma tallied_snoc c h ds d :
  tallied c h (ds ++ [d])
  = tallied c h ds
    + (if decide (hour_of d = h ∧ classification_of d = c) then 1 else 0).
Proof.
  unfold tallied, is_class. rewrite List.filter_app, length_app. cbn.
  destruct (decide _) as [[-> ->]|Hn].
  - by rewrite !bool_decide_eq_true_2.
  - repeat case_bool_decide; cbn; tauto.
Qed.

Lemma hourly_keys_nodup ds : NoDup (hourly ds).*1.
Proof.
  induction ds as [|d ds IH] using rev_ind; [constructor|].
  rewrite hourly_snoc, tally_keys. destruct (decide _); [done|].
  apply NoDup_app. split; [done|]. split; [|apply NoDup_singleton].
  intros x Hx ->%list_elem_of_singleton. done.
Qed.

Lemma hourly_keys ds h :
  h ∈ (hourly ds).*1 ↔ ∃ d, d ∈ ds ∧ hour_of d = h.
Proof.
  induction ds as [|d ds IH] using rev_ind.
  - split; [by intros ?%elem_of_nil|]. by intros (d & ?%elem_of_nil & _).
  - rewrite hourly_snoc, tally_keys.
    assert (h ∈ (hourly ds).*1 ++ [hour_of d]
            ↔ ∃ d', d' ∈ ds ++ [d] ∧ hour_of d' = h) as Happ.
    { rewrite elem_of_app, list_elem_of_singleton, IH. split.
      - intros [(d' & Hin & Hd)|Hd]; subst h.
        + exists d'. split; [|done]. apply elem_of_app. by left.
        + exists d. split; [|done]. apply elem_of_app. right. by left.
      - intros (d' & [Hin|Hin%list_elem_of_singleton]%elem_of_app & Hd);
          subst; [left; eauto | by right]. }
    destruct (decide _) as [Hin|_]; [|done].
    rewrite <- Happ, elem_of_app, list_elem_of_singleton.
    split; [tauto|]. intros [?| ->]; done.
Qed.

Lemma get_hourly ds h :
  get (hourly ds) h
  = {| scam := tallied SCAM h ds;
       suspicious := tallied SUSPICIOUS h ds;
       safe := tallied SAFE h ds |}.
Proof.
  revert h. induction ds as [|d ds IH] using rev_ind; intros h; [done|].
  rewrite hourly_snoc, get_tally, !tallied_snoc, !IH.
  destruct (decide (h = hour_of d)) as [->|Hne].
  - destruct (classification_of d); cbn;
      repeat (destruct (decide _) as [[_ ?]|?]; try done; try tauto);
      f_equal; lia.
  - repeat (destruct (decide _) as [[? _]|_]; [congruence|]).
    f_equal; lia.
Qed.

Lemma get_elem (m : list (Z * hour_counts)) h n :
  NoDup m.*1 → (h, n) ∈ m → get m h = n.
Proof.
  unfold get. induction m as [|[k x] m IH]; cbn; [by intros _ ?%elem_of_nil|].
  intros [Hk Hnd]%NoDup_cons [[= -> ->]|Hin]%elem_of_cons.
  - by rewrite bool_decide_eq_true_2.
  - rewrite bool_decide_eq_false_2; [by apply IH|].
    intros ->. apply Hk. apply list_elem_of_fmap. by exists (h, n).
Qed.

Lemma scams_at_hourly ds h : scams_at (hourly ds) h = tallied SCAM h ds.
Proof.
  pose proof (get_hourly ds h) as H. unfold get in H. unfold scams_at.
  destruct (List.find _ _) as [e|]; [by rewrite H|].
  by injection H as <- _ _.
Qed.

Lemma scams_in_cons h hs ds :
  h ∉ hs → scams_in (h :: hs) ds = tallied SCAM h ds + scams_in hs ds.
Proof.
  intros Hh. unfold scams_in, tallied.
  induction ds as [|d ds IH]; [done|]. cbn.
  destruct (is_class SCAM d); rewrite ?andb_false_r, ?andb_true_r; [|done].
  destruct (decide (hour_of d = h)) as [<-|Hne].
  - rewrite (bool_decide_eq_true_2 (hour_of d ∈ hour_of d :: hs)) by left.
    rewrite (bool_decide_eq_true_2 (hour_of d = hour_of d)) by done.
    rewrite (bool_decide_eq_false_2 (hour_of d ∈ hs)) by done.
    cbn. lia.
  - rewrite (bool_decide_eq_false_2 (hour_of d = h)) by done.
    destruct (decide (hour_of d ∈ hs)) as [Hin|Hin].
    + rewrite !bool_decide_eq_true_2; [cbn; lia|done|by right].
    + rewrite !bool_decide_eq_false_2; [done|done|].
      intros [?|?]%elem_of_cons; done.
Qed.

Lemma sum_scams ds hs :
  NoDup hs → sum_nat (scams_at (hourly ds) <$> hs) = scams_in hs ds.
Proof.
  induction 1 as [|h hs Hh Hnd IH].
  - unfold scams_in. induction ds as [|d ds IHd]; [done|]. cbn.
    by rewrite bool_decide_eq_false_2 by apply not_elem_of_nil.
  - change (sum_nat (scams_at (hourly ds) <$> h :: hs))
      with (scams_at (hourly ds) h + sum_nat (scams_at (hourly ds) <$> hs)).
    rewrite scams_in_cons by done. by rewrite scams_at_hourly, IH.
Qed.

Lemma scams_in_none hs ds :
  (∀ d, d ∈ ds → classification_of d ≠ SCAM) → scams_in hs ds = 0.
Proof.
  intros H. unfold scams_in. induction ds as [|d ds IH]; [done|]. cbn.
  unfold is_class at 1. rewrite (bool_decide_eq_false_2 (_ = SCAM)).
  - rewrite andb_false_r. apply IH. intros d' Hd'. apply H. by right.
  - apply H. by left.
Qed.

(** The hours of the trend: the distinct hours of the detections in
    ascending order. *)
Lemma sorted_hours ds :
  let hours := merge_sort Z.le (hourly ds).*1 in
  StronglySorted Z.lt hours
  ∧ ∀ h, h ∈ hours ↔ ∃ d, d ∈ ds ∧ hour_of d = h.
Proof.
  cbv zeta. split.
  - pose proof (hourly_keys_nodup ds) as Hnd.
    rewrite <- (merge_sort_Permutation Z.le) in Hnd.
    pose proof (StronglySorted_merge_sort Z.le (hourly ds).*1) as Hs.
    revert Hnd Hs. generalize (merge_sort Z.le (hourly ds).*1).
    induction l as [|x l IH]; [constructor|].
    intros [Hx Hnd]%NoDup_cons [Hxl Hl]%StronglySorted_cons.
    constructor; [by apply IH|].
    apply Forall_forall. intros y Hy.
    assert (x ≠ y) by (by intros ->).
    rewrite Forall_forall in Hxl. specialize (Hxl y Hy). lia.
  - intros h. by rewrite merge_sort_Permutation, hourly_keys.
Qed.

End Trends.

Section TrendTheorems.
Import Analytics Reports.

Lemma few_hours ds :
  length (hourly ds).*1 < 2
  ↔ ∀ d d', d ∈ ds → d' ∈ ds → hour_of d = hour_of d'.
Proof.
  pose proof (hourly_keys_nodup ds) as Hnd.
  pose proof (hourly_keys ds) as Hk.
  destruct (hourly ds).*1 as [|k [|k' l]] eqn:E.
  - split; [|cbn; lia]. intros _ d d' Hd _.
    assert (hour_of d ∈ @nil Z) as ?%elem_of_nil; [|done].
    apply Hk. eauto.
  - split; [|cbn; lia]. intros _ d d' Hd Hd'.
    assert (hour_of d ∈ [k]) as ->%list_elem_of_singleton by (apply Hk; eauto).
    assert (hour_of d' ∈ [k]) as ->%list_elem_of_singleton by (apply Hk; eauto).
    done.
  - split; [cbn; lia|]. intros H.
    assert (k ∈ k :: k' :: l) as (d & Hd & Ek)%Hk by left.
    assert (k' ∈ k :: k' :: l) as (d' & Hd' & Ek')%Hk by (right; left).
    apply NoDup_cons in Hnd as [Hn _]. destruct Hn.
    rewrite <- Ek, <- Ek', (H d d') by done. left.
Qed.

Lemma nat_q_lt_scaled (a b : nat) (p q : positive) :
  negb (Qle_bool (nat_q a) (nat_q b * (Z.pos p # q)))
  = bool_decide (Pos.to_nat p * b < Pos.to_nat q * a).
Proof.
  destruct (Qle_bool _ _) eqn:E; cbn; symmetry.
  - apply bool_decide_eq_false_2. apply Qle_bool_iff in E.
    unfold nat_q, Qle in E. cbn in E. nia.
  - apply bool_decide_eq_true_2.
    destruct (decide (Pos.to_nat p * b < Pos.to_nat q * a)); [done|].
    assert (Qle_bool (nat_q a) (nat_q b * (Z.pos p # q)) = true) as H;
      [|congruence].
    apply Qle_bool_iff. unfold nat_q, Qle. cbn. nia.
Qed.

Lemma nat_q_scaled_lt (a b : nat) (p q : positive) :
  negb (Qle_bool (nat_q a * (Z.pos p # q)) (nat_q b))
  = bool_decide (Pos.to_nat q * b < Pos.to_nat p * a).
Proof.
  destruct (Qle_bool _ _) eqn:E; cbn; symmetry.
  - apply bool_decide_eq_false_2. apply Qle_bool_iff in E.
    unfold nat_q, Qle in E. cbn in E. nia.
  - apply bool_decide_eq_true_2.
    destruct (decide (Pos.to_nat q * b < Pos.to_nat p * a)); [done|].
    assert (Qle_bool (nat_q a * (Z.pos p # q)) (nat_q b) = true) as H;
      [|congruence].
    apply Qle_bool_iff. unfold nat_q, Qle. cbn. nia.
Qed.

(** X14.  The trend compares the scams of the earlier half of the hours that
    have detections with the scams of the later half: more than 1.2 times as
    many is an increase, fewer than 0.8 times as many a decrease; with fewer
    than two hours the data is insufficient. *)
Theorem trend_compares_halves (ds : list detection_record) :
  ∃ hours,
    StronglySorted Z.lt hours
    ∧ (∀ h, h ∈ hours ↔ ∃ d, d ∈ ds ∧ hour_of d = h)
    ∧ let half := length hours / 2 in
      let first_half := scams_in (take half hours) ds in
      let second_half := scams_in (drop half hours) ds in
      trend (_analyze_trends ds)
      = if decide (length hours < 2) then InsufficientData
        else if decide (6 * first_half < 5 * second_half) then Increasing
        else if decide (5 * second_half < 4 * first_half) then Decreasing
        else Stable.
Proof.
  exists (merge_sort Z.le (hourly ds).*1).
  destruct (sorted_hours ds) as [Hs Hm]. split; [done|]. split; [done|].
  cbv zeta. unfold _analyze_trends. cbv zeta. cbn [trend].
  set (hours := merge_sort Z.le (hourly ds).*1) in *.
  assert (Hnd : NoDup hours).
  { unfold hours. rewrite merge_sort_Permutation. apply hourly_keys_nodup. }
  rewrite !sum_scams.
  - destruct (Nat.leb_spec 2 (length hours)).
    + rewrite decide_False by lia.
      rewrite nat_q_lt_scaled, nat_q_scaled_lt.
      change (Pos.to_nat 12) with 12. change (Pos.to_nat 10) with 10.
      change (Pos.to_nat 8) with 8.
      repeat case_bool_decide; repeat destruct (decide _); done || lia.
    + by rewrite decide_True by lia.
  - rewrite <- (take_drop (length hours / 2) hours) in Hnd.
    by apply NoDup_app in Hnd as (? & _ & _).
  - rewrite <- (take_drop (length hours / 2) hours) in Hnd.
    by apply NoDup_app in Hnd as (_ & _ & ?).
Qed.

(** X15.  The trend is [insufficient_data] exactly when all detections fall
    in one hour, and without a scam it is never a rise or a fall. *)
Theorem trend_insufficient_or_stable (ds : list detection_record) :
  (trend (_analyze_trends ds) = InsufficientData
   ↔ ∀ d d', d ∈ ds → d' ∈ ds → hour_of d = hour_of d')
  ∧ ((∀ d, d ∈ ds → classification_of d ≠ SCAM) →
     trend (_analyze_trends ds) = Stable
     ∨ trend (_analyze_trends ds) = InsufficientData).
Proof.
  unfold _analyze_trends. cbv zeta. cbn [trend].
  set (hours := merge_sort Z.le (hourly ds).*1).
  assert (Hlen : length hours = length (hourly ds).*1).
  { unfold hours. by rewrite merge_sort_Permutation. }
  assert (Hnd : NoDup hours).
  { unfold hours. rewrite merge_sort_Permutation. apply hourly_keys_nodup. }
  split.
  - rewrite <- few_hours, <- Hlen.
    destruct (Nat.leb_spec 2 (length hours)); [|done].
    split; [|lia]. by repeat destruct (negb _).
  - intros Hno. destruct (2 <=? length hours); [left|by right].
    rewrite !sum_scams.
    + by rewrite !scams_in_none.
    + rewrite <- (take_drop (length hours / 2) hours) in Hnd.
      by apply NoDup_app in Hnd as (? & _ & _).
    + rewrite <- (take_drop (length hours / 2) hours) in Hnd.
      by apply NoDup_app in Hnd as (_ & _ & ?).
Qed.

(** X16.  The hourly breakdown has one entry for each hour with a detection,
    and the entry counts the detections of that hour by classification. *)
Theorem hourly_breakdown_counts (ds : list detection_record) :
  let m := hourly_breakdown (_analyze_trends ds) in
  NoDup m.*1
  ∧ (∀ h, h ∈ m.*1 ↔ ∃ d, d ∈ ds ∧ hour_of d = h)
  ∧ ∀ h n, (h, n) ∈ m →
      scam n = tallied SCAM h ds
      ∧ suspicious n = tallied SUSPICIOUS h ds
      ∧ safe n = tallied SAFE h ds
      ∧ scam n + suspicious n + safe n
        = length (List.filter (λ d, bool_decide (hour_of d = h)) ds)
      ∧ 1 ≤ scam n + suspicious n + safe n.
Proof.
  cbv zeta. unfold _analyze_trends. cbv zeta. cbn [hourly_breakdown].
  split; [apply hourly_keys_nodup|]. split; [apply hourly_keys|].
  intros h n Hin.
  assert (Hn : n = get (hourly ds) h).
  { symmetry. apply get_elem; [apply hourly_keys_nodup|done]. }
  rewrite get_hourly in Hn. subst n. cbn [scam suspicious safe].
  split; [done|]. split; [done|]. split; [done|].
  assert (Hsum : tallied SCAM h ds + tallied SUSPICIOUS h ds + tallied SAFE h ds
          = length (List.filter (λ d, bool_decide (hour_of d = h)) ds)).
  { unfold tallied, is_class. clear Hin.
    induction ds as [|d ds IH]; [done|]. cbn [List.filter].
    destruct (bool_decide (hour_of d = h)); cbn [andb]; [|done].
    destruct (classification_of d); repeat case_bool_decide; try done;
      cbn [length]; lia. }
  split; [done|]. rewrite Hsum.
  assert (h ∈ (hourly ds).*1) as (d & Hd & Eh)%hourly_keys.
  { apply list_elem_of_fmap. eexists. split; [|exact Hin]. done. }
  assert (d ∈ List.filter (λ d, bool_decide (hour_of d = h)) ds) as Hf.
  { apply list_elem_of_In, filter_In. split; [by apply list_elem_of_In|].
    by apply bool_decide_eq_true_2. }
  destruct (List.filter _ ds); [by apply elem_of_nil in Hf|cbn; lia].
Qed.

End TrendTheorems.

Section ReportTheorems.
Import Analytics Reports.

Lemma max_count_first (b : text * nat) rest :
  Forall (λ e, e.2 ≤ b.2) rest → max_count b rest = b.
Proof.
  induction 1 as [|e rest He Hrest IH]; [done|]. cbn [max_count].
  destruct (Nat.ltb_spec b.2 e.2); [lia|done].
Qed.

Lemma brand_stats_sorted ds :
  StronglySorted (λ x y : text * nat, y.2 ≤ x.2) (_get_brand_stats ds).
Proof.
  unfold _get_brand_stats. cbv zeta. apply sorted_take.
  eapply sorted_impl; [|apply sort_desc_sorted].
  - intros x y H. cbn in H. by apply Nat.leb_le.
  - intros x y H. cbn in *. apply Nat.leb_le. apply Nat.leb_gt in H. lia.
  - intros x y z H1 H2. cbn in *. apply Nat.leb_le.
    apply Nat.leb_le in H1, H2. lia.
Qed.

Lemma brand_stats_length ds : length (_get_brand_stats ds) ≤ 10.
Proof. unfold _get_brand_stats. cbv zeta. rewrite length_take. lia. Qed.

(** The recommendations, one condition each. *)
Lemma threat_recommendations_spec w brands languages emerging :
  StronglySorted (λ x y : text * nat, y.2 ≤ x.2) brands →
  let recs := _generate_threat_recommendations w brands languages emerging in
  length recs ≤ 4
  ∧ (HighScamActivity ∈ recs ↔ (30 < scam_percentage w)%Q)
  ∧ (∀ p, NewThreatEmerging p ∈ recs
          ↔ ∃ e, head emerging = Some e ∧ e_pattern e = p)
  ∧ (∀ b, BrandAlert b ∈ recs ↔ ∃ n, head brands = Some (b, n))
  ∧ (MultiLanguageScams ∈ recs
     ↔ "urdu"%string ∈ languages.*1 ∨ "roman_urdu"%string ∈ languages.*1).
Proof.
  intros Hs. cbv zeta. unfold _generate_threat_recommendations.
  set (high := if negb _ then _ else _).
  set (new := match emerging with [] => _ | _ => _ end).
  set (brand := match brands with [] => _ | _ => _ end).
  set (lang := if _ || _ then _ else _).
  assert (Hhigh : length high ≤ 1
                  ∧ ∀ x, x ∈ high
                         ↔ x = HighScamActivity ∧ (30 < scam_percentage w)%Q).
  { unfold high. destruct (Qle_bool _ _) eqn:E; cbn.
    - split; [lia|]. intros x. split; [by intros ?%elem_of_nil|].
      intros [_ H]. apply Qle_bool_iff in E. lra.
    - split; [lia|]. intros x. rewrite list_elem_of_singleton.
      split; [|tauto]. intros ->. split; [done|]. apply Qnot_le_lt.
      intros H. apply Qle_bool_iff in H. congruence. }
  assert (Hnew : length new ≤ 1
                 ∧ ∀ x, x ∈ new
                        ↔ ∃ e, head emerging = Some e
                               ∧ x = NewThreatEmerging (e_pattern e)).
  { unfold new. destruct emerging as [|e l]; cbn.
    - split; [lia|]. intros x. split; [by intros ?%elem_of_nil|].
      by intros (e & ? & _).
    - split; [lia|]. intros x. rewrite list_elem_of_singleton. split.
      + intros ->. eauto.
      + by intros (e' & [= <-] & ->). }
  assert (Hbrand : length brand ≤ 1
                   ∧ ∀ x, x ∈ brand
                          ↔ ∃ b n, head brands = Some (b, n)
                                   ∧ x = BrandAlert b).
  { unfold brand. destruct brands as [|[b n] l]; cbn [length head].
    - split; [lia|]. intros x. split; [by intros ?%elem_of_nil|].
      by intros (b & n & ? & _).
    - rewrite max_count_first
        by (by apply StronglySorted_cons in Hs as [? _]).
      split; [cbn; lia|]. intros x. rewrite list_elem_of_singleton. split.
      + intros ->. eauto.
      + by intros (b' & n' & [= <- <-] & ->). }
  assert (Hlang : length lang ≤ 1
                  ∧ ∀ x, x ∈ lang
                         ↔ x = MultiLanguageScams
                           ∧ ("urdu"%string ∈ languages.*1
                              ∨ "roman_urdu"%string ∈ languages.*1)).
  { unfold lang. repeat case_bool_decide; cbn [orb length];
      (split; [lia|]); intros x;
      rewrite ?list_elem_of_singleton, ?elem_of_nil; tauto. }
  clearbody high new brand lang.
  destruct Hhigh as [L1 Hhigh], Hnew as [L2 Hnew], Hbrand as [L3 Hbrand],
    Hlang as [L4 Hlang].
  split; [rewrite !length_app; lia|].
  split; [|split; [|split]].
  - rewrite !elem_of_app, Hhigh, Hnew, Hbrand, Hlang. split; [|tauto].
    intros [[_ ?]|[(e & _ & ?)|[(b & n & _ & ?)|[? _]]]];
      done || discriminate.
  - intros p. rewrite !elem_of_app, Hhigh, Hnew, Hbrand, Hlang. split.
    + intros [[? _]|[(e & ? & [= ->])|[(b & n & _ & ?)|[? _]]]];
        try discriminate. eauto.
    + intros (e & ? & <-). right. left. eauto.
  - intros b. rewrite !elem_of_app, Hhigh, Hnew, Hbrand, Hlang. split.
    + intros [[? _]|[(e & _ & ?)|[(b' & n & ? & [= ->])|[? _]]]];
        try discriminate. eauto.
    + intros (n & ?). right. right. left. eauto.
  - rewrite !elem_of_app, Hhigh, Hnew, Hbrand, Hlang. split; [|tauto].
    intros [[? _]|[(e & _ & ?)|[(b & n & _ & ?)|[_ ?]]]];
      done || discriminate.
Qed.

(** X17.  [get_threat_intelligence] raises [KeyError] exactly when the log
    has no detection of the last 24 hours.  Otherwise the report counts the
    scams of that window, has at most five top threats and ten brands, and
    recommends by the scam rate, the first emerging threat, the most
    impersonated brand (the first of the brand statistics, which are in
    descending order) and the Urdu languages of the breakdown. *)
Theorem intelligence_report_spec (a : ScamAnalytics) (clock : readings) :
  match get_threat_intelligence a clock with
  | Raise e => e = "KeyError"%string ∧ window a (at_24h clock) 24 = []
  | Return r =>
      window a (at_24h clock) 24 ≠ []
      ∧ report_generated r = at_report clock
      ∧ total_scams_24h r
        = length (List.filter (is_class SCAM) (window a (at_24h clock) 24))
      ∧ (0 <= scam_rate_24h r <= 100)%Q
      ∧ length (top_threats r) ≤ 5
      ∧ length (most_impersonated_brands r) ≤ 10
      ∧ StronglySorted (λ x y, y.2 ≤ x.2) (most_impersonated_brands r)
      ∧ length (recommendations r) ≤ 4
      ∧ (HighScamActivity ∈ recommendations r ↔ (30 < scam_rate_24h r)%Q)
      ∧ (∀ p, NewThreatEmerging p ∈ recommendations r
              ↔ ∃ e, head (emerging_threats r) = Some e ∧ e_pattern e = p)
      ∧ (∀ b, BrandAlert b ∈ recommendations r
              ↔ ∃ n, head (most_impersonated_brands r) = Some (b, n))
      ∧ (MultiLanguageScams ∈ recommendations r
         ↔ "urdu"%string ∈ (language_breakdown r).*1
           ∨ "roman_urdu"%string ∈ (language_breakdown r).*1)
  end.
Proof.
  unfold get_threat_intelligence. cbv zeta.
  unfold get_statistics at 1. cbv zeta.
  destruct (window a (at_24h clock) 24) as [|d ds] eqn:E; [done|].
  cbn [report_generated total_scams_24h scam_rate_24h top_threats
       most_impersonated_brands recommendations emerging_threats
       language_breakdown scam_count scam_percentage top_scam_patterns].
  split; [done|]. split; [done|]. split; [done|].
  split.
  { apply (round_between _ 0 100). apply nat_q_ratio_range; [|cbn; lia].
    apply filter_length_le. }
  split; [rewrite length_take; lia|].
  split; [apply brand_stats_length|].
  split; [apply brand_stats_sorted|].
  apply threat_recommendations_spec. apply brand_stats_sorted.
Qed.

(** X18.  A window that reaches further back has at least the detections, and
    the scams, of a shorter one. *)
Theorem wider_window_counts_more (a : ScamAnalytics) (now now' hours hours' : Z) :
  (now' - 3600 * hours' ≤ now - 3600 * hours)%Z →
  length (window a now hours) ≤ length (window a now' hours')
  ∧ scam_count_of (get_statistics a now hours)
    ≤ scam_count_of (get_statistics a now' hours').
Proof.
  intros Hc.
  assert (Hsub : ∀ (f : detection_record → bool) ds,
            length (List.filter f
                      (List.filter (λ d, (now - 3600 * hours <? timestamp d)%Z) ds))
            ≤ length (List.filter f
                        (List.filter (λ d, (now' - 3600 * hours' <? timestamp d)%Z) ds))).
  { intros f ds. induction ds as [|d ds IH]; [done|]. cbn [List.filter].
    destruct (Z.ltb_spec (now - 3600 * hours) (timestamp d)).
    - rewrite (proj2 (Z.ltb_lt _ _)) by lia. cbn [List.filter].
      destruct (f d); cbn [length]; lia.
    - destruct (_ <? _)%Z; [|done]. cbn [List.filter].
      destruct (f d); cbn [length]; lia. }
  split.
  - pose proof (Hsub (λ _, true) (detections a)) as H.
    unfold window. cbv zeta.
    rewrite !(forallb_filter_id (λ _, true)) in H; [done|..];
      by apply forallb_forall.
  - pose proof (Hsub (is_class SCAM) (detections a)) as H.
    unfold get_statistics. cbv zeta. unfold window. cbv zeta.
    destruct (List.filter (λ d, (now - 3600 * hours <? timestamp d)%Z)
                (detections a)) eqn:E1;
      destruct (List.filter (λ d, (now' - 3600 * hours' <? timestamp d)%Z)
                  (detections a)) eqn:E2; cbn [scam_count_of scam_count];
      cbn in *; lia.
Qed.

Lemma wider_window_counts_more_witness :
  length (window Examples.fresh_log 360000 24)
  ≤ length (window Examples.fresh_log 360001 168)
  ∧ scam_count_of (get_statistics Examples.fresh_log 360000 24)
    ≤ scam_count_of (get_statistics Examples.fresh_log 360001 168).
Proof.
  apply (wider_window_counts_more Examples.fresh_log 360000 360001 24 168).
  vm_compute. discriminate.
Defined.

End ReportTheorems.

Section LoggedLanguage.
Import Analytics Reports.
Variable sha256_16 : text → text.

Lemma language_distribution_ingest a i :
  language_distribution (ingest sha256_16 a i) = language_distribution a.
Proof.
  unfold ingest, log_detection. cbv zeta.
  by destruct (_ <? _)%nat.
Qed.

Lemma language_counts_none ds :
  (∀ d, d ∈ ds → language d = None) → language_counts ds = [].
Proof.
  intros H. unfold language_counts. generalize (@nil (string * nat)).
  induction ds as [|d ds IH]; intros c; [done|]. cbn [foldl].
  rewrite (H d) by left. apply IH. intros d' Hd'. apply H. by right.
Qed.

(** X19.  [log_detection] reads the language and the ML probability under
    keys that the results of the pipeline do not have: no logged record
    carries them, the language counter stays empty, and a report has no
    language breakdown and never the multi-language recommendation. *)
Theorem logged_records_have_no_language (inputs : list input)
  (clock : readings) :
  let a := foldl (ingest sha256_16) init inputs in
  (∀ d, d ∈ detections a → language d = None ∧ ml_probability d = None)
  ∧ language_distribution a = ∅
  ∧ match get_threat_intelligence a clock with
    | Return r =>
        language_breakdown r = []
        ∧ MultiLanguageScams ∉ recommendations r
    | Raise _ => True
    end.
Proof.
  cbv zeta.
  assert (Hd : ∀ d, d ∈ detections (foldl (ingest sha256_16) init inputs) →
                    language d = None ∧ ml_probability d = None).
  { intros d. rewrite detections_ingest_all by (cbn; lia). cbn [detections init app].
    unfold last_n. intros Hin.
    assert (d ∈ record_of sha256_16 <$> inputs) as (i & -> & _)%list_elem_of_fmap.
    { rewrite <- (take_drop (length (record_of sha256_16 <$> inputs) - CAPACITY)
                   (record_of sha256_16 <$> inputs)).
      apply elem_of_app. by right. }
    done. }
  split; [done|]. split.
  { induction inputs as [|i inputs IH] using rev_ind; [done|].
    rewrite foldl_app. cbn [foldl]. rewrite language_distribution_ingest.
    apply IH. intros d Hin. clear IH.
    rewrite detections_ingest_all in Hin by (cbn; lia).
    cbn [detections init app] in Hin. unfold last_n in Hin.
    assert (d ∈ record_of sha256_16 <$> inputs) as (j & -> & _)%list_elem_of_fmap.
    { rewrite <- (take_drop (length (record_of sha256_16 <$> inputs) - CAPACITY)
                   (record_of sha256_16 <$> inputs)).
      apply elem_of_app. by right. }
    done. }
  unfold get_threat_intelligence. cbv zeta.
  destruct (get_statistics _ (at_24h clock) 24) as [|w]; [done|].
  cbn [language_breakdown recommendations].
  assert (Hl : language_counts
                 (window (foldl (ingest sha256_16) init inputs)
                    (at_24h clock) 24) = []).
  { apply language_counts_none. intros d [Hin _]%window_spec.
    by apply Hd. }
  split; [done|]. rewrite Hl.
  pose proof (threat_recommendations_spec w _ []
                (get_emerging_threats (foldl (ingest sha256_16) init inputs)
                   (at_recent clock) (at_older clock))
                (brand_stats_sorted
                   (window (foldl (ingest sha256_16) init inputs)
                      (at_24h clock) 24))) as (_ & _ & _ & _ & Hm).
  rewrite Hm. cbn. rewrite !elem_of_nil. tauto.
Qed.

End LoggedLanguage.

Section Accuracy.
Import Metrics.

Lemma label_of_snoc fs f h :
  label_of (fs ++ [f]) h
  = if decide (f_message_hash f = h) then Some (f_actual_label f)
    else label_of fs h.
Proof.
  unfold label_of. rewrite reverse_snoc. cbn [List.find].
  destruct (decide _) as [->|Hne].
  - by rewrite bool_decide_eq_true_2.
  - by rewrite bool_decide_eq_false_2.
Qed.

Lemma label_of_Some fs h :
  is_Some (label_of fs h) ↔ h ∈ f_message_hash <$> fs.
Proof.
  induction fs as [|f fs IH] using rev_ind.
  - split; [by intros [? ?]|by intros ?%elem_of_nil].
  - rewrite label_of_snoc, fmap_app, elem_of_app. cbn.
    rewrite list_elem_of_singleton. destruct (decide _) as [->|Hne].
    + split; [by right|eauto].
    + rewrite IH. split; [tauto|]. intros [?|?]; [done|congruence].
Qed.

Lemma evaluate_counts fs ps :
  evaluate fs ps
  = (length (List.filter (confirmed fs) ps),
     length (List.filter (matched fs) ps)).
Proof.
  unfold evaluate.
  assert (∀ c t,
    foldl (λ ct pred,
             match label_of fs (p_message_hash pred) with
             | Some label =>
                 (if decide (p_prediction pred = label) then S ct.1 else ct.1,
                  S ct.2)
             | None => ct
             end) (c, t) ps
    = (c + length (List.filter (confirmed fs) ps),
       t + length (List.filter (matched fs) ps))) as H; [|apply (H 0 0)].
  induction ps as [|p ps IH]; intros c t.
  - cbn. f_equal; lia.
  - cbn [foldl List.filter]. unfold confirmed at 1, matched at 1.
    pose proof (label_of_Some fs (p_message_hash p)) as Hs.
    destruct (label_of fs (p_message_hash p)) as [l|] eqn:E.
    + rewrite (bool_decide_eq_true_2 (_ ∈ _)) by (apply Hs; eauto).
      cbn [fst snd]. rewrite IH. destruct (decide (p_prediction p = l)) as [->|Hne].
      * rewrite bool_decide_eq_true_2 by done. cbn [length]. f_equal; lia.
      * rewrite bool_decide_eq_false_2 by congruence. cbn [length].
        f_equal; lia.
    + rewrite (bool_decide_eq_false_2 (_ ∈ _)).
      * rewrite bool_decide_eq_false_2 by done. apply IH.
      * intros [? ?]%Hs. done.
Qed.

Lemma confirmed_matched fs ps :
  length (List.filter (confirmed fs) ps) ≤ length (List.filter (matched fs) ps).
Proof.
  induction ps as [|p ps IH]; [done|]. cbn [List.filter].
  unfold confirmed at 1, matched at 1.
  case_bool_decide as Hc.
  - rewrite bool_decide_eq_true_2; [cbn; lia|].
    apply label_of_Some. rewrite Hc. eauto.
  - case_bool_decide; cbn [length]; lia.
Qed.

(** X20.  [calculate_accuracy] evaluates the predictions whose message has a
    feedback, against the last feedback given for the message.  It reports
    no accuracy when there is no feedback or no such prediction; otherwise
    the accuracy is a percentage between 0 and 100. *)
Theorem accuracy_spec (m : PerformanceMetrics) :
  match calculate_accuracy m with
  | NoFeedback => user_feedback m = []
  | NoMatch =>
      user_feedback m ≠ []
      ∧ ∀ p, p ∈ predictions m →
             p_message_hash p ∉ f_message_hash <$> user_feedback m
  | Accuracy accuracy correct total sample =>
      sample = length (user_feedback m) ∧ 1 ≤ sample
      ∧ total = length (List.filter (matched (user_feedback m))
                          (predictions m))
      ∧ correct = length (List.filter (confirmed (user_feedback m))
                            (predictions m))
      ∧ correct ≤ total ∧ 1 ≤ total ≤ length (predictions m)
      ∧ (0 <= accuracy <= 100)%Q
      ∧ (correct = total → (accuracy == 100)%Q)
      ∧ (correct = 0 → (accuracy == 0)%Q)
  end.
Proof.
  unfold calculate_accuracy.
  destruct (user_feedback m) as [|f fs] eqn:E; [done|]. rewrite <- E.
  rewrite evaluate_counts.
  pose proof (confirmed_matched (user_feedback m) (predictions m)) as Hle.
  set (c := length (List.filter (confirmed _) _)) in *.
  set (t := length (List.filter (matched _) _)) in *.
  destruct (Nat.eqb_spec t 0) as [Ht|Ht].
  - split; [by rewrite E|]. intros p Hp Hin.
    assert (p ∈ List.filter (matched (user_feedback m)) (predictions m)) as Hf.
    { apply list_elem_of_In, filter_In. split; [by apply list_elem_of_In|].
      by apply bool_decide_eq_true_2. }
    unfold t in Ht. apply nil_length_inv in Ht. rewrite Ht in Hf.
    by apply elem_of_nil in Hf.
  - split; [done|]. split; [rewrite E; cbn; lia|]. split; [done|].
    split; [done|]. split; [done|]. split.
    { split; [lia|]. apply filter_length_le. }
    assert (0 < nat_q t)%Q as Hpos.
    { unfold nat_q. change 0%Q with (inject_Z 0). rewrite <- Zlt_Qlt. lia. }
    split; [|split].
    + apply (round_between _ 0 100). apply nat_q_ratio_range; lia.
    + intros ->.
      assert (nat_q t / nat_q t * 100 == 100)%Q as Hx by (field; lra).
      pose proof (round_between (nat_q t / nat_q t * 100) 100 100 2) as H.
      change (inject_Z 100) with 100%Q in H. lra.
    + intros ->.
      assert (nat_q 0 / nat_q t * 100 == 0)%Q as Hx.
      { change (nat_q 0) with 0%Q. field. lra. }
      pose proof (round_between (nat_q 0 / nat_q t * 100) 0 0 2) as H.
      change (inject_Z 0) with 0%Q in H. lra.
Qed.

(** X21.  A feedback replaces the label given earlier for the same message
    and leaves the other labels as they are; the predictions are not
    touched, and the accuracy no longer reports missing feedback. *)
Theorem feedback_last_wins (m : PerformanceMetrics) (now : Z)
  (message_hash h : text) (actual_label : string) :
  let m' := log_user_feedback m now message_hash actual_label in
  label_of (user_feedback m') h
  = (if decide (message_hash = h) then Some actual_label
     else label_of (user_feedback m) h)
  ∧ predictions m' = predictions m
  ∧ calculate_accuracy m' ≠ NoFeedback.
Proof.
  cbv zeta. unfold log_user_feedback. cbn [user_feedback predictions].
  rewrite label_of_snoc. cbn [f_message_hash f_actual_label].
  split; [done|]. split; [done|].
  unfold calculate_accuracy. cbn [user_feedback predictions].
  destruct (user_feedback m); cbn [app];
    destruct (evaluate _ _) as [c t]; by destruct (t =? 0)%nat.
Qed.

End Accuracy.

Section Endpoints.
Import Config Engine Api.
Variable sha256_16 : text → text.
Variable settings : Settings.

Lemma analyze_message_engine e now now_log m h res e' :
  analyze_message sha256_16 settings e now now_log m h = Return (res, e') →
  ml_detector e' = ml_detector e
  ∧ match analytics e with
    | Some a =>
        analytics e'
        = Some (Analytics.log_detection sha256_16 a now_log res m)
    | None => analytics e' = None
    end.
Proof.
  unfold analyze_message. cbv zeta. intros H.
  destruct (ml_step _ _ _) as [ml|]; [|done]. cbn [bind] in H.
  destruct (_generate_explanations _ _ _ _ _ _) as [ex|]; [|done].
  cbn [bind] in H. injection H as <- <-.
  destruct (analytics e) eqn:E; cbn; [done|]. by rewrite E.
Qed.

Lemma serve_tracker e r :
  match analytics e with
  | Some a =>
      ∃ a', analytics (serve sha256_16 settings e r) = Some a'
            ∧ length (Analytics.detections a')
              ≤ S (length (Analytics.detections a))
  | None => analytics (serve sha256_16 settings e r) = None
  end.
Proof.
  unfold serve, analyze_endpoint.
  assert (Hsame : match analytics e with
                  | Some a => ∃ a', analytics e = Some a'
                                    ∧ length (Analytics.detections a')
                                      ≤ S (length (Analytics.detections a))
                  | None => analytics e = None
                  end).
  { destruct (analytics e) as [a|]; [|done]. exists a. split; [done|lia]. }
  destruct (_ || _); [done|]. destruct (_ <? _)%Z; [done|].
  destruct (analyze_message _ _ _ _ _ _ _) as [[res e']|] eqn:E; [|done].
  apply analyze_message_engine in E as [_ E]. cbn [snd].
  destruct (analytics e) as [a|]; [|done].
  eexists. split; [exact E|].
  pose proof (detections_log_detection sha256_16 a (r.1.2, res, message r.2))
    as Hd.
  unfold Analytics.ingest in Hd. cbn [fst snd] in Hd. rewrite Hd.
  rewrite last_n_length, length_app. cbn [length]. lia.
Qed.

Lemma served_tracker e a0 (requests : list (Z * Z * MessageRequest)) :
  analytics e = Some a0 →
  ∃ a, analytics (foldl (serve sha256_16 settings) e requests) = Some a
       ∧ length (Analytics.detections a)
         ≤ length (Analytics.detections a0) + length requests.
Proof.
  intros H0. induction requests as [|r rs IH] using rev_ind.
  - cbn. exists a0. split; [done|lia].
  - rewrite foldl_app. cbn [foldl]. destruct IH as (a & Ha & Hl).
    pose proof (serve_tracker (foldl (serve sha256_16 settings) e rs) r)
      as Hs.
    rewrite Ha in Hs. destruct Hs as (a' & Ha' & Hl').
    exists a'. split; [done|]. rewrite length_app. cbn [length]. lia.
Qed.

(** X22.  [GET /analytics] on an engine that has a tracker, after any number
    of requests to [/analyze]: 503 when analytics is off, 400 when the hours
    are not between 1 and 168, and the statistics of the tracker otherwise,
    which has logged at most one record for each request; never 500. *)
Theorem analytics_endpoint_status (e : DetectionEngine)
  (a0 : Analytics.ScamAnalytics)
  (requests : list (Z * Z * MessageRequest)) (now hours : Z) :
  analytics e = Some a0 →
  let e' := foldl (serve sha256_16 settings) e requests in
  match get_analytics settings e' now hours with
  | Rejected status_code d =>
      (status_code = 503%Z ∧ d = AnalyticsNotEnabled
       ∧ ENABLE_ANALYTICS settings = false)
      ∨ (status_code = 400%Z ∧ d = HoursOutOfRange
         ∧ ENABLE_ANALYTICS settings = true
         ∧ (hours < 1 ∨ 168 < hours)%Z)
  | Stats s =>
      ENABLE_ANALYTICS settings = true ∧ (1 ≤ hours ≤ 168)%Z
      ∧ ∃ a, analytics e' = Some a
             ∧ s = Analytics.get_statistics a now hours
             ∧ length (Analytics.detections a)
               ≤ length (Analytics.detections a0) + length requests
  end.
Proof.
  intros H0. cbv zeta.
  destruct (served_tracker e a0 requests H0) as (a & Ha & Hl).
  unfold get_analytics.
  destruct (ENABLE_ANALYTICS settings); cbn [negb]; [|left; done].
  destruct (Z.ltb_spec hours 1); cbn [orb].
  { right. repeat split; try done. lia. }
  destruct (Z.ltb_spec 168 hours).
  { right. repeat split; try done. lia. }
  rewrite Ha. split; [done|]. split; [lia|]. eauto.
Qed.

End Endpoints.

Section Clean.
Import LanguageProcessor RuleDetector.

Lemma in_step_hit rule inc kw a :
  (0 < inc)%Q → kw ≠ [] ∨ kws a ≠ [] → in_step a ∨ kws a ≠ [] ∧ rules a = [] ∧ (total a == 0)%Q →
  in_step (hit rule inc kw a).
Proof.
  intros Hinc Hkw Ha. right. unfold hit. cbn [rules kws total].
  split; [by destruct (rules a)|]. split.
  - destruct Hkw as [H|H]; [destruct (kws a)|]; [done|done|].
    by destruct (kws a).
  - destruct Ha as [[(_ & _ & H)|(_ & _ & H)]|(_ & _ & H)]; lra.
Qed.

Lemma in_step_brand_pattern t c a p :
  in_step a → in_step (brand_pattern t c a p).
Proof.
  intros Ha. unfold brand_pattern. destruct (search p t); [|done].
  apply in_step_hit; [lra|by left|by left].
Qed.

Lemma in_step_brands t cs a :
  in_step a → in_step (foldl (brand_category t) a cs).
Proof.
  revert a. induction cs as [|[c ps] cs IH]; intros a Ha; [done|].
  cbn [foldl]. apply IH. unfold brand_category. cbn [fst snd].
  clear IH. revert a Ha. induction ps as [|p ps IH]; intros a Ha; [done|].
  cbn [foldl]. apply IH. by apply in_step_brand_pattern.
Qed.

Lemma in_step_urgency t a : in_step a → in_step (urgency t a).
Proof.
  intros Ha. unfold urgency. cbv zeta.
  destruct (urgency_matches t) as [|m ms] eqn:E.
  - cbn [length Nat.ltb Nat.leb]. rewrite app_nil_r. by destruct a.
  - cbn [length Nat.ltb Nat.leb].
    assert (0 < Qmin (nat_q (S (length ms)) * 0.1) 0.25)%Q as Hinc.
    { apply Q.min_glb_lt; [|lra].
      pose proof (nat_q_nonneg (length ms)). rewrite nat_q_S. lra. }
    right. unfold hit. cbn [rules kws total].
    split; [by destruct (rules a)|]. split; [by destruct (kws a)|].
    destruct Ha as [(_ & _ & H)|(_ & _ & H)]; lra.
Qed.

Lemma in_step_sensitive t ps a : in_step a → in_step (sensitive t ps a).
Proof.
  intros Ha. induction ps as [|p ps IH]; [done|]. cbn [sensitive].
  destruct (search p t); [|done].
  apply in_step_hit; [lra|by left|by left].
Qed.

Lemma in_step_shortened t a : in_step a → in_step (shortened t a).
Proof.
  intros Ha. unfold shortened. destruct (search _ _); [|done].
  apply in_step_hit; [lra|by left|by left].
Qed.

Lemma in_step_run_rules t : in_step (run_rules t).
Proof.
  unfold run_rules. cbv zeta.
  apply in_step_shortened, in_step_sensitive, in_step_urgency, in_step_brands.
  left. done.
Qed.

Lemma elements_nil `{Countable A} (l : list A) :
  elements (list_to_set l : gset A) = [] ↔ l = [].
Proof.
  split; [|by intros ->].
  intros Hl. destruct l as [|x l]; [done|].
  assert (x ∈ elements (list_to_set (x :: l) : gset A)) as Hx.
  { apply elem_of_elements, elem_of_list_to_set. by left. }
  rewrite Hl in Hx. by apply elem_of_nil in Hx.
Qed.

Lemma run_rules_explained t rule :
  rule ∈ rules (run_rules t) → rule ∈ EXPLAINED.
Proof.
  rewrite (rules_run_rules t), !elem_of_app.
  intros [H|[H|[H|H]]].
  - apply list_elem_of_In, in_flat_map in H as ([c ps] & Hc & Hr).
    unfold brand_rules in Hr. apply list_elem_of_In in Hr.
    apply list_elem_of_fmap in Hr as (p & -> & _).
    unfold BRANDS in Hc. cbn in Hc.
    destruct Hc as [[= <- <-]|[[= <- <-]|[[= <- <-]|[[= <- <-]|[]]]]];
      vm_compute; repeat constructor.
  - destruct (_ <? _)%nat; [|by apply elem_of_nil in H].
    apply list_elem_of_singleton in H as ->. repeat constructor.
  - destruct (sensitive_found t); [|by apply elem_of_nil in H].
    apply list_elem_of_singleton in H as ->. repeat constructor.
  - destruct (shortened_found t); [|by apply elem_of_nil in H].
    apply list_elem_of_singleton in H as ->. repeat constructor.
Qed.

Lemma keywords_iff_rules (message : text) (lang_info : LanguageInfo) :
  triggered_rules (analyze message lang_info) = []
  ↔ keywords (analyze message lang_info) = [].
Proof.
  unfold analyze. cbv zeta. cbn [triggered_rules keywords].
  rewrite !elements_nil.
  destruct (in_step_run_rules (lower message)) as [(-> & -> & _)|(? & ? & _)];
    tauto.
Qed.

(** X23.  A message scores zero exactly when no rule triggers, and exactly
    then no keyword is highlighted.  Every rule that triggers is one of the
    seven that have an explanation. *)
Theorem clean_message_iff (message : text) (lang_info : LanguageInfo) :
  let r := analyze message lang_info in
  (triggered_rules r = [] ↔ keywords r = [])
  ∧ (triggered_rules r = [] ↔ (score r == 0)%Q)
  ∧ (∀ rule, rule ∈ triggered_rules r → rule ∈ EXPLAINED)
  ∧ length (triggered_rules r) ≤ 7.
Proof.
  cbv zeta. unfold analyze. cbv zeta. cbn [triggered_rules keywords score].
  rewrite !elements_nil.
  pose proof (in_step_run_rules (lower message)) as Hs.
  assert (Hex : ∀ rule,
            rule ∈ elements (list_to_set (rules (run_rules (lower message)))
                             : gset string) → rule ∈ EXPLAINED).
  { intros rule Hr. apply elem_of_elements, elem_of_list_to_set in Hr.
    by eapply run_rules_explained. }
  split; [|split; [|split]].
  - destruct Hs as [(-> & -> & _)|(? & ? & _)]; tauto.
  - destruct Hs as [(-> & _ & Ht)|(Hr & _ & Ht)].
    + split; [|done]. intros _. rewrite Ht. reflexivity.
    + split; [done|]. intros Hz. exfalso.
      destruct (Q.min_spec (total (run_rules (lower message))) 1)
        as [[_ E]|[_ E]]; rewrite E in Hz; lra.
  - done.
  - change 7 with (length EXPLAINED).
    apply submseteq_length, NoDup_submseteq; [apply NoDup_elements|done].
Qed.

End Clean.

Section Logged.
Import Config LanguageProcessor RuleDetector Engine.
Variable sha256_16 : text → text.
Variable settings : Settings.

Lemma last_last_n {A} (n : nat) (xs : list A) (x : A) :
  1 ≤ n → last (Analytics.last_n n (xs ++ [x])) = Some x.
Proof.
  intros Hn. unfold Analytics.last_n. rewrite length_app. cbn [length].
  rewrite drop_app_le by lia. by rewrite last_snoc.
Qed.

(** X24.  The record that [analyze_message] logs is the last of the log, and
    its [has_urls] flag says whether a rule triggered, not whether the
    message has a link. *)
Theorem has_urls_flags_rules e a now now_log m h res e' :
  analytics e = Some a →
  analyze_message sha256_16 settings e now now_log m h = Return (res, e') →
  ∃ a', analytics e' = Some a'
        ∧ last (Analytics.detections a')
          = Some (Analytics.make_record sha256_16 now_log res m)
        ∧ Analytics.has_urls (Analytics.make_record sha256_16 now_log res m)
          = bool_decide (r_triggered_rules res ≠ [])
        ∧ Analytics.message_length
            (Analytics.make_record sha256_16 now_log res m) = length m.
Proof.
  intros Ha H.
  pose proof (analyze_message_engine sha256_16 settings _ _ _ _ _ _ _ H)
    as [_ He].
  rewrite Ha in He. eexists. split; [exact He|].
  split.
  { pose proof (detections_log_detection sha256_16 a (now_log, res, m)) as Hd.
    unfold Analytics.ingest, Analytics.record_of in Hd. cbn [fst snd] in Hd.
    rewrite Hd. apply last_last_n. apply Nat.leb_le. vm_compute. reflexivity. }
  split; [|done].
  apply analyze_message_fields in H as (ml & ex & _ & _ & ->).
  cbn [Analytics.make_record Analytics.has_urls r_highlighted_keywords
       r_triggered_rules].
  pose proof (keywords_iff_rules m (process m h)) as Hc.
  destruct (keywords (analyze m (process m h))) eqn:E.
  - cbn. symmetry. apply bool_decide_eq_false_2. intros Hn. apply Hn.
    by apply Hc.
  - cbn. symmetry. apply bool_decide_eq_true_2. intros Hn.
    by apply Hc in Hn.
Qed.

End Logged.

Section Witnesses.
Import Config LanguageProcessor RuleDetector Engine Examples Cases.


Lemma explanations_never_empty_witness :
  lines_of (_generate_explanations Config.default SCAM 0.9 0.6
              (analyze easypaisa_message any_info)
              (process easypaisa_message (Some "auto"%string))) ≠ []
  ∧ (NoIndicators
     ∈ lines_of (_generate_explanations Config.default SCAM 0.9 0.6
                   (analyze easypaisa_message any_info)
                   (process easypaisa_message (Some "auto"%string)))
     ↔ lines_of (_generate_explanations Config.default SCAM 0.9 0.6
                   (analyze easypaisa_message any_info)
                   (process easypaisa_message (Some "auto"%string)))
       = [NoIndicators])
  ∧ (MultipleRedFlags
     ∈ lines_of (_generate_explanations Config.default SCAM 0.9 0.6
                   (analyze easypaisa_message any_info)
                   (process easypaisa_message (Some "auto"%string)))
     ↔ 3 ≤ length (triggered_rules (analyze easypaisa_message any_info)))
  ∧ (∀ rule,
       RuleExplanation rule
       ∈ lines_of (_generate_explanations Config.default SCAM 0.9 0.6
                     (analyze easypaisa_message any_info)
                     (process easypaisa_message (Some "auto"%string)))
       ↔ rule ∈ triggered_rules (analyze easypaisa_message any_info)
         ∧ rule ∈ EXPLAINED).
Proof.
  apply (explanations_never_empty Config.default SCAM 0.9 0.6
           (analyze easypaisa_message any_info)
           (process easypaisa_message (Some "auto"%string))).
  vm_compute. reflexivity.
Defined.

(** The words [hai], [aap] and [apka] stand inside longer words only. *)
Lemma translation_keeps_other_words_witness :
  _translate_roman_urdu (str "kohai aapka") = str "kohai aapka".
Proof.
  apply (translation_keeps_other_words (str "kohai aapka")).
  intros e i He Hocc.
  assert (found (str "kohai aapka") (bounded (lit e.1)) = true) as Hf.
  { unfold translations in He.
    repeat (apply elem_of_cons in He as [->|He];
            [apply found_bounded; [done|done|];
             eexists _, i; split; [by left|done]|]).
    by apply elem_of_nil in He. }
  unfold translations in He.
  repeat (apply elem_of_cons in He as [->|He];
          [vm_compute in Hf; discriminate|]).
  by apply elem_of_nil in He.
Defined.

Lemma has_urls_flags_rules_witness :
  ∃ a',
    analytics (engine_of (analyze_message no_digest Config.default steady 0 0
                            easypaisa_message (Some "auto"%string)))
    = Some a'
    ∧ last (Analytics.detections a')
      = Some (Analytics.make_record no_digest 0
                (result_of (analyze_message no_digest Config.default steady
                              0 0 easypaisa_message (Some "auto"%string)))
                easypaisa_message)
    ∧ Analytics.has_urls
        (Analytics.make_record no_digest 0
           (result_of (analyze_message no_digest Config.default steady 0 0
                         easypaisa_message (Some "auto"%string)))
           easypaisa_message)
      = bool_decide
          (r_triggered_rules
             (result_of (analyze_message no_digest Config.default steady 0 0
                           easypaisa_message (Some "auto"%string))) ≠ [])
    ∧ Analytics.message_length
        (Analytics.make_record no_digest 0
           (result_of (analyze_message no_digest Config.default steady 0 0
                         easypaisa_message (Some "auto"%string)))
           easypaisa_message)
      = length easypaisa_message.
Proof.
  apply (has_urls_flags_rules no_digest Config.default steady Analytics.init
           0 0 easypaisa_message (Some "auto"%string)
           (result_of (analyze_message no_digest Config.default steady 0 0
                         easypaisa_message (Some "auto"%string)))
           (engine_of (analyze_message no_digest Config.default steady 0 0
                         easypaisa_message (Some "auto"%string)))).
  - reflexivity.
  - vm_compute. reflexivity.
Defined.

End Witnesses.

Section IntelEndpoint.
Import Config Engine Api Analytics ThreatIntel.
Variable sha256_16 : text → text.
Variable settings : Settings.

(** X25.  [GET /threat-intelligence] on an engine that has a tracker, after
    any number of requests to [/analyze], answers 503 when analytics is off
    and a report otherwise, never 500.  The report lists no emerging threats
    and at most five top threats, has a scam rate between 0 and 100, and
    recommends exactly when the rate exceeds 30.  With no detection in the
    last 24 hours all its figures are zero and its lists empty. *)
Theorem threat_report_total (e : DetectionEngine) (a0 : ScamAnalytics)
  (requests : list (Z * Z * MessageRequest)) (now_stats now_report : Z) :
  analytics e = Some a0 →
  let e' := foldl (serve sha256_16 settings) e requests in
  match get_threat_intelligence settings e' now_stats now_report with
  | Unavailable status_code d =>
      status_code = 503%Z ∧ d = AnalyticsNotEnabled
      ∧ ENABLE_ANALYTICS settings = false
  | Report r =>
      ENABLE_ANALYTICS settings = true
      ∧ (∃ a, analytics e' = Some a
              ∧ r = generate_report a now_stats now_report
              ∧ (window a now_stats 24 = [] →
                 total_scams_24h r = 0 ∧ (scam_rate_24h r == 0)%Q
                 ∧ (average_risk_score r == 0)%Q ∧ top_threats r = []
                 ∧ most_impersonated_brands r = []
                 ∧ recommendations r = []))
      ∧ report_generated r = now_report
      ∧ emerging_threats r = []
      ∧ length (top_threats r) ≤ 5
      ∧ (0 <= scam_rate_24h r <= 100)%Q
      ∧ (recommendations r = [HighScamActivity] ↔ (30 < scam_rate_24h r)%Q)
      ∧ (recommendations r = [] ↔ (scam_rate_24h r <= 30)%Q)
  end.
Proof.
  intros H0. cbv zeta. unfold get_threat_intelligence.
  destruct (ENABLE_ANALYTICS settings) eqn:Hen; cbn [negb]; [|done].
  destruct (served_tracker sha256_16 settings e a0 requests H0)
    as (a & -> & _).
  split; [done|]. split.
  { exists a. split; [done|]. split; [done|]. intros Hw.
    unfold generate_report, _generate_recommendations, get_statistics.
    cbv zeta. rewrite Hw.
    cbn [total_scams_24h scam_rate_24h average_risk_score top_threats
         most_impersonated_brands recommendations Reports.scam_count_of
         scam_rate_of top_patterns_of take].
    done. }
  unfold generate_report. cbv zeta.
  cbn [report_generated emerging_threats top_threats scam_rate_24h
       recommendations].
  split; [done|]. split; [done|].
  split; [rewrite length_take; lia|].
  assert (Hr : (0 <= scam_rate_of (get_statistics a now_stats 24) <= 100)%Q).
  { unfold get_statistics. cbv zeta.
    destruct (window a now_stats 24) as [|d ds]; [cbn; lra|].
    cbn [scam_rate_of scam_percentage].
    apply (round_between _ 0 100). apply nat_q_ratio_range; [|cbn; lia].
    apply filter_length_le. }
  split; [done|].
  unfold _generate_recommendations. cbv zeta.
  destruct (Qle_bool _ 30) eqn:E; cbn [negb].
  - apply Qle_bool_iff in E. split; [split; [done|lra]|done].
  - assert (30 < scam_rate_of (get_statistics a now_stats 24))%Q as Hlt.
    { apply Qnot_le_lt. intros H. apply Qle_bool_iff in H. congruence. }
    split; [done|]. split; [done|lra].
Qed.

End IntelEndpoint.

Section ServiceCases.
Import Config Engine Api Examples Cases.

(** One request to [/analyze], then the statistics of the last day. *)
Lemma analytics_endpoint_status_witness :
  match get_analytics Config.default
          (foldl (serve no_digest Config.default) steady [(0%Z, 0%Z, request)])
          3600 24 with
  | Rejected status_code d =>
      (status_code = 503%Z ∧ d = AnalyticsNotEnabled
       ∧ ENABLE_ANALYTICS Config.default = false)
      ∨ (status_code = 400%Z ∧ d = HoursOutOfRange
         ∧ ENABLE_ANALYTICS Config.default = true
         ∧ (24 < 1 ∨ 168 < 24)%Z)
  | Stats s =>
      ENABLE_ANALYTICS Config.default = true ∧ (1 ≤ 24 ≤ 168)%Z
      ∧ ∃ a, analytics (foldl (serve no_digest Config.default) steady
                          [(0%Z, 0%Z, request)]) = Some a
             ∧ s = Analytics.get_statistics a 3600 24
             ∧ length (Analytics.detections a)
               ≤ length (Analytics.detections Analytics.init)
                 + length [(0%Z, 0%Z, request)]
  end.
Proof.
  apply (analytics_endpoint_status no_digest Config.default steady
           Analytics.init [(0%Z, 0%Z, request)] 3600 24).
  reflexivity.
Defined.

(** One request to [/analyze], then the report. *)
Lemma threat_report_total_witness :
  match ThreatIntel.get_threat_intelligence Config.default
          (foldl (serve no_digest Config.default) steady [(0%Z, 0%Z, request)])
          3600 3601 with
  | ThreatIntel.Unavailable status_code d =>
      status_code = 503%Z ∧ d = AnalyticsNotEnabled
      ∧ ENABLE_ANALYTICS Config.default = false
  | ThreatIntel.Report r =>
      ENABLE_ANALYTICS Config.default = true
      ∧ (∃ a, analytics (foldl (serve no_digest Config.default) steady
                           [(0%Z, 0%Z, request)]) = Some a
              ∧ r = ThreatIntel.generate_report a 3600 3601
              ∧ (Analytics.window a 3600 24 = [] →
                 ThreatIntel.total_scams_24h r = 0
                 ∧ (ThreatIntel.scam_rate_24h r == 0)%Q
                 ∧ (ThreatIntel.average_risk_score r == 0)%Q
                 ∧ ThreatIntel.top_threats r = []
                 ∧ ThreatIntel.most_impersonated_brands r = []
                 ∧ ThreatIntel.recommendations r = []))
      ∧ ThreatIntel.report_generated r = 3601%Z
      ∧ ThreatIntel.emerging_threats r = []
      ∧ length (ThreatIntel.top_threats r) ≤ 5
      ∧ (0 <= ThreatIntel.scam_rate_24h r <= 100)%Q
      ∧ (ThreatIntel.recommendations r = [ThreatIntel.HighScamActivity]
         ↔ (30 < ThreatIntel.scam_rate_24h r)%Q)
      ∧ (ThreatIntel.recommendations r = []
         ↔ (ThreatIntel.scam_rate_24h r <= 30)%Q)
  end.
Proof.
  apply (threat_report_total no_digest Config.default steady Analytics.init
           [(0%Z, 0%Z, request)] 3600 3601).
  reflexivity.
Defined.

End ServiceCases.

Section Screenshots.
Import Screenshot.

Lemma checked_flag k cond i inc r :
  check_of i = S k → (0 < inc)%Q → checked k r →
  checked (S k) (flag cond i inc r).
Proof.
  intros Hi Hinc (Hs & Hf & Hp). unfold flag. destruct cond.
  - cbn [fst snd]. split; [|split].
    + apply StronglySorted_app_2; [|done|repeat constructor].
      intros x y Hx ->%list_elem_of_singleton.
      rewrite Forall_forall in Hf. specialize (Hf x Hx). lia.
    + apply Forall_app. split; [|apply Forall_singleton; lia].
      eapply Forall_impl; [exact Hf|]. cbn. lia.
    + right. split; [by destruct r.1|]. cbn [snd].
      destruct Hp as [[_ H]|[_ H]]; lra.
  - split; [done|]. split; [|done].
    eapply Forall_impl; [exact Hf|]. cbn. lia.
Qed.

Lemma checked_skip k r : checked k r → checked (S k) r.
Proof.
  intros (Hs & Hf & Hp). split; [done|]. split; [|done].
  eapply Forall_impl; [exact Hf|]. cbn. lia.
Qed.

Lemma checked_amount t r : checked 3 r → checked 4 (amount_check t r).
Proof.
  intros H. unfold amount_check. destruct (search AMOUNT t); [|by apply checked_skip].
  cbv zeta. destruct (List.filter _ _); [by apply checked_skip|].
  destruct (_ <? _)%N; [by apply checked_flag|].
  destruct (_ && _); [by apply checked_flag|by apply checked_skip].
Qed.

Lemma checked_date t r : checked 4 r → checked 5 (date_check t r).
Proof.
  intros H. unfold date_check. destruct (search DATE t); [|by apply checked_skip].
  cbv zeta. by apply checked_flag.
Qed.

Lemma checked_checks a t : checked 7 (checks a t).
Proof.
  unfold checks. cbv zeta.
  apply checked_flag; [done|done|].
  apply checked_flag; [done|done|].
  apply checked_date, checked_amount.
  apply checked_flag; [done|done|].
  apply checked_flag; [done|done|].
  apply checked_flag; [done|done|].
  split; [constructor|]. split; [constructor|]. left. done.
Qed.

Lemma sorted_checks_length (l : list fraud_indicator) k :
  StronglySorted (λ x y, check_of x < check_of y) l →
  Forall (λ x, 1 ≤ check_of x ≤ k) l → length l ≤ k.
Proof.
  revert k. induction l as [|x l IH] using rev_ind; intros k Hs Hf; [cbn; lia|].
  apply StronglySorted_app in Hs as (Hlt & Hl & _).
  apply Forall_app in Hf as [Hf Hx]. rewrite Forall_singleton in Hx.
  rewrite length_app. cbn [length].
  destruct k as [|k]; [lia|].
  assert (length l ≤ k); [|lia]. apply IH; [done|].
  apply Forall_forall. intros y Hy. rewrite Forall_forall in Hf.
  specialize (Hf y Hy). specialize (Hlt y x Hy ltac:(by left)). lia.
Qed.

Lemma detect_app_known t name a :
  detect_app t = Some (name, a) → (name, a) ∈ PAYMENT_APP_PATTERNS.
Proof.
  unfold detect_app. intros H. apply find_some in H as [H _].
  by apply list_elem_of_In.
Qed.

Lemma find_first {A} (f : A → bool) (l : list A) (x : A) :
  List.find f l = Some x →
  ∃ l1 l2, l = l1 ++ x :: l2 ∧ f x = true ∧ ∀ y, y ∈ l1 → f y = false.
Proof.
  induction l as [|y l IH]; [done|]. cbn [List.find].
  destruct (f y) eqn:E.
  - intros [= <-]. exists [], l. split; [done|]. split; [done|].
    by intros z ?%elem_of_nil.
  - intros (l1 & l2 & -> & Hx & Hl)%IH. exists (y :: l1), l2.
    split; [done|]. split; [done|].
    intros z [->|Hz]%elem_of_cons; [done|by apply Hl].
Qed.

Lemma any_in_spec (words : list string) (t : text) :
  any_in words t = true ↔ ∃ w, w ∈ words ∧ contains (str w) t = true.
Proof.
  unfold any_in. rewrite existsb_exists. split.
  - intros (w & Hw & Hc). exists w. split; [by apply list_elem_of_In|done].
  - intros (w & Hw & Hc). exists w. split; [by apply list_elem_of_In|done].
Qed.

(** X26.  The analysis of an ASCII screenshot text.  The text is a payment
    screenshot exactly when its lower case has a header of one of the three
    apps, and the app detected is the first, in the order of the table,
    with a header in it.  A text without a header has no app, no indicator,
    risk 0 and confidence 0.  With an app, the indicators are at most one
    for each of the seven checks, the risk lies between 0 and 1 and is 0
    exactly when there is no indicator, and the confidence is 0.5 without
    an indicator and 0.8 with one. *)
Theorem screenshot_analysis_spec (extracted_text : text) :
  isascii extracted_text = true →
  let a := analyze_text_from_image extracted_text in
  (0 <= risk_score a <= 1)%Q
  ∧ NoDup (fraud_indicators a)
  ∧ length (fraud_indicators a) ≤ 7
  ∧ (fraud_indicators a = [] ↔ (risk_score a == 0)%Q)
  ∧ (is_payment_screenshot a = true
     ↔ ∃ name app header,
         (name, app) ∈ PAYMENT_APP_PATTERNS ∧ header ∈ header_text app
         ∧ contains (str header) (lower extracted_text) = true)
  ∧ match detected_app a with
    | None =>
        is_payment_screenshot a = false
        ∧ fraud_indicators a = []
        ∧ (confidence a == 0)%Q
    | Some name =>
        is_payment_screenshot a = true
        ∧ (∃ earlier app later header,
             PAYMENT_APP_PATTERNS = earlier ++ (name, app) :: later
             ∧ header ∈ header_text app
             ∧ contains (str header) (lower extracted_text) = true
             ∧ ∀ e h, e ∈ earlier → h ∈ header_text e.2 →
                      contains (str h) (lower extracted_text) = false)
        ∧ (confidence a == if bool_decide (fraud_indicators a = [])
                           then 0.5 else 0.8)%Q
    end.
Proof.
  intros _. cbv zeta. unfold analyze_text_from_image.
  destruct (detect_app (lower extracted_text)) as [[name a]|] eqn:E.
  - cbv zeta. cbn [risk_score fraud_indicators detected_app confidence
                   is_payment_screenshot].
    destruct (checked_checks a extracted_text) as (Hs & Hf & Hp).
    unfold detect_app in E.
    apply find_first in E as (earlier & later & Hl & Hx & Hearlier).
    cbn [snd] in Hx. apply any_in_spec in Hx as (header & Hh & Hc).
    split.
    { split; [|apply Q.le_min_r]. apply Q.min_glb; [|lra].
      destruct Hp as [[_ H]|[_ H]]; lra. }
    split.
    { clear Hf Hp. induction Hs as [|x l Hl' IH Hx]; constructor; [|done].
      intros Hin. rewrite Forall_forall in Hx. specialize (Hx x Hin). lia. }
    split.
    { apply sorted_checks_length; [done|].
      eapply Forall_impl; [exact Hf|]. intros x Hx. cbn beta in *.
      split; [destruct x; cbn; lia|done]. }
    split.
    { destruct Hp as [[H1 H2]|[H1 H2]].
      - split; [|done]. intros _. rewrite H2. reflexivity.
      - split; [done|]. intros H0. exfalso.
        destruct (Q.min_spec (checks a extracted_text).2 1) as [[_ Em]|[_ Em]];
          rewrite Em in H0; lra. }
    split.
    { split; [|done]. intros _. exists name, a, header.
      split; [|done]. rewrite Hl. apply elem_of_app. right. by left. }
    split; [done|]. split.
    { exists earlier, a, later, header. split; [done|]. split; [done|].
      split; [done|]. intros e h He Hh'.
      specialize (Hearlier e He). cbn beta in Hearlier.
      destruct (contains (str h) (lower extracted_text)) eqn:Ec; [|done].
      assert (any_in (header_text e.2) (lower extracted_text) = true) as Ha
        by (apply any_in_spec; eauto).
      congruence. }
    destruct (checks a extracted_text).1; [by rewrite bool_decide_eq_true_2|].
    by rewrite bool_decide_eq_false_2.
  - cbn [risk_score fraud_indicators detected_app confidence
         is_payment_screenshot].
    split; [lra|]. split; [constructor|]. split; [cbn; lia|].
    split; [done|]. split; [|done].
    split; [done|]. intros (name & app & header & Hin & Hh & Hc). exfalso.
    unfold detect_app in E.
    pose proof (find_none _ _ E (name, app)) as Hn.
    cbn beta in Hn. cbn [snd] in Hn.
    rewrite (proj2 (any_in_spec (header_text app) (lower extracted_text)))
      in Hn by eauto.
    assert (true = false); [|done]. apply Hn. by apply list_elem_of_In.
Qed.

(** A receipt of Easypaisa with its transaction identifier. *)
Lemma screenshot_analysis_spec_witness :
  (0 <= risk_score (analyze_text_from_image Cases.receipt) <= 1)%Q
  ∧ NoDup (fraud_indicators (analyze_text_from_image Cases.receipt))
  ∧ length (fraud_indicators (analyze_text_from_image Cases.receipt)) ≤ 7
  ∧ (fraud_indicators (analyze_text_from_image Cases.receipt) = []
     ↔ (risk_score (analyze_text_from_image Cases.receipt) == 0)%Q)
  ∧ (is_payment_screenshot (analyze_text_from_image Cases.receipt) = true
     ↔ ∃ name app header,
         (name, app) ∈ PAYMENT_APP_PATTERNS ∧ header ∈ header_text app
         ∧ contains (str header) (lower Cases.receipt) = true)
  ∧ match detected_app (analyze_text_from_image Cases.receipt) with
    | None =>
        is_payment_screenshot (analyze_text_from_image Cases.receipt) = false
        ∧ fraud_indicators (analyze_text_from_image Cases.receipt) = []
        ∧ (confidence (analyze_text_from_image Cases.receipt) == 0)%Q
    | Some name =>
        is_payment_screenshot (analyze_text_from_image Cases.receipt) = true
        ∧ (∃ earlier app later header,
             PAYMENT_APP_PATTERNS = earlier ++ (name, app) :: later
             ∧ header ∈ header_text app
             ∧ contains (str header) (lower Cases.receipt) = true
             ∧ ∀ e h, e ∈ earlier → h ∈ header_text e.2 →
                      contains (str h) (lower Cases.receipt) = false)
        ∧ (confidence (analyze_text_from_image Cases.receipt)
           == if bool_decide
                   (fraud_indicators (analyze_text_from_image Cases.receipt)
                    = [])
              then 0.5 else 0.8)%Q
    end.
Proof.
  apply (screenshot_analysis_spec Cases.receipt). vm_compute. reflexivity.
Defined.

Lemma grows_flag cond i inc : (0 < inc)%Q → grows (flag cond i inc).
Proof.
  intros Hinc r. unfold flag. destruct cond; cbn [fst snd].
  - split; [|lra]. intros j Hj. apply elem_of_app. by left.
  - split; [done|lra].
Qed.

Lemma grows_amount t : grows (amount_check t).
Proof.
  intros r. unfold amount_check.
  destruct (search AMOUNT t); [|split; [done|lra]]. cbv zeta.
  destruct (List.filter _ _); [split; [done|lra]|].
  destruct (_ <? _)%N; [by apply grows_flag|].
  destruct (_ && _); [by apply grows_flag|split; [done|lra]].
Qed.

Lemma grows_date t : grows (date_check t).
Proof.
  intros r. unfold date_check.
  destruct (search DATE t); [|split; [done|lra]]. by apply grows_flag.
Qed.

Lemma developer_tools_found a t :
  any_in INSPECT_KEYWORDS (lower t) = true →
  DeveloperTools ∈ (checks a t).1 ∧ (0.9 <= (checks a t).2)%Q.
Proof.
  intros Hk. unfold checks. cbv zeta. rewrite Hk.
  set (r2 := flag (negb (bool_decide _)) _ _ _).
  assert (H0 : (0 <= r2.2)%Q).
  { unfold r2, flag. destruct (negb (bool_decide _)), (negb (RuleDetector.found _ _));
      cbn; lra. }
  set (r3 := flag true DeveloperTools 0.9 r2).
  assert (H3 : DeveloperTools ∈ r3.1 ∧ (0.9 <= r3.2)%Q).
  { unfold r3, flag. cbn [fst snd]. split; [|lra].
    apply elem_of_app. right. by left. }
  clearbody r3. clear r2 H0.
  destruct H3 as [Hin Hle].
  destruct (grows_amount (lower t) r3) as [G1 G1'].
  destruct (grows_date t (amount_check (lower t) r3)) as [G2 G2'].
  set (r5 := date_check t (amount_check (lower t) r3)) in *.
  destruct (grows_flag (contains (str "screenshot") (lower t)
                        || contains (str "screen capture") (lower t))
              ScreenshotWatermark 0.15 ltac:(lra) r5) as [G3 G3'].
  set (r6 := flag _ ScreenshotWatermark 0.15 r5) in *.
  destruct (grows_flag (1 <? length (finditer (Class is_currency) t))%nat
              MultipleCurrencies 0.2 ltac:(lra) r6) as [G4 G4'].
  split; [auto|lra].
Qed.

Lemma report_ignores_path (extracted_text : text) (image_path : option text)
  (now : Z) :
  generate_screenshot_report extracted_text image_path now
  = generate_screenshot_report extracted_text None now.
Proof.
  unfold generate_screenshot_report. cbv zeta.
  destruct image_path as [p|]; [|done].
  destruct (bool_decide (p = [])); done.
Qed.

Lemma risk_range (extracted_text : text) :
  (0 <= risk_score (analyze_text_from_image extracted_text) <= 1)%Q.
Proof.
  unfold analyze_text_from_image.
  destruct (detect_app (lower extracted_text)) as [[name a]|]; [|cbn; lra].
  cbv zeta. cbn [risk_score].
  destruct (checked_checks a extracted_text) as (_ & _ & Hp).
  split; [|apply Q.le_min_r]. apply Q.min_glb; [|lra].
  destruct Hp as [[_ H]|[_ H]]; lra.
Qed.

(** X27.  A text with a header of a payment app and a keyword of the
    browser's developer tools is reported as fake, whatever else it says
    and whatever the image: the risk is between 90 and 100, and the advice
    has the lines not to trust it and that developer tools are shown. *)
Theorem developer_tools_mean_fake (extracted_text : text)
  (image_path : option text) (now : Z) :
  is_Some (detect_app (lower extracted_text)) →
  any_in INSPECT_KEYWORDS (lower extracted_text) = true →
  let r := generate_screenshot_report extracted_text image_path now in
  classification r = Fake
  ∧ (90 <= report_risk_score r <= 100)%Q
  ∧ DeveloperTools ∈ report_fraud_indicators r
  ∧ DoNotTrust ∈ recommendations r
  ∧ DeveloperToolsShown ∈ recommendations r.
Proof.
  intros [[name a] Hd] Hk. cbv zeta. rewrite report_ignores_path.
  unfold generate_screenshot_report. cbv zeta.
  cbn [classification report_risk_score report_fraud_indicators
       recommendations].
  pose proof (risk_range extracted_text) as Hr.
  assert (Ha : DeveloperTools
               ∈ fraud_indicators (analyze_text_from_image extracted_text)
               ∧ (0.9 <= risk_score (analyze_text_from_image extracted_text))%Q).
  { unfold analyze_text_from_image. rewrite Hd. cbv zeta.
    cbn [fraud_indicators risk_score].
    destruct (developer_tools_found a extracted_text Hk) as [H1 H2].
    split; [done|]. apply Q.min_glb; lra. }
  destruct Ha as [Hin Hle].
  set (risk := risk_score (analyze_text_from_image extracted_text)) in *.
  assert (Hmin : (Qmin risk 1 == risk)%Q).
  { destruct (Q.min_spec risk 1) as [[? ->]|[? ->]]; lra. }
  assert (Qle_bool 0.7 (Qmin risk 1) = true) as ->.
  { apply Qle_bool_iff. lra. }
  split; [done|]. split.
  { apply (round_between _ 90 100).
    change (inject_Z 90) with 90%Q. change (inject_Z 100) with 100%Q. lra. }
  split; [done|]. unfold _generate_recommendations.
  rewrite (bool_decide_eq_true_2 _ Hin).
  split; [by left|].
  rewrite !elem_of_app. right. left. by left.
Qed.

Lemma developer_tools_mean_fake_witness :
  classification
    (generate_screenshot_report
       (str "Easypaisa payment received - Inspect Element")
       (Some (str "shot.png")) 0) = Fake
  ∧ (90 <= report_risk_score
             (generate_screenshot_report
                (str "Easypaisa payment received - Inspect Element")
                (Some (str "shot.png")) 0) <= 100)%Q
  ∧ DeveloperTools
    ∈ report_fraud_indicators
        (generate_screenshot_report
           (str "Easypaisa payment received - Inspect Element")
           (Some (str "shot.png")) 0)
  ∧ DoNotTrust
    ∈ recommendations
        (generate_screenshot_report
           (str "Easypaisa payment received - Inspect Element")
           (Some (str "shot.png")) 0)
  ∧ DeveloperToolsShown
    ∈ recommendations
        (generate_screenshot_report
           (str "Easypaisa payment received - Inspect Element")
           (Some (str "shot.png")) 0).
Proof.
  apply (developer_tools_mean_fake
           (str "Easypaisa payment received - Inspect Element")
           (Some (str "shot.png")) 0).
  - vm_compute. eauto.
  - vm_compute. reflexivity.
Defined.

(** X28.  The report of a screenshot does not depend on the image: the
    metadata check reads nothing.  It is fake from a risk of 0.7, suspicious
    from 0.4 and authentic below, its risk score is the risk as a percentage
    between 0 and 100, and it gives the three or four lines of advice of its
    classification, and one more for each of developer tools and an invalid
    transaction identifier.  A text that is no payment screenshot is
    authentic with risk 0. *)
Theorem screenshot_report_spec (extracted_text : text)
  (image_path : option text) (now : Z) :
  let a := analyze_text_from_image extracted_text in
  let r := generate_screenshot_report extracted_text image_path now in
  r = generate_screenshot_report extracted_text None now
  ∧ metadata_warnings r = []
  ∧ (classification r = Fake ↔ (0.7 <= risk_score a)%Q)
  ∧ (classification r = Suspicious
     ↔ (0.4 <= risk_score a)%Q ∧ (risk_score a < 0.7)%Q)
  ∧ (classification r = Authentic ↔ (risk_score a < 0.4)%Q)
  ∧ (0 <= report_risk_score r <= 100)%Q
  ∧ 3 ≤ length (recommendations r) ≤ 6
  ∧ (DeveloperToolsShown ∈ recommendations r
     ↔ DeveloperTools ∈ fraud_indicators a)
  ∧ (IdFormatIncorrect ∈ recommendations r
     ↔ InvalidTransactionId ∈ fraud_indicators a)
  ∧ (is_payment_screenshot a = false →
     classification r = Authentic ∧ (report_risk_score r == 0)%Q
     ∧ recommendations r
       = [AppearsAuthentic; StillVerify; CrossCheckTransactionId]).
Proof.
  cbv zeta. split; [apply report_ignores_path|].
  rewrite report_ignores_path.
  unfold generate_screenshot_report. cbv zeta.
  cbn [classification report_risk_score metadata_warnings recommendations].
  pose proof (risk_range extracted_text) as Hr.
  set (a := analyze_text_from_image extracted_text) in *.
  assert (Hmin : (Qmin (risk_score a) 1 == risk_score a)%Q).
  { destruct (Q.min_spec (risk_score a) 1) as [[? ->]|[? ->]]; lra. }
  split; [done|].
  assert (Hrange : (0 <= round (Qmin (risk_score a) 1 * 100) 2 <= 100)%Q).
  { apply (round_between _ 0 100).
    change (inject_Z 0) with 0%Q. change (inject_Z 100) with 100%Q. lra. }
  assert (H7 : Qle_bool 0.7 (Qmin (risk_score a) 1) = true
              ↔ (0.7 <= risk_score a)%Q).
  { rewrite Qle_bool_iff. split; lra. }
  assert (H4 : Qle_bool 0.4 (Qmin (risk_score a) 1) = true
              ↔ (0.4 <= risk_score a)%Q).
  { rewrite Qle_bool_iff. split; lra. }
  destruct (Qle_bool 0.7 (Qmin (risk_score a) 1)) eqn:E7;
    [assert (0.7 <= risk_score a)%Q as B7 by (by apply H7)
    |assert (risk_score a < 0.7)%Q as B7
       by (apply Qnot_le_lt; intros ?%H7; congruence);
     destruct (Qle_bool 0.4 (Qmin (risk_score a) 1)) eqn:E4;
       [assert (0.4 <= risk_score a)%Q as B4 by (by apply H4)
       |assert (risk_score a < 0.4)%Q as B4
          by (apply Qnot_le_lt; intros ?%H4; congruence)]].
  all: clear H7 H4.
  all: split; [split; first [done | intros; lra]|].
  all: split; [split; first [done | intros; lra | intros [? ?]; lra]|].
  all: split; [split; first [done | intros; lra]|].
  all: split; [exact Hrange|].
  all: unfold _generate_recommendations.
  all: split; [rewrite !length_app; repeat case_bool_decide; cbn [length]; lia|].
  all: split;
    [rewrite !elem_of_app; repeat case_bool_decide;
     rewrite ?elem_of_cons, ?elem_of_nil;
     intuition (first [done | discriminate])|].
  all: split;
    [rewrite !elem_of_app; repeat case_bool_decide;
     rewrite ?elem_of_cons, ?elem_of_nil;
     intuition (first [done | discriminate])|].
  all: intros Hp; unfold a, analyze_text_from_image in *.
  all: destruct (detect_app (lower extracted_text)) as [[name ap]|]; [done|].
  all: cbn [risk_score fraud_indicators] in *.
  all: try lra.
  split; [done|]. split; [|done].
  pose proof (round_between (Qmin 0 1 * 100) 0 0 2) as H.
  change (inject_Z 0) with 0%Q in H.
  assert (Qmin 0 1 * 100 == 0)%Q as Hz by (vm_compute; reflexivity).
  lra.
Qed.

End Screenshots.

Section Identifiers.
Import Screenshot.

Lemma matches_id_pattern prefix n (t : text) :
  matches_start (id_pattern prefix n) t = true
  ↔ starts_with (str prefix) t = true
    ∧ n ≤ run Char.is_digit (drop (length (str prefix)) t).
Proof.
  unfold matches_start, id_pattern, lit. cbn [rmatch].
  destruct (starts_with (str prefix) t); cbn [flat_map].
  - rewrite app_nil_r. cbn [char_before].
    set (k := run Char.is_digit (drop (length (str prefix)) t)).
    destruct (Nat.leb_spec n k) as [Hle|Hgt].
    + replace (S k - n) with (S (k - n)) by lia.
      rewrite rev_seq_S. cbn. split; [intros _; split; [done|lia]|done].
    + cbn. split; [done|]. intros [_ ?]. lia.
  - split; [done|]. by intros [? _].
Qed.

Lemma starts_with_extend (w t u : text) :
  starts_with w t = true → starts_with w (t ++ u) = true.
Proof.
  revert t. induction w as [|c w IH]; intros [|d t]; cbn; try done.
  intros [-> H]%andb_true_iff. cbn. by apply IH.
Qed.

Lemma run_app_le p (s u : text) : run p s ≤ run p (s ++ u).
Proof.
  induction s as [|c s IH]; cbn; [lia|]. destruct (p c); lia.
Qed.

Lemma find_app app_name prefix n :
  (app_name, (prefix, n)) ∈ ID_FORMATS →
  ∃ a, List.find (λ e : string * payment_app, bool_decide (e.1 = app_name))
         PAYMENT_APP_PATTERNS = Some (app_name, a)
       ∧ id_format a = id_pattern prefix n
       ∧ 10 ≤ length (str prefix) + n.
Proof.
  unfold ID_FORMATS.
  intros [[= -> -> ->]|[[= -> -> ->]|[[= -> -> ->]|[]%elem_of_nil]%elem_of_cons]%elem_of_cons]%elem_of_cons;
    (eexists; split; [vm_compute; reflexivity|]; split; [reflexivity|cbn; lia]).
Qed.

(** X29.  [verify_transaction_id] for an ASCII identifier and one of the
    three apps: the format is
    valid exactly when the identifier begins with the prefix of the app
    followed by at least its number of digits; anything may follow.  An
    identifier of a valid format has at least ten characters, so it is
    called unusual only above twenty.  The checksum is valid exactly when
    the identifier has a digit and the sum of its digits does not end in
    0. *)
Theorem transaction_id_format (transaction_id : text) (app_name : string)
  (prefix : string) (n : nat) :
  isascii transaction_id = true →
  (app_name, (prefix, n)) ∈ ID_FORMATS →
  let v := verify_transaction_id transaction_id app_name in
  (is_valid_format v = true
   ↔ starts_with (str prefix) transaction_id = true
     ∧ n ≤ run Char.is_digit (drop (length (str prefix)) transaction_id))
  ∧ (is_valid_format v = true →
     10 ≤ length transaction_id
     ∧ (UnusualLength ∈ id_warnings v ↔ 20 < length transaction_id)
     ∧ (∀ rest, is_valid_format
                  (verify_transaction_id (transaction_id ++ rest) app_name)
                = true))
  ∧ (InvalidFormat ∈ id_warnings v ↔ is_valid_format v = false)
  ∧ (UnknownPaymentApp ∉ id_warnings v)
  ∧ (checksum_valid v = true
     ↔ List.filter Char.is_digit transaction_id ≠ []
       ∧ (digit_sum transaction_id mod 10 ≠ 0)%N).
Proof.
  intros _ Hin. destruct (find_app _ _ _ Hin) as (a & Hfind & Hfmt & Hlen).
  cbv zeta. unfold verify_transaction_id. rewrite !Hfind. cbv zeta.
  cbn [is_valid_format checksum_valid id_warnings]. rewrite Hfmt.
  pose proof (matches_id_pattern prefix n transaction_id) as Hm.
  split; [done|]. split; [|split; [|split]].
  - intros Hv. apply Hm in Hv as [Hs Hn].
    assert (Hl : length (str prefix) + n ≤ length transaction_id).
    { pose proof (run_le Char.is_digit
                    (drop (length (str prefix)) transaction_id)) as Hr.
      rewrite length_drop in Hr.
      pose proof (starts_with_length _ _ Hs). lia. }
    split; [lia|]. split.
    + rewrite (proj2 Hm) by done. cbn [app].
      destruct (Nat.ltb_spec (length transaction_id) 10); [lia|]. cbn [orb].
      destruct (Nat.ltb_spec 20 (length transaction_id)).
      * split; [done|]. intros _. by left.
      * split; [by intros ?%elem_of_nil|lia].
    + intros rest. rewrite ?Hfind. cbn [is_valid_format]. rewrite ?Hfmt.
      apply matches_id_pattern. split.
      * by apply starts_with_extend.
      * pose proof (starts_with_length _ _ Hs).
        rewrite drop_app_le by lia.
        pose proof (run_app_le Char.is_digit
                      (drop (length (str prefix)) transaction_id) rest).
        lia.
  - rewrite elem_of_app.
    destruct (matches_start (id_pattern prefix n) transaction_id); cbn.
    + split; [|done]. intros [?%elem_of_nil|H]; [done|].
      destruct (_ || _); [|by apply elem_of_nil in H].
      by apply list_elem_of_singleton in H.
    + split; [done|]. intros _. left. by left.
  - rewrite elem_of_app.
    destruct (matches_start _ _), (_ || _);
      rewrite ?elem_of_cons, ?elem_of_nil;
      intuition (first [done | discriminate]).
  - destruct (List.filter Char.is_digit transaction_id) eqn:E.
    + split; [done|]. by intros [? _].
    + rewrite negb_true_iff, N.eqb_neq. split; [done|]. by intros [_ ?].
Qed.

Lemma transaction_id_format_witness :
  (is_valid_format (verify_transaction_id (str "EP1234567890") "easypaisa")
   = true
   ↔ starts_with (str "EP") (str "EP1234567890") = true
     ∧ 10 ≤ run Char.is_digit (drop (length (str "EP")) (str "EP1234567890")))
  ∧ (is_valid_format (verify_transaction_id (str "EP1234567890") "easypaisa")
     = true →
     10 ≤ length (str "EP1234567890")
     ∧ (UnusualLength
        ∈ id_warnings (verify_transaction_id (str "EP1234567890") "easypaisa")
        ↔ 20 < length (str "EP1234567890"))
     ∧ (∀ rest, is_valid_format
                  (verify_transaction_id (str "EP1234567890" ++ rest)
                     "easypaisa")
                = true))
  ∧ (InvalidFormat
     ∈ id_warnings (verify_transaction_id (str "EP1234567890") "easypaisa")
     ↔ is_valid_format (verify_transaction_id (str "EP1234567890") "easypaisa")
       = false)
  ∧ (UnknownPaymentApp
     ∉ id_warnings (verify_transaction_id (str "EP1234567890") "easypaisa"))
  ∧ (checksum_valid (verify_transaction_id (str "EP1234567890") "easypaisa")
     = true
     ↔ List.filter Char.is_digit (str "EP1234567890") ≠ []
       ∧ (digit_sum (str "EP1234567890") mod 10 ≠ 0)%N).
Proof.
  apply (transaction_id_format (str "EP1234567890") "easypaisa" "EP" 10).
  - vm_compute. reflexivity.
  - by left.
Defined.

(** For any other app the function only warns that the app is unknown. *)
Lemma unknown_app (transaction_id : text) (app_name : string) :
  app_name ∉ PAYMENT_APP_PATTERNS.*1 →
  verify_transaction_id transaction_id app_name
  = {| is_valid_format := false; checksum_valid := false;
       id_warnings := [UnknownPaymentApp] |}.
Proof.
  intros Hn. unfold verify_transaction_id.
  destruct (List.find _ _) as [[name a]|] eqn:E; [|done].
  apply find_some in E as [Hin Hname]. apply bool_decide_eq_true in Hname.
  cbn in Hname. subst. destruct Hn. apply list_elem_of_fmap.
  exists (app_name, a). split; [done|]. by apply list_elem_of_In.
Qed.

End Identifiers.
